(** * Daraz review scraper: a shallow embedding of [daraz.py]

    The program drives a Selenium browser through listing pages, product
    pages and paginated review sections and appends one CSV row per review.
    The embedding follows the source function by function:

    - Python [str] values are [string]s (sequences of 8-bit characters;
      non-ASCII text is its UTF-8 encoding), Python [int]s are [Z];
    - a Selenium [WebElement] is a snapshot of what reading the handle
      answers: its text, its attributes and its descendants per CSS
      selector, each of which may raise;
    - the [WebDriver] is an explicit state threaded through every call
      (class [World]); every driver command may change it and may raise;
    - exceptions are explicit results, [try]/[except] is a match on them;
    - the one unbounded loop, the review pagination, takes fuel.

    Sleeps ([time.sleep], [_rand_sleep]) have no effect that the functions
    below observe and are left out. *)

From Stdlib Require Import List String Ascii ZArith Lia Bool Arith.
From Stdlib Require Import DecimalString.
Import ListNotations.
Open Scope string_scope.
Open Scope Z_scope.

Set Implicit Arguments.

(** ** Exceptions and results *)

(** The subclasses of Python's [Exception] that the program names, plus
    [ValueError] (raised by [urllib.parse]) and one constructor for every
    other [WebDriverException]. *)
Inductive Exn : Type :=
| TimeoutException
| NoSuchElementException
| StaleElementReferenceException
| ElementClickInterceptedException
| WebDriverException
| ValueError.

Definition Exn_eqb (a b : Exn) : bool :=
  match a, b with
  | TimeoutException, TimeoutException
  | NoSuchElementException, NoSuchElementException
  | StaleElementReferenceException, StaleElementReferenceException
  | ElementClickInterceptedException, ElementClickInterceptedException
  | WebDriverException, WebDriverException
  | ValueError, ValueError => true
  | _, _ => false
  end.

(** The result of an expression that may raise. *)
Inductive result (A : Type) : Type :=
| Ok (a : A)
| Raise (e : Exn).
Arguments Ok {A} a.
Arguments Raise {A} e.

Definition rbind {A B} (r : result A) (k : A -> result B) : result B :=
  match r with
  | Ok a => k a
  | Raise e => Raise e
  end.

Declare Scope result_scope.
Delimit Scope result_scope with result.
Notation "'let?' x ':=' r 'in' k" := (rbind r (fun x => k))
  (at level 10, x pattern, r at level 100, k at level 200) : result_scope.
Open Scope result_scope.

(** [try: x = e  except NoSuchElementException: pass], with [x] initialised
    to [default] before the [try]. *)
Definition except_NoSuchElement {A} (r : result A) (default : A) : result A :=
  match r with
  | Raise NoSuchElementException => Ok default
  | other => other
  end.

(** ** Strings as Python uses them *)

Module PyStr.

(** [c.isspace()] on the characters below 128: TAB, LF, VT, FF, CR,
    FS, GS, RS, US and the space. *)
Definition isspace (c : ascii) : bool :=
  let n := nat_of_ascii c in
  ((9 <=? n) && (n <=? 13) || (28 <=? n) && (n <=? 32))%nat.

Fixpoint lstrip (s : string) : string :=
  match s with
  | String c s' => if isspace c then lstrip s' else s
  | EmptyString => EmptyString
  end.

(** Drops the trailing white space: a character is kept when it is not
    white space or something kept follows it. *)
Fixpoint rstrip (s : string) : string :=
  match s with
  | EmptyString => EmptyString
  | String c s' =>
      match rstrip s' with
      | EmptyString => if isspace c then EmptyString else String c EmptyString
      | kept => String c kept
      end
  end.

(** [s.strip()] *)
Definition strip (s : string) : string := rstrip (lstrip s).

(** [s.startswith(p)] *)
Definition startswith (s p : string) : bool := String.prefix p s.

(** [needle in hay] *)
Fixpoint contains (needle hay : string) : bool :=
  if String.prefix needle hay then true
  else match hay with
       | EmptyString => false
       | String _ hay' => contains needle hay'
       end.

(** [not s] *)
Definition is_empty (s : string) : bool :=
  match s with EmptyString => true | _ => false end.

(** [c in '0123456789'], the ASCII part of the regular expression [\d]. *)
Definition isdigit (c : ascii) : bool :=
  let n := nat_of_ascii c in ((48 <=? n) && (n <=? 57))%nat.

Definition filter (p : ascii -> bool) (s : string) : string :=
  string_of_list_ascii (List.filter p (list_ascii_of_string s)).

(** [sep.join(parts)] *)
Fixpoint join (sep : string) (parts : list string) : string :=
  match parts with
  | [] => ""
  | [p] => p
  | p :: rest => p ++ sep ++ join sep rest
  end.

(** [s.replace(old, new)] for a non-empty [old], scanning from the left;
    [skip] characters of a match just replaced are still to be dropped. *)
Fixpoint replace_from (old new : string) (skip : nat) (s : string) : string :=
  match s with
  | EmptyString => EmptyString
  | String c s' =>
      match skip with
      | S k => replace_from old new k s'
      | O =>
          if String.prefix old s
          then new ++ replace_from old new (String.length old - 1) s'
          else String c (replace_from old new 0 s')
      end
  end.

(** [s.replace(old, new)]; with an empty [old], [new] goes before every
    character and at the end. *)
Definition replace (old new : string) (s : string) : string :=
  if is_empty old
  then String.concat new
         (EmptyString
            :: List.map (fun c => String c EmptyString) (list_ascii_of_string s)
            ++ [EmptyString])
  else replace_from old new 0 s.

(** [str(n)] for an [int]. *)
Definition of_Z (n : Z) : string := NilZero.string_of_int (Z.to_int n).

(** [int(s)] on a string of ASCII digits. *)
Definition digits_to_Z (s : string) : Z :=
  fold_left (fun acc c => 10 * acc + Z.of_nat (nat_of_ascii c - 48))
            (list_ascii_of_string s) 0.

End PyStr.

(** ** Elements *)

(** A [WebElement] handle, as the program can observe it between two
    driver commands: [el.text], [el.get_attribute(name)] (Selenium answers
    [None] for an attribute that is not there) and
    [el.find_elements(By.CSS_SELECTOR, css)]. *)
#[local] Unset Elimination Schemes.
Inductive Element : Type :=
  mkElement {
      el_text : result string;
      el_get_attribute : string -> result (option string);
      el_find_elements : string -> result (list Element)
    }.
#[local] Set Elimination Schemes.

(** [el.find_element(By.CSS_SELECTOR, css)]: the first match, and
    [NoSuchElementException] when nothing matches. *)
Definition el_find_element (el : Element) (css : string) : result Element :=
  let? found := el_find_elements el css in
  match found with
  | first :: _ => Ok first
  | [] => Raise NoSuchElementException
  end.

(** ** Field extractors *)

Definition STAR_FILLED_TOKEN : string := "TB19ZvE".

Definition _text_or_empty (el : Element) : string :=
  match el_text el with
  | Ok t => PyStr.strip t
  | Raise _ => ""
  end.

Definition _get_attr (el : Element) (name : string) : string :=
  match el_get_attribute el name with
  | Ok (Some v) => if PyStr.is_empty v then "" else PyStr.strip v
  | Ok None => ""
  | Raise _ => ""
  end.

(** What follows the first digit in a match of the pattern of
    [_int_from_text] (a digit, then digits and commas as long as they
    last): the longest run of digits and commas at the head of [s]. *)
Fixpoint digit_run (s : string) : string :=
  match s with
  | String c s' =>
      if PyStr.isdigit c || Ascii.eqb c ","%char then String c (digit_run s')
      else EmptyString
  | EmptyString => EmptyString
  end.

(** [re.search] with that pattern: the match at the leftmost digit. *)
Fixpoint search_digit_run (s : string) : option string :=
  match s with
  | EmptyString => None
  | String c s' =>
      if PyStr.isdigit c then Some (String c (digit_run s'))
      else search_digit_run s'
  end.

Definition _int_from_text (text : string) : option Z :=
  match search_digit_run text with
  | None => None
  | Some m =>
      Some (PyStr.digits_to_Z
              (PyStr.filter (fun c => negb (Ascii.eqb c ","%char)) m))
  end.

(** A Python [float] is kept as the decimal literal it was parsed from:
    the program only passes prices through to the sink. *)
Record PyFloat : Type := mkPyFloat { float_literal : string }.

(** [float(s)] for [s] made of digits and dots only: such a literal is
    accepted when it has at least one digit and at most one dot. *)
Definition py_float (s : string) : option PyFloat :=
  let dots := PyStr.filter (fun c => Ascii.eqb c "."%char) s in
  let digits := PyStr.filter PyStr.isdigit s in
  if (String.length dots <=? 1)%nat && negb (PyStr.is_empty digits)
  then Some (mkPyFloat s) else None.

Definition _price_to_number (text : string) : option PyFloat :=
  let cleaned :=
    PyStr.filter (fun c => PyStr.isdigit c || Ascii.eqb c "."%char) text in
  if PyStr.is_empty cleaned then None else py_float cleaned.

Definition newline : ascii := ascii_of_nat 10.
Definition double_quote : ascii := ascii_of_nat 34.

(** The lazy group of the style pattern: the shortest non-empty run of
    characters other than a line feed after which [close] follows. *)
Fixpoint lazy_until (close : string) (s : string) : option string :=
  match s with
  | EmptyString => None
  | String c s' =>
      if Ascii.eqb c newline then None
      else if String.prefix close s' then Some (String c EmptyString)
      else option_map (String c) (lazy_until close s')
  end.

(** The style pattern matched right after an occurrence of [url(]: first
    with the optional quote taken, then, on failure, without it. *)
Definition match_after_url_paren (s : string) : option string :=
  match s with
  | String q s' =>
      if Ascii.eqb q double_quote || Ascii.eqb q "'"%char then
        match lazy_until (String q ")") s' with
        | Some g => Some g
        | None => lazy_until ")" s
        end
      else lazy_until ")" s
  | EmptyString => None
  end.

(** [re.search] of the style pattern: the leftmost position that matches. *)
Fixpoint search_url_pattern (s : string) : option string :=
  let here :=
    if String.prefix "url(" s
    then match_after_url_paren (String.substring 4 (String.length s - 4) s)
    else None in
  match here with
  | Some g => Some g
  | None =>
      match s with
      | EmptyString => None
      | String _ s' => search_url_pattern s'
      end
  end.

Definition _extract_background_image_url (style_value : string)
  : option string :=
  if PyStr.is_empty style_value then None
  else search_url_pattern style_value.

(** [normalize_url] *)
Definition normalize_url (href : string) : string :=
  if PyStr.is_empty href then ""
  else if PyStr.startswith href "//" then "https:" ++ href
  else href.

(** ** Reviews *)

Record Review : Type :=
  mkReview {
      reviewer : string;
      rating_number : Z;
      review_text : string;
      review_images : list string;
      review_date : string;
      review_like : Z
    }.

Module Css.
Definition review_item := "div.item".
Definition star := "div.container-star.starCtn.left img.star".
Definition date := "div.top span.title.right".
Definition middle_spans := "div.middle > span".
Definition content := "div.item-content div.content".
Definition review_image := "div.review-image__list div.image".
Definition left_content := "div.bottom span.left-content".
Definition span := "span".
Definition reviews_root := "div.mod-reviews".
Definition next_button :=
  "button.next-btn.next-btn-normal.next-btn-medium.next-pagination-item.next".
End Css.

(** The star loop of [extract_page_items]: [filled] starts at [0] and grows
    by one for each image whose [src] holds the token. *)
Definition count_filled (star_imgs : list Element) : Z :=
  fold_left
    (fun filled s =>
       if PyStr.contains STAR_FILLED_TOKEN (_get_attr s "src")
       then filled + 1 else filled)
    star_imgs 0.

(** The image loop: one URL per image node whose style gives a non-empty one. *)
Definition collect_review_images (imgs : list Element) : list string :=
  fold_left
    (fun review_imgs img_div =>
       match _extract_background_image_url (_get_attr img_div "style") with
       | Some url => if PyStr.is_empty url then review_imgs
                     else (review_imgs ++ [url])%list
       | None => review_imgs
       end)
    imgs [].

Definition item_date (it : Element) : result string :=
  except_NoSuchElement
    (let? date_el := el_find_element it Css.date in
     Ok (_text_or_empty date_el))
    "".

Definition item_username (it : Element) : result string :=
  except_NoSuchElement
    (let? mid_spans := el_find_elements it Css.middle_spans in
     match mid_spans with
     | first :: _ => Ok (_text_or_empty first)
     | [] => Ok ""
     end)
    "".

Definition item_review_text (it : Element) : result string :=
  except_NoSuchElement
    (let? content_el := el_find_element it Css.content in
     Ok (_text_or_empty content_el))
    "".

Definition item_review_images (it : Element) : result (list string) :=
  except_NoSuchElement
    (let? imgs := el_find_elements it Css.review_image in
     Ok (collect_review_images imgs))
    [].

Definition item_likes (it : Element) : result Z :=
  except_NoSuchElement
    (let? left_content := el_find_element it Css.left_content in
     let? spans := el_find_elements left_content Css.span in
     match spans with
     | [] => Ok 0
     | _ =>
         match _int_from_text (_text_or_empty (last spans left_content)) with
         | Some n => Ok n
         | None => Ok 0
         end
     end)
    0.

(** The body of the [for it in items] loop, up to the [append]. *)
Definition extract_item (it : Element) : result Review :=
  let? star_imgs := el_find_elements it Css.star in
  let filled := count_filled star_imgs in
  let? date_text := item_date it in
  let? username := item_username it in
  let? review_text := item_review_text it in
  let? review_imgs := item_review_images it in
  let? likes := item_likes it in
  Ok {| reviewer := username;
        rating_number := filled;
        review_text := review_text;
        review_images := review_imgs;
        review_date := date_text;
        review_like := likes |}.

(** The [for it in items] loop: a stale item is skipped, any other
    exception leaves the function. *)
Fixpoint extract_items (items : list Element) (page_results : list Review)
  : result (list Review) :=
  match items with
  | [] => Ok page_results
  | it :: rest =>
      match extract_item it with
      | Ok r => extract_items rest (page_results ++ [r])%list
      | Raise StaleElementReferenceException => extract_items rest page_results
      | Raise e => Raise e
      end
  end.

(** [extract_page_items], the closure of [iterate_all_reviews], with the
    [reviews_root] it reads made a parameter. *)
Definition extract_page_items (reviews_root : Element) : result (list Review) :=
  let? items := el_find_elements reviews_root Css.review_item in
  extract_items items [].

(** ** [urllib.parse], as far as [urljoin] reaches

    [extract_listing_cards] resolves every link with the standard
    library's [urljoin]; the definitions below follow CPython 3.11's
    [urllib/parse.py] on [str] arguments with [allow_fragments=True].
    Two checks of [urlsplit] consult tables that are not modelled (IP
    address syntax, Unicode NFKC normalisation); what they answer is a
    parameter of the section. *)
Module Urllib.

Definition uses_relative : list string :=
  [""; "ftp"; "http"; "gopher"; "nntp"; "imap"; "wais"; "file"; "https";
   "shttp"; "mms"; "prospero"; "rtsp"; "rtspu"; "sftp"; "svn"; "svn+ssh";
   "ws"; "wss"].

Definition uses_netloc : list string :=
  [""; "ftp"; "http"; "gopher"; "nntp"; "telnet"; "imap"; "wais"; "file";
   "mms"; "https"; "shttp"; "snews"; "prospero"; "rtsp"; "rtspu"; "rsync";
   "svn"; "svn+ssh"; "sftp"; "nfs"; "git"; "git+ssh"; "ws"; "wss"].

Definition uses_params : list string :=
  [""; "ftp"; "hdl"; "prospero"; "http"; "imap"; "https"; "shttp"; "rtsp";
   "rtspu"; "sip"; "sips"; "mms"; "sftp"; "tel"].

(** [s in names] *)
Definition mem (s : string) (names : list string) : bool :=
  existsb (String.eqb s) names.

Definition is_upper (c : ascii) : bool :=
  let n := nat_of_ascii c in ((65 <=? n) && (n <=? 90))%nat.
Definition is_lower (c : ascii) : bool :=
  let n := nat_of_ascii c in ((97 <=? n) && (n <=? 122))%nat.

(** [c.isascii() and c.isalpha()] *)
Definition is_ascii_alpha (c : ascii) : bool := is_upper c || is_lower c.

(** [c in scheme_chars] *)
Definition is_scheme_char (c : ascii) : bool :=
  is_ascii_alpha c || PyStr.isdigit c
  || Ascii.eqb c "+"%char || Ascii.eqb c "-"%char || Ascii.eqb c "."%char.

Definition lower_char (c : ascii) : ascii :=
  if is_upper c then ascii_of_nat (nat_of_ascii c + 32) else c.

(** [s.lower()] on ASCII text *)
Fixpoint lower (s : string) : string :=
  match s with
  | EmptyString => EmptyString
  | String c s' => String (lower_char c) (lower s')
  end.

Fixpoint forallb_string (p : ascii -> bool) (s : string) : bool :=
  match s with
  | EmptyString => true
  | String c s' => p c && forallb_string p s'
  end.

Fixpoint existsb_string (p : ascii -> bool) (s : string) : bool :=
  match s with
  | EmptyString => false
  | String c s' => p c || existsb_string p s'
  end.

(** [s.isascii()] *)
Definition isascii (s : string) : bool :=
  forallb_string (fun c => (nat_of_ascii c <? 128)%nat) s.

(** [c in s] for a character *)
Definition has_char (c : ascii) (s : string) : bool :=
  existsb_string (Ascii.eqb c) s.

(** The text before the first character that satisfies [p], and the text
    from that character on (empty when there is none). *)
Fixpoint break (p : ascii -> bool) (s : string) : string * string :=
  match s with
  | EmptyString => (EmptyString, EmptyString)
  | String c s' =>
      if p c then (EmptyString, s)
      else let (before, from) := break p s' in (String c before, from)
  end.

(** [s.partition(c)], without the separator: the text before the first
    [c] and the text after it; [None] when [c] is not in [s]. *)
Definition split_once (c : ascii) (s : string) : option (string * string) :=
  match break (Ascii.eqb c) s with
  | (before, String _ after) => Some (before, after)
  | (_, EmptyString) => None
  end.

(** The text before the last [c] and the text from the last [c] on;
    [None] when [c] is not in [s]. *)
Fixpoint break_last (c : ascii) (s : string) : option (string * string) :=
  match s with
  | EmptyString => None
  | String x s' =>
      match break_last c s' with
      | Some (before, from) => Some (String x before, from)
      | None => if Ascii.eqb x c then Some (EmptyString, s) else None
      end
  end.

(** [s.split(c)] *)
Fixpoint split (c : ascii) (s : string) : list string :=
  match s with
  | EmptyString => [EmptyString]
  | String x s' =>
      if Ascii.eqb x c then EmptyString :: split c s'
      else match split c s' with
           | first :: rest => String x first :: rest
           | [] => [String x EmptyString]
           end
  end.

(** [_WHATWG_C0_CONTROL_OR_SPACE]: the characters up to the space. *)
Definition is_c0_or_space (c : ascii) : bool := (nat_of_ascii c <=? 32)%nat.

Fixpoint lstrip_c0 (s : string) : string :=
  match s with
  | String c s' => if is_c0_or_space c then lstrip_c0 s' else s
  | EmptyString => EmptyString
  end.

Fixpoint rstrip_c0 (s : string) : string :=
  match s with
  | EmptyString => EmptyString
  | String c s' =>
      match rstrip_c0 s' with
      | EmptyString =>
          if is_c0_or_space c then EmptyString else String c EmptyString
      | kept => String c kept
      end
  end.

(** [_UNSAFE_URL_BYTES_TO_REMOVE]: TAB, CR and LF. *)
Definition is_unsafe (c : ascii) : bool :=
  let n := nat_of_ascii c in
  ((n =? 9) || (n =? 13) || (n =? 10))%nat.

Definition remove_unsafe (s : string) : string :=
  PyStr.filter (fun c => negb (is_unsafe c)) s.

Record SplitResult : Type :=
  mkSplit { s_scheme : string; s_netloc : string; s_path : string;
            s_query : string; s_fragment : string }.

Record ParseResult : Type :=
  mkParse { scheme : string; netloc : string; path : string;
            params : string; query : string; fragment : string }.

(** The scheme test of [urlsplit]: with a colon at [i > 0], an ASCII
    letter first and scheme characters only before the colon, the
    lower-cased [url[:i]] and [url[i+1:]]. *)
Definition split_scheme (url : string) : option (string * string) :=
  match url, split_once ":"%char url with
  | String c0 _, Some (String b bs, after) =>
      if is_ascii_alpha c0 && forallb_string is_scheme_char (String b bs)
      then Some (lower (String b bs), after)
      else None
  | _, _ => None
  end.

Section Checks.

(** [_check_bracketed_host(hostname)] returns ([true]) or raises
    [ValueError] ([false]). *)
Variable bracketed_host_ok : string -> bool.

(** For a netloc [n] that is not ASCII, stripped of its [@:#?]: whether
    [unicodedata.normalize('NFKC', n)] differs from [n] and holds one
    of [/?#@:], on which [_checknetloc] raises [ValueError]. *)
Variable nfkc_rejects : string -> bool.

Definition _splitnetloc2 (url : string) : string * string :=
  break (fun c => Ascii.eqb c "/"%char || Ascii.eqb c "?"%char
                  || Ascii.eqb c "#"%char)
        (String.substring 2 (String.length url - 2) url).

Definition _check_bracketed_netloc (netloc : string) : result unit :=
  let hostname_and_port :=
    match break_last "@"%char netloc with
    | Some (_, String _ after) => after
    | _ => netloc
    end in
  match split_once "["%char hostname_and_port with
  | Some (before_bracket, bracketed) =>
      if negb (PyStr.is_empty before_bracket) then Raise ValueError
      else
        let (hostname, port) :=
          match split_once "]"%char bracketed with
          | Some (h, p) => (h, p)
          | None => (bracketed, EmptyString)
          end in
        if negb (PyStr.is_empty port) && negb (PyStr.startswith port ":")
        then Raise ValueError
        else if bracketed_host_ok hostname then Ok tt else Raise ValueError
  | None =>
      let hostname :=
        match split_once ":"%char hostname_and_port with
        | Some (h, _) => h
        | None => hostname_and_port
        end in
      if bracketed_host_ok hostname then Ok tt else Raise ValueError
  end.

Definition _checknetloc (netloc : string) : result unit :=
  if PyStr.is_empty netloc || isascii netloc then Ok tt
  else
    let n :=
      PyStr.filter
        (fun c => negb (Ascii.eqb c "@"%char || Ascii.eqb c ":"%char
                        || Ascii.eqb c "#"%char || Ascii.eqb c "?"%char))
        netloc in
    if nfkc_rejects n then Raise ValueError else Ok tt.

Definition urlsplit (url scheme : string) : result SplitResult :=
  let url := lstrip_c0 url in
  let scheme := rstrip_c0 (lstrip_c0 scheme) in
  let url := remove_unsafe url in
  let scheme := remove_unsafe scheme in
  let (scheme, url) :=
    match split_scheme url with
    | Some found => found
    | None => (scheme, url)
    end in
  let? (netloc, url) :=
    if PyStr.startswith url "//" then
      let (netloc, rest) := _splitnetloc2 url in
      let open := has_char "["%char netloc in
      let close := has_char "]"%char netloc in
      if (open && negb close) || (close && negb open) then Raise ValueError
      else if open && close then
             let? _ := _check_bracketed_netloc netloc in Ok (netloc, rest)
           else Ok (netloc, rest)
    else Ok (EmptyString, url) in
  let (url, fragment) :=
    match split_once "#"%char url with
    | Some (u, f) => (u, f)
    | None => (url, EmptyString)
    end in
  let (url, query) :=
    match split_once "?"%char url with
    | Some (u, q) => (u, q)
    | None => (url, EmptyString)
    end in
  let? _ := _checknetloc netloc in
  Ok (mkSplit scheme netloc url query fragment).

(** [_splitparams(url)], called when [';' in url]. *)
Definition _splitparams (url : string) : string * string :=
  match break_last "/"%char url with
  | Some (before, from_slash) =>
      match split_once ";"%char from_slash with
      | Some (p, q) => (before ++ p, q)
      | None => (url, EmptyString)
      end
  | None =>
      match split_once ";"%char url with
      | Some (p, q) => (p, q)
      | None => (url, EmptyString)
      end
  end.

Definition urlparse (url scheme : string) : result ParseResult :=
  let? sr := urlsplit url scheme in
  let (url, params) :=
    if mem (s_scheme sr) uses_params && has_char ";"%char (s_path sr)
    then _splitparams (s_path sr)
    else (s_path sr, EmptyString) in
  Ok (mkParse (s_scheme sr) (s_netloc sr) url params
              (s_query sr) (s_fragment sr)).

Definition urlunsplit (sr : SplitResult) : string :=
  let url := s_path sr in
  let url :=
    if negb (PyStr.is_empty (s_netloc sr))
       || (negb (PyStr.is_empty (s_scheme sr))
           && mem (s_scheme sr) uses_netloc
           && negb (PyStr.startswith url "//"))
    then
      let url :=
        if negb (PyStr.is_empty url) && negb (PyStr.startswith url "/")
        then "/" ++ url else url in
      "//" ++ s_netloc sr ++ url
    else url in
  let url :=
    if negb (PyStr.is_empty (s_scheme sr))
    then s_scheme sr ++ ":" ++ url else url in
  let url :=
    if negb (PyStr.is_empty (s_query sr))
    then url ++ "?" ++ s_query sr else url in
  if negb (PyStr.is_empty (s_fragment sr))
  then url ++ "#" ++ s_fragment sr else url.

Definition urlunparse (pr : ParseResult) : string :=
  let url :=
    if negb (PyStr.is_empty (params pr))
    then path pr ++ ";" ++ params pr else path pr in
  urlunsplit (mkSplit (scheme pr) (netloc pr) url (query pr) (fragment pr)).

(** [segments[1:-1] = filter(None, segments[1:-1])] *)
Definition drop_empty_middle (segments : list string) : list string :=
  match segments with
  | first :: (_ :: _) as rest =>
      (first :: List.filter (fun s => negb (PyStr.is_empty s))
                            (removelast rest)
             ++ [last rest EmptyString])%list
  | short => short
  end.

(** The [for seg in segments] loop of [urljoin]. *)
Definition resolve_segments (segments : list string) : list string :=
  fold_left
    (fun resolved_path seg =>
       if String.eqb seg ".." then removelast resolved_path
       else if String.eqb seg "." then resolved_path
       else (resolved_path ++ [seg])%list)
    segments [].

Definition urljoin (base url : string) : result string :=
  if PyStr.is_empty base then Ok url
  else if PyStr.is_empty url then Ok base
  else
    let? b := urlparse base EmptyString in
    let? u := urlparse url (scheme b) in
    if negb (String.eqb (scheme u) (scheme b))
       || negb (mem (scheme u) uses_relative)
    then Ok url
    else if mem (scheme u) uses_netloc
            && negb (PyStr.is_empty (netloc u))
    then Ok (urlunparse u)
    else
      let netloc' :=
        if mem (scheme u) uses_netloc then netloc b else netloc u in
      if PyStr.is_empty (path u) && PyStr.is_empty (params u) then
        Ok (urlunparse
              (mkParse (scheme u) netloc' (path b) (params b)
                       (if PyStr.is_empty (query u)
                        then query b else query u)
                       (fragment u)))
      else
        let base_parts := split "/"%char (path b) in
        let base_parts :=
          if negb (PyStr.is_empty (last base_parts EmptyString))
          then removelast base_parts else base_parts in
        let segments :=
          if PyStr.startswith (path u) "/" then split "/"%char (path u)
          else drop_empty_middle (base_parts ++ split "/"%char (path u))%list in
        let resolved_path := resolve_segments segments in
        let last_segment := last segments EmptyString in
        let resolved_path :=
          if String.eqb last_segment "." || String.eqb last_segment ".."
          then (resolved_path ++ [EmptyString])%list else resolved_path in
        let joined := PyStr.join "/" resolved_path in
        Ok (urlunparse
              (mkParse (scheme u) netloc'
                       (if PyStr.is_empty joined then "/" else joined)
                       (params u) (query u) (fragment u))).

End Checks.

End Urllib.

(** ** Stateful code *)

(** How a call ends: it returns, it raises, or the fuel given to the
    pagination loop ran out before it ended. *)
Inductive outcome (A : Type) : Type :=
| Returned (a : A)
| Raised (e : Exn)
| OutOfFuel.
Arguments Returned {A} a.
Arguments Raised {A} e.
Arguments OutOfFuel {A}.

(** A computation over a state [S]; the state a raise leaves behind stays. *)
Definition M (S A : Type) : Type := S -> S * outcome A.

Definition ret {S A} (a : A) : M S A := fun s => (s, Returned a).

Definition raise {S A} (e : Exn) : M S A := fun s => (s, Raised e).

Definition bind {S A B} (m : M S A) (k : A -> M S B) : M S B :=
  fun s =>
    match m s with
    | (s', Returned a) => k a s'
    | (s', Raised e) => (s', Raised e)
    | (s', OutOfFuel) => (s', OutOfFuel)
    end.

Definition of_result {S A} (r : result A) : M S A :=
  fun s => match r with
           | Ok a => (s, Returned a)
           | Raise e => (s, Raised e)
           end.

(** A command of the environment, which answers with a [result]. *)
Definition command {S A} (c : S -> S * result A) : M S A :=
  fun s => match c s with
           | (s', Ok a) => (s', Returned a)
           | (s', Raise e) => (s', Raised e)
           end.

(** [try: m  except <handles>: handler] *)
Definition try_except {S A} (m : M S A) (handles : Exn -> bool)
           (handler : M S A) : M S A :=
  fun s =>
    match m s with
    | (s', Raised e) => if handles e then handler s' else (s', Raised e)
    | other => other
    end.

(** [with suppress(Exception): m] *)
Definition suppress_Exception {S A} (m : M S A) : M S unit :=
  fun s =>
    match m s with
    | (s', Returned _) => (s', Returned tt)
    | (s', Raised _) => (s', Returned tt)
    | (s', OutOfFuel) => (s', OutOfFuel)
    end.

Declare Scope monad_scope.
Delimit Scope monad_scope with monad.
Notation "x <- m ;; k" := (bind m (fun x => k))
  (at level 61, m at next level, right associativity) : monad_scope.
Notation "' p <- m ;; k" := (bind m (fun x => match x with p => k end))
  (at level 61, p pattern, m at next level, right associativity) : monad_scope.
Notation "m ;; k" := (bind m (fun _ => k))
  (at level 61, right associativity) : monad_scope.
Open Scope monad_scope.

Definition is_Timeout (e : Exn) : bool := Exn_eqb e TimeoutException.
Definition is_NoSuchElement (e : Exn) : bool :=
  Exn_eqb e NoSuchElementException.
Definition any_Exception (e : Exn) : bool := true.

(** [range(a, b)] *)
Definition py_range (a b : Z) : list Z :=
  map (fun i => a + Z.of_nat i) (seq 0 (Z.to_nat (b - a))).

(** ** The browser *)

(** What [execute_script] hands back: [None], or a number. *)
Inductive JsValue : Type :=
| JsNone
| JsNumber (n : Z).

Definition JsValue_eqb (a b : JsValue) : bool :=
  match a, b with
  | JsNone, JsNone => true
  | JsNumber x, JsNumber y => Z.eqb x y
  | _, _ => false
  end.

(** The environment the program runs against: the logged-in Firefox
    driver and the clock. [W] is everything outside the program that a
    command may change. *)
Class World (W : Type) : Type :=
  {
    (** [driver.get(url)] *)
    driver_get : string -> W -> W * result unit;
    (** [driver.set_page_load_timeout(seconds)] *)
    driver_set_page_load_timeout : Z -> W -> W * result unit;
    (** [driver.execute_script(script, *args)] *)
    driver_execute_script : string -> list Element -> W -> W * result JsValue;
    (** [driver.find_elements(By.CSS_SELECTOR, css)] *)
    driver_find_elements : string -> W -> W * result (list Element);
    (** [WebDriverWait(driver, timeout).until(
           EC.presence_of_element_located((By.CSS_SELECTOR, css)))] *)
    wait_until_present : string -> Z -> W -> W * result Element;
    (** [element.click()] *)
    element_click : Element -> W -> W * result unit;
    (** [driver.quit()] *)
    driver_quit : W -> W * result unit;
    (** [datetime.now().isoformat(timespec='seconds')] *)
    now_isoformat : W -> W * string
  }.

Section Program.

Context {W : Type} `{World W}.

(** The answers of the two table-driven checks of [urlsplit]. *)
Variable bracketed_host_ok : string -> bool.
Variable nfkc_rejects : string -> bool.

Definition urljoin : string -> string -> result string :=
  Urllib.urljoin bracketed_host_ok nfkc_rejects.

Definition LISTING_CONTAINER_CSS : string :=
  "div[data-qa-locator=" ++ String double_quote "general-products"
    ++ String double_quote "]".

Definition LISTING_CARD_CSS : string :=
  "div.Bm3ON[data-qa-locator=" ++ String double_quote "product-item"
    ++ String double_quote "][data-tracking="
    ++ String double_quote "product-card" ++ String double_quote "]".

Definition _now_iso : M W string :=
  fun w => let (w', t) := now_isoformat w in (w', Returned t).

Definition wait_css (css : string) (timeout : Z) : M W Element :=
  command (wait_until_present css timeout).

Definition find_elements (css : string) : M W (list Element) :=
  command (driver_find_elements css).

(** [driver.find_element(By.CSS_SELECTOR, css)]: the first match, and
    [NoSuchElementException] when nothing matches. *)
Definition find_element (css : string) : M W Element :=
  found <- find_elements css ;;
  match found with
  | first :: _ => ret first
  | [] => raise NoSuchElementException
  end.

Definition execute_script (script : string) (args : list Element)
  : M W JsValue :=
  command (driver_execute_script script args).

Definition window_stop : M W unit :=
  suppress_Exception (execute_script "window.stop();" []).

(** The attempts of [safe_get] from [attempt] on, [remaining] of them
    left; [ready_css] is [None] for Python's [None]. *)
Fixpoint safe_get_attempts (url : string) (ready_css : option string)
         (tries wait_timeout : Z) (attempt : Z) (remaining : nat)
  : M W bool :=
  match remaining with
  | O => ret false
  | S remaining' =>
      try_except (command (driver_get url)) is_Timeout window_stop ;;
      match ready_css with
      | None => ret true
      | Some css =>
          if PyStr.is_empty css then ret true
          else
            decided <-
              try_except
                (wait_css css wait_timeout ;; ret (Some true))
                is_Timeout
                (window_stop ;;
                 if attempt =? tries then ret (Some false) else ret None) ;;
            match decided with
            | Some b => ret b
            | None =>
                safe_get_attempts url ready_css tries wait_timeout
                                  (attempt + 1) remaining'
            end
      end
  end.

Definition safe_get (url : string) (ready_css : option string)
           (tries wait_timeout : Z) : M W bool :=
  safe_get_attempts url ready_css tries wait_timeout 1
                    (Z.to_nat (tries + 1 - 1)).


Definition popup_labels : list string :=
  ["accept all"; "accept cookies"; "allow all"; "i agree"; "got it"; "ok"].

(** The [for el in candidates[:50]] loop: the [break] sits inside the
    [suppress] block, so a click that raises goes on to the next
    candidate. (Labels are lower-cased as ASCII.) *)
Fixpoint click_first_popup (candidates : list Element) : M W unit :=
  match candidates with
  | [] => ret tt
  | el :: rest =>
      let label := Urllib.lower (_text_or_empty el) in
      if Urllib.mem label popup_labels then
        fun w =>
          match execute_script "arguments[0].click();" [el] w with
          | (w', Returned _) => (w', Returned tt)
          | (w', Raised _) => click_first_popup rest w'
          | (w', OutOfFuel) => (w', OutOfFuel)
          end
      else click_first_popup rest
  end.

Definition maybe_close_popups : M W unit :=
  try_except
    (candidates <- find_elements "button, a" ;;
     click_first_popup (firstn 50 candidates))
    any_Exception
    (ret tt).

Definition scroll_height : M W JsValue :=
  execute_script "return document.body.scrollHeight" [].

Fixpoint scroll_steps (steps : nat) (last_height : JsValue) : M W unit :=
  match steps with
  | O => ret tt
  | S steps' =>
      execute_script "window.scrollTo(0, document.body.scrollHeight);" [] ;;
      new_height <- scroll_height ;;
      if JsValue_eqb new_height last_height then ret tt
      else scroll_steps steps' new_height
  end.

Definition scroll_to_bottom (max_steps : Z) : M W unit :=
  last_height <- scroll_height ;;
  scroll_steps (Z.to_nat max_steps) last_height.

(** *** Listing page *)

Record ProductSummary : Type :=
  mkSummary {
      product_url : string;
      product_img : string;
      product_price : option PyFloat;
      total_sold : option Z;
      seller_location : string;
      listing_title : string
    }.

Definition BASE_URL : string := "https://www.daraz.com.bd/".

Definition card_image_css : string :=
  "div.picture-wrapper img[type=" ++ String double_quote "product"
    ++ String double_quote "]".

(** The body of the [for card in cards] loop, up to the [append]. *)
Definition extract_card (card : Element) : result ProductSummary :=
  let? anchor := el_find_element card "div._95X4G a[href]" in
  let product_url := normalize_url (_get_attr anchor "href") in
  let? product_url := urljoin BASE_URL product_url in
  let? img := el_find_element card card_image_css in
  let product_img := _get_attr img "src" in
  let? title_el := el_find_element card "div.RfADt a" in
  let title_text := _text_or_empty title_el in
  let? price_el := el_find_element card "div.aBrP0 span.ooOxS" in
  let price_text := _text_or_empty price_el in
  let product_price := _price_to_number price_text in
  let? total_sold :=
    except_NoSuchElement
      (let? sold_el := el_find_element card "span._1cEkb span" in
       Ok (_int_from_text (_text_or_empty sold_el)))
      None in
  let? seller_location :=
    except_NoSuchElement
      (let? loc_el := el_find_element card "span.oa6ri" in
       Ok (_text_or_empty loc_el))
      "" in
  Ok {| product_url := product_url;
        product_img := product_img;
        product_price := product_price;
        total_sold := total_sold;
        seller_location := seller_location;
        listing_title := title_text |}.

(** The [for card in cards] loop: a card that raises
    [NoSuchElementException] or [StaleElementReferenceException] is
    skipped, any other exception leaves the function. *)
Fixpoint extract_cards (cards : list Element) (results : list ProductSummary)
  : result (list ProductSummary) :=
  match cards with
  | [] => Ok results
  | card :: rest =>
      match extract_card card with
      | Ok summary => extract_cards rest (results ++ [summary])%list
      | Raise NoSuchElementException
      | Raise StaleElementReferenceException => extract_cards rest results
      | Raise e => Raise e
      end
  end.

Definition extract_listing_cards : M W (list ProductSummary) :=
  container <-
    try_except (c <- wait_css LISTING_CONTAINER_CSS 15 ;; ret (Some c))
               is_Timeout (ret None) ;;
  match container with
  | None => ret []
  | Some _ =>
      scroll_to_bottom 3 ;;
      cards <- find_elements LISTING_CARD_CSS ;;
      of_result (extract_cards cards [])
  end.

(** *** Product page *)

Definition product_has_reviews : M W (bool * option Z) :=
  try_except
    (link <- wait_css "a.pdp-review-summary__link" 10 ;;
     let txt := _text_or_empty link in
     if PyStr.contains "No Ratings" txt then ret (false, None)
     else
       let total := _int_from_text txt in
       ret (true, total))
    is_Timeout
    (try_except
       (small <- find_element "span.qzqFw" ;;
        let total := _int_from_text (_text_or_empty small) in
        ret (match total with
             | Some n => 0 <? n
             | None => false
             end, total))
       is_NoSuchElement
       (ret (false, None))).

Record ProductDetail : Type :=
  mkDetail {
      product_name : string;
      seller_name : string;
      positive_seller_ratings : string;
      product_categories : list string;
      product_image_urls : list string;
      overall_rating : string;
      rating_summary_map : list (string * Z)
    }.

(** [[c.text.strip() for c in crumbs if _text_or_empty(c)]] *)
Fixpoint category_texts (crumbs : list Element) : result (list string) :=
  match crumbs with
  | [] => Ok []
  | c :: rest =>
      if PyStr.is_empty (_text_or_empty c) then category_texts rest
      else
        let? t := el_text c in
        let? ts := category_texts rest in
        Ok (PyStr.strip t :: ts)
  end.

(** The thumbnail loop. *)
Definition thumbnail_sources (thumbs : list Element) : list string :=
  fold_left
    (fun urls t =>
       let src := _get_attr t "src" in
       if PyStr.is_empty src then urls else (urls ++ [src])%list)
    thumbs [].

(** [d[key] = value] on a dict kept in insertion order. *)
Fixpoint dict_set {V} (key : string) (value : V) (d : list (string * V))
  : list (string * V) :=
  match d with
  | [] => [(key, value)]
  | (k, v) :: d' =>
      if String.eqb k key then (k, value) :: d'
      else (k, v) :: dict_set key value d'
  end.

(** The [for idx, li in enumerate(rows[:5])] loop over [stars[idx]]: an
    exception other than [NoSuchElementException] ends it and keeps the
    entries made so far. *)
Fixpoint rating_rows (stars : list Z) (rows : list Element)
         (rating_summary_map : list (string * Z)) : list (string * Z) :=
  match stars, rows with
  | star :: stars', li :: rows' =>
      let key := PyStr.of_Z star ++ "_star" in
      match el_find_element li "span.percent" with
      | Ok cnt_el =>
          let cnt :=
            match _int_from_text (_text_or_empty cnt_el) with
            | Some n => n
            | None => 0
            end in
          rating_rows stars' rows' (dict_set key cnt rating_summary_map)
      | Raise NoSuchElementException =>
          rating_rows stars' rows' (dict_set key 0 rating_summary_map)
      | Raise _ => rating_summary_map
      end
  | _, _ => rating_summary_map
  end.

Definition extract_product_level_details : M W ProductDetail :=
  product_name <-
    try_except
      (name_el <- wait_css "h1.pdp-mod-product-badge-title" 12 ;;
       ret (_text_or_empty name_el))
      is_Timeout (ret "") ;;
  seller_name <-
    try_except
      (seller_el <- find_element "a.seller-name__detail-name" ;;
       ret (_text_or_empty seller_el))
      is_NoSuchElement (ret "") ;;
  positive_seller_ratings <-
    try_except
      (psr_el <- find_element "div.seller-info-value.rating-positive" ;;
       ret (_text_or_empty psr_el))
      is_NoSuchElement (ret "") ;;
  product_categories <-
    try_except
      (crumbs <-
         find_elements "ul#J_breadcrumb li .breadcrumb_item_anchor span" ;;
       of_result (category_texts crumbs))
      any_Exception (ret []) ;;
  product_image_urls <-
    try_except
      (thumbs <-
         find_elements
           "img.pdp-mod-common-image.item-gallery__thumbnail-image" ;;
       ret (thumbnail_sources thumbs))
      any_Exception (ret []) ;;
  overall_rating <-
    try_except
      (avg <- find_element "div.score span.score-average" ;;
       mx <- find_element "div.score span.score-max" ;;
       ret (_text_or_empty avg ++ _text_or_empty mx))
      is_NoSuchElement (ret "") ;;
  rating_summary_map <-
    try_except
      (rows <- find_elements "div.detail ul li" ;;
       ret (rating_rows [5; 4; 3; 2; 1] (firstn 5 rows) []))
      any_Exception (ret []) ;;
  ret {| product_name := product_name;
         seller_name := seller_name;
         positive_seller_ratings := positive_seller_ratings;
         product_categories := product_categories;
         product_image_urls := product_image_urls;
         overall_rating := overall_rating;
         rating_summary_map := rating_summary_map |}.


(** *** Review pagination *)

(** How one round of the [while True] loop ends: with a [break], or with
    the reviews extended by one more page. *)
Inductive Round : Type :=
| Break
| NextPage (reviews : list Review).

Definition handles_click_failure (e : Exn) : bool :=
  Exn_eqb e ElementClickInterceptedException
  || Exn_eqb e StaleElementReferenceException.

(** The second [try] of the loop body: scroll to the button, click it,
    take the reviews root again and read the page. *)
Definition turn_page (next_btn : Element) (reviews : list Review)
  : M W Round :=
  try_except
    (execute_script "arguments[0].scrollIntoView({block:'center'});"
                    [next_btn] ;;
     command (element_click next_btn) ;;
     root <-
       try_except (r <- wait_css Css.reviews_root 8 ;; ret (Some r))
                  is_Timeout (ret None) ;;
     match root with
     | None => ret Break
     | Some reviews_root =>
         page <- of_result (extract_page_items reviews_root) ;;
         ret (NextPage (reviews ++ page)%list)
     end)
    handles_click_failure
    (ret Break).

(** The first [try] of the loop body. *)
Definition find_next_button : M W (option Element) :=
  try_except (btn <- find_element Css.next_button ;; ret (Some btn))
             is_NoSuchElement (ret None).

(** The [while True] loop of [iterate_all_reviews], at most [fuel]
    rounds of it. *)
Fixpoint pagination_loop (fuel : nat) (reviews : list Review)
  : M W (list Review) :=
  match fuel with
  | O => fun w => (w, OutOfFuel)
  | S fuel' =>
      next <- find_next_button ;;
      match next with
      | None => ret reviews
      | Some next_btn =>
          round <- turn_page next_btn reviews ;;
          match round with
          | Break => ret reviews
          | NextPage reviews' => pagination_loop fuel' reviews'
          end
      end
  end.

Definition iterate_all_reviews (fuel : nat) : M W (list Review) :=
  root <-
    try_except (r <- wait_css Css.reviews_root 10 ;; ret (Some r))
               is_Timeout (ret None) ;;
  match root with
  | None => ret []
  | Some reviews_root =>
      first_page <- of_result (extract_page_items reviews_root) ;;
      pagination_loop fuel ([] ++ first_page)%list
  end.


(** *** The sink *)

(** A value of an output row before the [csv] module writes it. *)
Inductive Cell : Type :=
| CellStr (s : string)
| CellInt (n : Z)
| CellFloat (f : PyFloat).

(** A row as [scrape_range] builds it: a dict from column name to value,
    in insertion order. *)
Definition RowDict : Type := list (string * Cell).

(** A record of the CSV file: the cells of one written row. *)
Definition CsvRecord : Type := list Cell.

(** The files of the run: the records of each file that exists. *)
Definition Files : Type := string -> option (list CsvRecord).

Definition write_file (path : string) (records : list CsvRecord) (fs : Files)
  : Files :=
  fun p => if String.eqb p path then Some records else fs p.

Definition dict_get (key : string) (d : RowDict) : option Cell :=
  match List.find (fun kv => String.eqb (fst kv) key) d with
  | Some (_, v) => Some v
  | None => None
  end.

(** [DictWriter._dict_to_list]: a key outside [fieldnames] raises
    [ValueError], a missing one is written as the empty string. *)
Definition _dict_to_list (fieldnames : list string) (rowdict : RowDict)
  : result CsvRecord :=
  if forallb (fun kv => Urllib.mem (fst kv) fieldnames) rowdict
  then Ok (map (fun key => match dict_get key rowdict with
                           | Some v => v
                           | None => CellStr ""
                           end) fieldnames)
  else Raise ValueError.

(** The [for r in rows] loop: the records written so far and how the
    loop ended. *)
Fixpoint write_rows (fieldnames : list string) (rows : list RowDict)
         (written : list CsvRecord) : list CsvRecord * result unit :=
  match rows with
  | [] => (written, Ok tt)
  | r :: rest =>
      match _dict_to_list fieldnames r with
      | Ok record => write_rows fieldnames rest (written ++ [record])%list
      | Raise e => (written, Raise e)
      end
  end.

(** [write_reviews_to_csv]: mode [w] starts from an empty file and
    writes the header, mode [a] starts from what the file holds. *)
Definition write_reviews_to_csv (csv_path : string) (rows : list RowDict)
           (header : list string) (append : bool) : M Files unit :=
  fun fs =>
    let opened :=
      if append then match fs csv_path with
                     | Some records => records
                     | None => []
                     end
      else [] in
    let with_header :=
      if negb append then (opened ++ [map CellStr header])%list
      else opened in
    let (written, r) := write_rows header rows with_header in
    of_result r (write_file csv_path written fs).

(** *** The orchestrator *)

(** What [scrape_range] runs in: the browser and clock, the lines
    printed, and the files. *)
Record Machine : Type :=
  mkMachine { world : W; stdout : list string; files : Files }.

Definition on_world {A} (m : M W A) : M Machine A :=
  fun st =>
    let (w', r) := m (world st) in
    (mkMachine w' (stdout st) (files st), r).

Definition on_files {A} (m : M Files A) : M Machine A :=
  fun st =>
    let (fs', r) := m (files st) in
    (mkMachine (world st) (stdout st) fs', r).

Definition print (line : string) : M Machine unit :=
  fun st =>
    (mkMachine (world st) (stdout st ++ [line])%list (files st), Returned tt).

Definition headers : list string :=
  ["Reviewer username or name";
   "Rating (number)";
   "Review (text)";
   "Review image";
   "Review date (date time)";
   "Review like (number like on that review)";
   "Product name";
   "Product category";
   "Product price";
   "Total sold";
   "Total rating";
   "Overall rating";
   "Rating summery";
   "product image url";
   "seller name";
   "Positive Seller Ratings";
   "Seller location";
   "Data source (link of the page)";
   "Processing time (Current timestamp)"].

Definition int_or_empty (v : option Z) : Cell :=
  match v with
  | Some n => CellInt n
  | None => CellStr ""
  end.

Definition rating_summary_text (d : list (string * Z)) : string :=
  PyStr.join ", "
    (map (fun kv => PyStr.replace "_star" " star" (fst kv) ++ ": "
                      ++ PyStr.of_Z (snd kv)) d).

(** The dict appended to [rows_to_write] for the review [rv]. *)
Definition assemble_row (product_url : string) (card : ProductSummary)
           (pd : ProductDetail) (total_rating : option Z) (rv : Review)
           (timestamp : string) : RowDict :=
  [("Reviewer username or name", CellStr (reviewer rv));
   ("Rating (number)", CellInt (rating_number rv));
   ("Review (text)", CellStr (review_text rv));
   ("Review image", CellStr (PyStr.join ", " (review_images rv)));
   ("Review date (date time)", CellStr (review_date rv));
   ("Review like (number like on that review)", CellInt (review_like rv));
   ("Product name",
     CellStr (if PyStr.is_empty (product_name pd)
              then listing_title card else product_name pd));
   ("Product category", CellStr (PyStr.join ", " (product_categories pd)));
   ("Product price",
     match product_price card with
     | Some f => CellFloat f
     | None => CellStr ""
     end);
   ("Total sold", int_or_empty (total_sold card));
   ("Total rating", int_or_empty total_rating);
   ("Overall rating", CellStr (overall_rating pd));
   ("Rating summery", CellStr (rating_summary_text (rating_summary_map pd)));
   ("product image url",
     CellStr (match product_image_urls pd with
              | [] => product_img card
              | urls => PyStr.join ", " urls
              end));
   ("seller name", CellStr (seller_name pd));
   ("Positive Seller Ratings", CellStr (positive_seller_ratings pd));
   ("Seller location", CellStr (seller_location card));
   ("Data source (link of the page)", CellStr product_url);
   ("Processing time (Current timestamp)", CellStr timestamp)].

(** The [for rv in reviews] loop; each row reads the clock. *)
Fixpoint assemble_rows (product_url : string) (card : ProductSummary)
         (pd : ProductDetail) (total_rating : option Z)
         (reviews : list Review) (rows_to_write : list RowDict)
  : M W (list RowDict) :=
  match reviews with
  | [] => ret rows_to_write
  | rv :: rest =>
      timestamp <- _now_iso ;;
      assemble_rows product_url card pd total_rating rest
        (rows_to_write
           ++ [assemble_row product_url card pd total_rating rv timestamp])%list
  end.

Definition len {A} (l : list A) : Z := Z.of_nat (List.length l).

(** The body of the [for idx, card in enumerate(cards, start=1)] loop;
    a [continue] returns. *)
Definition process_card (fuel : nat) (out_csv : string) (n_cards : Z)
           (idx : Z) (card : ProductSummary) : M Machine unit :=
  let product_url := product_url card in
  print ("    [" ++ PyStr.of_Z idx ++ "/" ++ PyStr.of_Z n_cards ++ "] "
           ++ product_url) ;;
  if PyStr.is_empty product_url then ret tt
  else
    loaded <- on_world (safe_get product_url
                                 (Some "h1.pdp-mod-product-badge-title")
                                 3 15) ;;
    if negb loaded
    then print "      Product page load timed out — skipping."
    else
      on_world maybe_close_popups ;;
      ' (has_reviews, total_rating) <- on_world product_has_reviews ;;
      if negb has_reviews
      then print "      No ratings — skipping product."
      else
        pd <- on_world extract_product_level_details ;;
        reviews <- on_world (iterate_all_reviews fuel) ;;
        match reviews with
        | [] => print "      No review items extracted despite ratings."
        | _ =>
            rows_to_write <-
              on_world (assemble_rows product_url card pd total_rating
                                      reviews []) ;;
            on_files (write_reviews_to_csv out_csv rows_to_write headers
                                           true) ;;
            print ("      Wrote " ++ PyStr.of_Z (len rows_to_write)
                     ++ " review rows.")
        end.

Fixpoint process_cards (fuel : nat) (out_csv : string) (n_cards : Z)
         (idx : Z) (cards : list ProductSummary) : M Machine unit :=
  match cards with
  | [] => ret tt
  | card :: rest =>
      process_card fuel out_csv n_cards idx card ;;
      process_cards fuel out_csv n_cards (idx + 1) rest
  end.

(** The body of the [for page in range(start_page, end_page + 1)] loop. *)
Definition process_page (fuel : nat) (out_csv : string) (page : Z)
  : M Machine unit :=
  let listing_url :=
    "https://www.daraz.com.bd/all-products/?page=" ++ PyStr.of_Z page in
  print ("[Listing] " ++ listing_url) ;;
  loaded <- on_world (safe_get listing_url (Some LISTING_CONTAINER_CSS)
                               3 15) ;;
  if negb loaded
  then print "  Failed to load listing (timeout). Skipping this page."
  else
    on_world maybe_close_popups ;;
    cards <- on_world extract_listing_cards ;;
    print ("  Found " ++ PyStr.of_Z (len cards) ++ " product cards on page "
             ++ PyStr.of_Z page) ;;
    process_cards fuel out_csv (len cards) 1 cards.

Fixpoint process_pages (fuel : nat) (out_csv : string) (pages : list Z)
  : M Machine unit :=
  match pages with
  | [] => ret tt
  | page :: rest =>
      process_page fuel out_csv page ;;
      process_pages fuel out_csv rest
  end.

(** [try: m  finally: cleanup], for a [cleanup] that raises nothing. *)
Definition try_finally {S A} (m : M S A) (cleanup : M S unit) : M S A :=
  fun s =>
    match m s with
    | (s', OutOfFuel) => (s', OutOfFuel)
    | (s', ended) =>
        match cleanup s' with
        | (s'', OutOfFuel) => (s'', OutOfFuel)
        | (s'', _) => (s'', ended)
        end
    end.

(** [scrape_range], started on the driver that
    [create_logged_in_firefox()] returned; [fuel] bounds the rounds of
    each product's pagination loop. *)
Definition scrape_range (fuel : nat) (start_page end_page : Z)
           (out_csv : string) : M Machine unit :=
  on_world (command (driver_set_page_load_timeout 90)) ;;
  on_files (write_reviews_to_csv out_csv [] headers false) ;;
  try_finally
    (process_pages fuel out_csv (py_range start_page (end_page + 1)))
    (on_world (suppress_Exception (command driver_quit))).

End Program.

(** * Definitions used to state the properties *)

(** ** Document fragments *)

Module Dom.

(** A node with the given text, no attribute and no descendant. *)
Definition text_node (t : string) : Element :=
  mkElement (Ok t) (fun _ => Ok None) (fun _ => Ok []).

(** An image with the given [src]. *)
Definition img (src : string) : Element :=
  mkElement (Ok "")
            (fun name => if String.eqb name "src" then Ok (Some src)
                         else Ok None)
            (fun _ => Ok []).

(** A node with the given [style]. *)
Definition styled (style : string) : Element :=
  mkElement (Ok "")
            (fun name => if String.eqb name "style" then Ok (Some style)
                         else Ok None)
            (fun _ => Ok []).

(** A link with the given [href] reading ([None]: the attribute is not
    there). *)
Definition anchor (href : option string) : Element :=
  mkElement (Ok "")
            (fun name => if String.eqb name "href" then Ok href else Ok None)
            (fun _ => Ok []).

Fixpoint lookup (css : string) (table : list (string * list Element))
  : list Element :=
  match table with
  | [] => []
  | (k, v) :: rest => if String.eqb k css then v else lookup css rest
  end.

(** A node whose descendants per selector are listed in [table]. *)
Definition node (table : list (string * list Element)) : Element :=
  mkElement (Ok "") (fun _ => Ok None) (fun css => Ok (lookup css table)).


Definition filled_star : Element :=
  img "https://img.lazcdn.com/g/tps/tfs/TB19ZvEgfDH8KJjy1XcXXcpdXXa-64-64.png".
Definition empty_star : Element :=
  img "https://img.lazcdn.com/g/tps/tfs/TB18ZvEgfDH8KJjy1XcXXcpdXXa-64-64.png".

(** A review item as the site renders it: [stars] filled stars out of
    five, a date, a reviewer, a body, one picture and a like count. *)
Definition review_item (stars : nat) (who body : string) : Element :=
  node [(Css.star, repeat filled_star stars ++ repeat empty_star (5 - stars));
        (Css.date, [text_node "2 weeks ago"]);
        (Css.middle_spans, [text_node who; text_node "Verified Purchase"]);
        (Css.content, [text_node body]);
        (Css.review_image,
          [styled "background-image: url(https://img.example/r1.jpg);"]);
        (Css.left_content,
          [node [(Css.span, [text_node ""; text_node "3"])]])]%list.

(** A reviews root holding the given items. *)
Definition reviews_root (items : list Element) : Element :=
  node [(Css.review_item, items)].

End Dom.




(** ** A scripted site

    A concrete [World]: the browser shows the first of a list of page
    states; every command is answered from that state, and a click that
    returns moves on to the next one. *)
Module Scripted.

Record Page : Type :=
  mkPage {
      page_get : result unit;
      page_script : result JsValue;
      page_find : string -> result (list Element);
      page_wait : string -> result Element;
      page_click : result unit
    }.

Definition Site : Type := list Page.

(** What the browser shows once the script is over: nothing is found,
    every wait times out. *)
Definition blank : Page :=
  mkPage (Ok tt) (Ok JsNone) (fun _ => Ok []) (fun _ => Raise TimeoutException)
         (Raise WebDriverException).

Definition current (s : Site) : Page := hd blank s.

#[global] Instance site_world : World Site :=
  {|
    driver_get := fun _ s => (s, page_get (current s));
    driver_set_page_load_timeout := fun _ s => (s, Ok tt);
    driver_execute_script := fun _ _ s => (s, page_script (current s));
    driver_find_elements := fun css s => (s, page_find (current s) css);
    wait_until_present := fun css _ s => (s, page_wait (current s) css);
    element_click :=
      fun _ s => match page_click (current s) with
                 | Ok tt => (tl s, Ok tt)
                 | Raise e => (s, Raise e)
                 end;
    driver_quit := fun s => (s, Ok tt);
    now_isoformat := fun s => (s, "2025-01-01T00:00:00")
  |}.

(** A page state that answers lookups and waits from a table. *)
Definition page_of (table : list (string * list Element)) (click : result unit)
  : Page :=
  mkPage (Ok tt) (Ok JsNone)
         (fun css => Ok (Dom.lookup css table))
         (fun css => match Dom.lookup css table with
                     | first :: _ => Ok first
                     | [] => Raise TimeoutException
                     end)
         click.

End Scripted.

(** ** A recording world

    Any world, with the list of the commands issued so far kept beside
    it: what a test double that records calls would see. *)
Inductive Command : Type :=
| CmdGet (url : string)
| CmdSetPageLoadTimeout (seconds : Z)
| CmdExecuteScript (script : string)
| CmdFindElements (css : string)
| CmdWait (css : string) (timeout : Z)
| CmdClick
| CmdQuit
| CmdNow.

Definition recorded {W A} (c : Command) (f : W -> W * A)
  : W * list Command -> (W * list Command) * A :=
  fun s => let (w', a) := f (fst s) in ((w', (snd s ++ [c])%list), a).

#[global] Instance recording_world (W : Type) `{World W}
  : World (W * list Command) :=
  {|
    driver_get := fun url => recorded (CmdGet url) (driver_get url);
    driver_set_page_load_timeout :=
      fun t => recorded (CmdSetPageLoadTimeout t)
                        (driver_set_page_load_timeout t);
    driver_execute_script :=
      fun script args => recorded (CmdExecuteScript script)
                                  (driver_execute_script script args);
    driver_find_elements :=
      fun css => recorded (CmdFindElements css) (driver_find_elements css);
    wait_until_present :=
      fun css t => recorded (CmdWait css t) (wait_until_present css t);
    element_click := fun el => recorded CmdClick (element_click el);
    driver_quit := recorded CmdQuit driver_quit;
    now_isoformat := recorded CmdNow now_isoformat
  |}.

(** ** How a run of the pagination loop goes *)

Section PaginationRuns.

Context {W : Type} `{World W}.

(** The lookup of the next control from [w] finds nothing. *)
Definition next_absent (w w1 : W) : Prop :=
  driver_find_elements Css.next_button w = (w1, Ok [])
  \/ driver_find_elements Css.next_button w
     = (w1, Raise NoSuchElementException).

(** The lookup of the next control from [w] finds [next_btn]. *)
Definition next_present (next_btn : Element) (w w1 : W) : Prop :=
  exists rest,
    driver_find_elements Css.next_button w = (w1, Ok (next_btn :: rest)).

Definition scroll_into_view (next_btn : Element) : W -> W * result JsValue :=
  driver_execute_script "arguments[0].scrollIntoView({block:'center'});"
                        [next_btn].

(** A mid-pagination failure between [w1] and [w2]: the scroll or the
    click is intercepted or meets a stale reference, the reviews root does
    not come back in time, or the root that came back is stale when the
    page is read. *)
Inductive turn_fails (next_btn : Element) (w1 w2 : W) : Prop :=
| scroll_refused (e : Exn) :
    scroll_into_view next_btn w1 = (w2, Raise e) ->
    handles_click_failure e = true ->
    turn_fails next_btn w1 w2
| click_refused (wa : W) (v : JsValue) (e : Exn) :
    scroll_into_view next_btn w1 = (wa, Ok v) ->
    element_click next_btn wa = (w2, Raise e) ->
    handles_click_failure e = true ->
    turn_fails next_btn w1 w2
| root_times_out (wa wb : W) (v : JsValue) :
    scroll_into_view next_btn w1 = (wa, Ok v) ->
    element_click next_btn wa = (wb, Ok tt) ->
    wait_until_present Css.reviews_root 8 wb = (w2, Raise TimeoutException) ->
    turn_fails next_btn w1 w2
| root_stale (wa wb : W) (v : JsValue) (reviews_root : Element) (e : Exn) :
    scroll_into_view next_btn w1 = (wa, Ok v) ->
    element_click next_btn wa = (wb, Ok tt) ->
    wait_until_present Css.reviews_root 8 wb = (w2, Ok reviews_root) ->
    extract_page_items reviews_root = Raise e ->
    handles_click_failure e = true ->
    turn_fails next_btn w1 w2.

(** The click on [next_btn] goes through and the next page reads as [page]. *)
Definition turn_reads (next_btn : Element) (w1 : W) (page : list Review)
           (w2 : W) : Prop :=
  exists wa wb v reviews_root,
    scroll_into_view next_btn w1 = (wa, Ok v)
    /\ element_click next_btn wa = (wb, Ok tt)
    /\ wait_until_present Css.reviews_root 8 wb = (w2, Ok reviews_root)
    /\ extract_page_items reviews_root = Ok page.

(** A run of the loop from [w] that reads [pages], one per round, and
    then meets an absent next control or a failure, at [w']. *)
Inductive run_ends : W -> list (list Review) -> W -> Prop :=
| ends_no_next (w w1 : W) :
    next_absent w w1 -> run_ends w [] w1
| ends_failure (w w1 w2 : W) (next_btn : Element) :
    next_present next_btn w w1 ->
    turn_fails next_btn w1 w2 ->
    run_ends w [] w2
| one_more_page (w w1 w2 w3 : W) (next_btn : Element) (page : list Review)
                (pages : list (list Review)) :
    next_present next_btn w w1 ->
    turn_reads next_btn w1 page w2 ->
    run_ends w2 pages w3 ->
    run_ends w (page :: pages) w3.

End PaginationRuns.

(** A product page whose review section shows [items] and a next
    control; [click] is what clicking the control does. *)
Definition review_page (items : list Element) (click : result unit)
  : Scripted.Page :=
  Scripted.page_of
    [(Css.reviews_root, [Dom.reviews_root items]);
     (Css.next_button, [Dom.text_node "Next"])]
    click.

(** Two pages of reviews; the click on the second page is intercepted. *)
Definition two_page_site : Scripted.Site :=
  [review_page [Dom.review_item 5 "Rahim" "Good product"] (Ok tt);
   review_page [Dom.review_item 2 "Mitu" "Too small"]
               (Raise ElementClickInterceptedException)].

Definition review_of (stars : Z) (who body : string) : Review :=
  {| reviewer := who; rating_number := stars; review_text := body;
     review_images := ["https://img.example/r1.jpg"];
     review_date := "2 weeks ago"; review_like := 3 |}.

(** A site whose page load always runs into the page-load timeout. *)
Definition stalled_site : Scripted.Site :=
  [Scripted.mkPage (Raise TimeoutException) (Ok JsNone) (fun _ => Ok [])
                   (fun _ => Raise TimeoutException) (Ok tt)].

(** [ready_css] is absent for [safe_get]: [None] or the empty string. *)
Definition probe_absent (ready_css : option string) : Prop :=
  ready_css = None \/ ready_css = Some "".

Definition summary_link_css : string := "a.pdp-review-summary__link".
Definition small_badge_css : string := "span.qzqFw".

(** A product page without the review-summary link, whose small badge
    near the stars reads [(0)]. *)
Definition zero_badge_site : Scripted.Site :=
  [Scripted.page_of [("span.qzqFw", [Dom.text_node "(0)"])] (Ok tt)].

(** A product page whose review-summary link reads [No Ratings]. *)
Definition no_ratings_site : Scripted.Site :=
  [Scripted.page_of
     [("h1.pdp-mod-product-badge-title", [Dom.text_node "Acme Phone X"]);
      ("a.pdp-review-summary__link", [Dom.text_node "No Ratings"])]
     (Ok tt)].

Definition breadcrumb_css : string :=
  "ul#J_breadcrumb li .breadcrumb_item_anchor span".

(** A product page whose breadcrumb selector matches three nodes, the
    last of which repeats the product name. *)
Definition breadcrumb_site : Scripted.Site :=
  [Scripted.page_of
     [("h1.pdp-mod-product-badge-title", [Dom.text_node "Acme Phone X"]);
      (breadcrumb_css,
        [Dom.text_node "Electronics"; Dom.text_node " Mobiles ";
         Dom.text_node "Acme Phone X"])]
     (Ok tt)].

(** Every command that [m] issues on a recording world satisfies [P]
    (and the record only grows). *)
Definition issues {W A} (P : Command -> Prop) (m : M (W * list Command) A)
  : Prop :=
  forall s, exists more,
      snd (fst (m s)) = (snd s ++ more)%list /\ Forall P more.

(** The first command of the review traverser. *)
Definition traverser_wait : Command := CmdWait Css.reviews_root 10.

Definition product_title_css : string := "h1.pdp-mod-product-badge-title".

Definition no_ratings_line : string := "      No ratings — skipping product.".

(** A command other than the traverser's first. *)
Definition not_traverser_wait (c : Command) : Prop := c <> traverser_wait.

(** A listing card that points at a product page. *)
Definition acme_card : ProductSummary :=
  {| product_url := "https://www.daraz.com.bd/products/acme-phone-x-i1.html";
     product_img := "https://img.example/acme.jpg";
     product_price := Some (mkPyFloat "1234.50");
     total_sold := Some 120;
     seller_location := "Dhaka";
     listing_title := "Acme Phone X" |}.

Definition no_files : Files := fun _ => None.

(** ** The sink *)

(** The header row of the output file. *)
Definition header_record : CsvRecord := map CellStr headers.


(** [rows] are written as [records] under the columns [header]. *)
Definition written_as (header : list string) (rows : list RowDict)
           (records : list CsvRecord) : Prop :=
  Forall2 (fun row record => _dict_to_list header row = Ok record)
          rows records.


(** Running [m] keeps [I] true of the files, and what it returns
    satisfies [Q]. *)
Definition keeps {W A} (I : Files -> Prop) (m : M (Machine (W := W)) A)
           (Q : A -> Prop) : Prop :=
  forall st,
    I (files st) ->
    I (files (fst (m st))) /\ forall a, snd (m st) = Returned a -> Q a.

(** Three rows of one product and two of another. *)
Definition rows_of (url : string) (stars : list Z) : list RowDict :=
  map (fun n =>
         assemble_row url acme_card
                      (mkDetail "Acme Phone X" "Acme Store" "90%"
                                ["Electronics"] [] "4.5/5" [])
                      (Some 5) (review_of n "Rahim" "Good product")
                      "2025-01-01T00:00:00")
      stars.

Definition product_a_rows : list RowDict :=
  rows_of "https://www.daraz.com.bd/products/a-i1.html" [5; 4; 3].

Definition product_b_rows : list RowDict :=
  rows_of "https://www.daraz.com.bd/products/b-i2.html" [2; 1].

Definition records_of (rows : list RowDict) : list CsvRecord :=
  map (fun row => map snd row) rows.


(** ** Listing cards *)

Definition card_anchor_css : string := "div._95X4G a[href]".

(** A listing card with the nodes that [extract_card] requires, whose
    link reads [href]. *)
Definition listing_card (href : option string) : Element :=
  Dom.node [(card_anchor_css, [Dom.anchor href]);
            (card_image_css, [Dom.img "https://img.example/acme.jpg"]);
            ("div.RfADt a", [Dom.text_node "Acme Phone X"]);
            ("div.aBrP0 span.ooOxS", [Dom.text_node "Tk 1,234.50"]);
            ("span._1cEkb span", [Dom.text_node "120 sold"]);
            ("span.oa6ri", [Dom.text_node "Dhaka"])].

(** The answers of the two table-driven checks of [urlsplit] used in
    closed examples; none of the examples reaches them. *)
Definition any_bracketed_host : string -> bool := fun _ => true.
Definition no_nfkc_rejection : string -> bool := fun _ => false.

(** ** Absolute URLs *)

(** The scheme that [urlsplit] finds written in [url], if any: a URL
    with an explicit scheme is absolute, a protocol-relative one has none. *)
Definition explicit_scheme (url : string) : option string :=
  option_map fst
    (Urllib.split_scheme (Urllib.remove_unsafe (Urllib.lstrip_c0 url))).








(** * Definitions used to state further properties *)

(** [text] holds an ASCII digit. *)
Definition has_digit (text : string) : bool :=
  Urllib.existsb_string PyStr.isdigit text.

(** How many times [c] stands in [text]. *)
Definition count_char (c : ascii) (text : string) : nat :=
  String.length (PyStr.filter (fun x => Ascii.eqb x c) text).





(** [s] is one of the quotes that the style pattern allows around a URL,
    or nothing. *)
Definition optional_quote (q : string) : Prop :=
  q = "" \/ q = String double_quote "" \/ q = "'".

(** No line feed in [s]. *)
Definition single_line (s : string) : bool :=
  Urllib.forallb_string (fun c => negb (Ascii.eqb c newline)) s.

(** [u] does not start with a quote. *)
Definition starts_unquoted (u : string) : bool :=
  match u with
  | EmptyString => true
  | String c _ => negb (Ascii.eqb c double_quote || Ascii.eqb c "'"%char)
  end.

(** The style of a picture node as the site writes it, with [inside]
    between the parentheses. *)
Definition background_style (inside rest : string) : string :=
  "background-image: url(" ++ inside ++ ")" ++ rest.

(** ** Review items *)

(** An item every read of which meets a stale reference. *)
Definition stale_item : Element :=
  mkElement (Raise StaleElementReferenceException)
            (fun _ => Raise StaleElementReferenceException)
            (fun _ => Raise StaleElementReferenceException).

(** An item whose lookups fail with [e]. *)
Definition failing_item (e : Exn) : Element :=
  mkElement (Ok "") (fun _ => Ok None) (fun _ => Raise e).

(** [it] yields a record or is stale: the loop over the items goes past it. *)
Definition reads_or_stale (it : Element) : Prop :=
  (exists r, extract_item it = Ok r)
  \/ extract_item it = Raise StaleElementReferenceException.

(** [u] is written in [style] as the target of a [url(...)], with an
    optional quote on both sides; it is not empty and holds no line feed. *)
Definition url_of_style (style u : string) : Prop :=
  u <> "" /\ single_line u = true
  /\ exists before q after,
      optional_quote q
      /\ style = (before ++ "url(" ++ q ++ u ++ q ++ ")" ++ after)%string.

(** A product page whose reviews root never shows up and whose waits
    fail with [e]. *)
Definition failing_wait_site (e : Exn) : Scripted.Site :=
  [Scripted.mkPage (Ok tt) (Ok JsNone) (fun _ => Ok []) (fun _ => Raise e)
                   (Ok tt)].

(** A product page whose reviews root is there but stale when read. *)
Definition stale_root_site : Scripted.Site :=
  [Scripted.page_of [(Css.reviews_root, [stale_item])] (Ok tt)].

(** ** Navigation *)

(** The call ends by returning or by raising something other than a
    timeout. *)
Definition ends_without_timeout {A} (o : outcome A) : Prop :=
  match o with
  | Returned _ => True
  | Raised e => e <> TimeoutException
  | OutOfFuel => False
  end.

Definition is_load (c : Command) : bool :=
  match c with
  | CmdGet _ => true
  | _ => false
  end.

(** How many page loads stand in a record of commands. *)
Definition loads (record : list Command) : nat :=
  List.length (List.filter is_load record).

(** A product page that loads and never shows what the probe waits for. *)
Definition never_ready_site : Scripted.Site :=
  [Scripted.page_of [] (Ok tt)].

(** The text of [el], lower-cased, is one of the labels of a consent
    button. *)
Definition has_popup_label (el : Element) : bool :=
  Urllib.mem (Urllib.lower (_text_or_empty el)) popup_labels.

Definition click_script : string := "arguments[0].click();".
Definition height_script : string := "return document.body.scrollHeight".
Definition scroll_script : string :=
  "window.scrollTo(0, document.body.scrollHeight);".

Definition is_script (c : Command) : Prop :=
  exists script, c = CmdExecuteScript script.

(** ** Cards of a listing page *)

(** A card that the loop over the cards goes past: it reads, or it
    lacks a node, or it is stale. *)
Definition reads_or_is_skipped (r : result ProductSummary) : Prop :=
  match r with
  | Ok _ => True
  | Raise NoSuchElementException => True
  | Raise StaleElementReferenceException => True
  | Raise _ => False
  end.

(** The summary of a card that reads, nothing for one that does not. *)
Definition summary_if_read (r : result ProductSummary) : list ProductSummary :=
  match r with
  | Ok summary => [summary]
  | Raise _ => []
  end.

(** ** Product details *)

(** The key of the rating summary for [star] stars. *)
Definition star_key (star : Z) : string := PyStr.of_Z star ++ "_star".

Definition star_keys : list string :=
  ["5_star"; "4_star"; "3_star"; "2_star"; "1_star"].

(** A lookup that found a node, or met none. *)
Definition found_or_missing (r : result Element) : Prop :=
  match r with
  | Ok _ => True
  | Raise NoSuchElementException => True
  | Raise _ => False
  end.

(** The row of the rating breakdown answers the lookup of its count. *)
Definition row_answers (li : Element) : Prop :=
  found_or_missing (el_find_element li "span.percent").

Definition count_is_natural (entry : string * Z) : Prop := 0 <= snd entry.

(** ** The sink, file by file *)

(** What a file holds, an absent file holding nothing. *)
Definition content_of (fs : Files) (path : string) : list CsvRecord :=
  match fs path with
  | Some records => records
  | None => []
  end.

(** A row with a column that the header does not have. *)
Definition stray_row : RowDict :=
  [("Reviewer username or name", CellStr "Rahim"); ("Stars", CellInt 5)].

(** ** Whole runs *)

(** The machine before [scrape_range] starts: a browser with nothing
    recorded, nothing printed and no file. *)
Definition fresh_machine {W} (w : W) : Machine (W := W * list Command) :=
  mkMachine (w, []) [] no_files.

(** The records of the rows assembled for [reviews], one per review,
    each with the time at which it was assembled. *)
Definition review_records (card : ProductSummary) (pd : ProductDetail)
           (total_rating : option Z) (reviews : list Review)
           (timestamps : list string) : list CsvRecord :=
  map (fun stamped =>
         map snd (assemble_row (product_url card) card pd total_rating
                               (fst stamped) (snd stamped)))
      (combine reviews timestamps).

(** A product page with a title, a rating count and one review, and
    nothing to page through. *)
Definition product_site : Scripted.Site :=
  [Scripted.page_of
     [("h1.pdp-mod-product-badge-title", [Dom.text_node "Acme Phone X"]);
      ("a.pdp-review-summary__link", [Dom.text_node "Ratings 1"]);
      (Css.reviews_root,
        [Dom.reviews_root [Dom.review_item 5 "Rahim" "Good product"]])]
     (Ok tt)].

(** * Properties *)

Open Scope list_scope.

(** ** The embedding on the examples of the specification *)

Example int_from_text_sold : _int_from_text "120 sold" = Some 120.
Proof. reflexivity. Qed.

Example int_from_text_grouped : _int_from_text "Ratings 1,234" = Some 1234.
Proof. reflexivity. Qed.

Example int_from_text_no_digits : _int_from_text "No Ratings" = None.
Proof. reflexivity. Qed.

Example price_with_currency :
  _price_to_number "Tk 1,234.50" = Some (mkPyFloat "1234.50").
Proof. reflexivity. Qed.

Example price_not_available : _price_to_number "N/A" = None.
Proof. reflexivity. Qed.

Example price_empty : _price_to_number "" = None.
Proof. reflexivity. Qed.

Example background_image_unquoted :
  _extract_background_image_url "background-image: url(https://a.b/c.jpg);"
  = Some "https://a.b/c.jpg".
Proof. reflexivity. Qed.

Example background_image_quoted :
  _extract_background_image_url "background-image: url('https://a.b/c.jpg');"
  = Some "https://a.b/c.jpg".
Proof. reflexivity. Qed.

Example normalize_protocol_relative :
  normalize_url "//www.daraz.com.bd/products/x.html"
  = "https://www.daraz.com.bd/products/x.html".
Proof. reflexivity. Qed.

Example join_relative_path :
  urljoin any_bracketed_host no_nfkc_rejection BASE_URL
          "/products/x.html?spm=1"
  = Ok "https://www.daraz.com.bd/products/x.html?spm=1".
Proof. vm_compute. reflexivity. Qed.

Example join_dot_segments :
  urljoin any_bracketed_host no_nfkc_rejection BASE_URL "a//b/../c/./d"
  = Ok "https://www.daraz.com.bd/a/c/d".
Proof. vm_compute. reflexivity. Qed.

Example join_other_scheme :
  urljoin any_bracketed_host no_nfkc_rejection BASE_URL "http://h/p?"
  = Ok "http://h/p?".
Proof. vm_compute. reflexivity. Qed.

(** ** Star counts *)

Lemma count_filled_from :
  forall imgs acc,
    let step := fun filled s =>
                  if PyStr.contains STAR_FILLED_TOKEN (_get_attr s "src")
                  then filled + 1 else filled in
    acc <= fold_left step imgs acc <= acc + Z.of_nat (List.length imgs).
Proof.
  induction imgs as [|s imgs IH]; intros acc step; cbn [fold_left List.length].
  - lia.
  - subst step. cbv beta.
    destruct (PyStr.contains STAR_FILLED_TOKEN (_get_attr s "src"));
      [specialize (IH (acc + 1))|specialize (IH acc)]; cbv zeta in IH; lia.
Qed.

Lemma count_filled_bounds :
  forall imgs, 0 <= count_filled imgs <= Z.of_nat (List.length imgs).
Proof.
  intros imgs. unfold count_filled.
  pose proof (count_filled_from imgs 0) as Hb. cbv zeta in Hb. lia.
Qed.

(** What a successful [extract_item] did: it found the star images and
    counted them. *)
Lemma extract_item_rating :
  forall it r,
    extract_item it = Ok r ->
    exists star_imgs,
      el_find_elements it Css.star = Ok star_imgs
      /\ rating_number r = count_filled star_imgs.
Proof.
  intros it r. unfold extract_item.
  destruct (el_find_elements it Css.star) as [star_imgs|e]; cbn [rbind];
    [|discriminate].
  destruct (item_date it); cbn [rbind]; [|discriminate].
  destruct (item_username it); cbn [rbind]; [|discriminate].
  destruct (item_review_text it); cbn [rbind]; [|discriminate].
  destruct (item_review_images it); cbn [rbind]; [|discriminate].
  destruct (item_likes it); cbn [rbind]; [|discriminate].
  intros [= <-]. exists star_imgs. split; reflexivity.
Qed.

(** Every record of a page comes from one of its items, or was there
    before the loop. *)
Lemma extract_items_origin :
  forall items acc out r,
    extract_items items acc = Ok out ->
    In r out ->
    In r acc \/ exists it, In it items /\ extract_item it = Ok r.
Proof.
  induction items as [|it items IH]; intros acc out r Hrun Hin; cbn in Hrun.
  - injection Hrun as <-. now left.
  - destruct (extract_item it) as [r0|e] eqn:Hit.
    + destruct (IH _ _ _ Hrun Hin) as [Hacc|[it' [Hin' Hit']]].
      * apply in_app_or in Hacc. destruct Hacc as [Hacc|[<-|[]]].
        -- now left.
        -- right. exists it. split; [now left|assumption].
      * right. exists it'. split; [now right|assumption].
    + destruct e; try discriminate.
      destruct (IH _ _ _ Hrun Hin) as [Hacc|[it' [Hin' Hit']]].
      * now left.
      * right. exists it'. split; [now right|assumption].
Qed.

(** C1. Every review record that [extract_page_items] produces has a
    rating that is a non-negative integer, whatever the document subtree
    looks like; and when no review item of the page holds more than five
    star images, the rating is at most 5, so it is one of 0, 1, 2, 3, 4, 5. *)
Theorem star_count_between_0_and_5 :
  forall reviews_root reviews r,
    extract_page_items reviews_root = Ok reviews ->
    In r reviews ->
    0 <= rating_number r
    /\ ((forall items it star_imgs,
            el_find_elements reviews_root Css.review_item = Ok items ->
            In it items ->
            el_find_elements it Css.star = Ok star_imgs ->
            (List.length star_imgs <= 5)%nat) ->
        rating_number r <= 5).
Proof.
  intros root reviews r Hpage Hin. unfold extract_page_items in Hpage.
  destruct (el_find_elements root Css.review_item) as [items|e] eqn:Hitems;
    cbn [rbind] in Hpage; [|discriminate].
  destruct (extract_items_origin _ _ _ Hpage Hin) as [[]|[it [Hit Hr]]].
  destruct (extract_item_rating _ Hr) as [star_imgs [Hstars ->]].
  pose proof (count_filled_bounds star_imgs) as Hb.
  split; [lia|].
  intros Hfive. specialize (Hfive items it star_imgs eq_refl Hit Hstars). lia.
Qed.

Lemma star_count_between_0_and_5_witness :
  let root := Dom.reviews_root [Dom.review_item 3 "Rahim" "Good product"] in
  let r := {| reviewer := "Rahim"; rating_number := 3;
              review_text := "Good product";
              review_images := ["https://img.example/r1.jpg"];
              review_date := "2 weeks ago"; review_like := 3 |} in
  extract_page_items root = Ok [r]
  /\ 0 <= rating_number r <= 5.
Proof.
  intros root r.
  assert (Hrun : extract_page_items root = Ok [r]) by (vm_compute; reflexivity).
  split; [exact Hrun|].
  destruct (@star_count_between_0_and_5 root [r] r Hrun (or_introl eq_refl))
    as [Hlo Hhi].
  split; [exact Hlo|].
  apply Hhi. intros items it star_imgs Hitems Hit Hstars.
  vm_compute in Hitems. injection Hitems as <-.
  destruct Hit as [<-|[]]. vm_compute in Hstars. injection Hstars as <-.
  cbn. lia.
Defined.

(** ** Missing optional nodes *)







Lemma extract_item_inv :
  forall it r,
    extract_item it = Ok r ->
    (exists star_imgs, el_find_elements it Css.star = Ok star_imgs
                       /\ rating_number r = count_filled star_imgs)
    /\ item_date it = Ok (review_date r)
    /\ item_username it = Ok (reviewer r)
    /\ item_review_text it = Ok (review_text r)
    /\ item_review_images it = Ok (review_images r)
    /\ item_likes it = Ok (review_like r).
Proof.
  intros it r Hr. split; [exact (extract_item_rating _ Hr)|].
  revert Hr. unfold extract_item.
  destruct (el_find_elements it Css.star); cbn [rbind]; [|discriminate].
  destruct (item_date it); cbn [rbind]; [|discriminate].
  destruct (item_username it); cbn [rbind]; [|discriminate].
  destruct (item_review_text it); cbn [rbind]; [|discriminate].
  destruct (item_review_images it); cbn [rbind]; [|discriminate].
  destruct (item_likes it); cbn [rbind]; [|discriminate].
  intros [= <-]. cbn. repeat split; reflexivity.
Qed.











(** ** The pagination loop *)

Section Pagination.

Context {W : Type} `{World W}.

Ltac run_monad :=
  unfold turn_page, find_next_button, find_element, find_elements,
    execute_script, wait_css, try_except, bind, command, of_result, ret,
    raise, scroll_into_view in *.

Lemma find_next_button_absent :
  forall w w1, next_absent w w1 -> find_next_button w = (w1, Returned None).
Proof.
  intros w w1 [Hf|Hf]; run_monad; rewrite Hf; reflexivity.
Qed.

Lemma find_next_button_present :
  forall next_btn w w1,
    next_present next_btn w w1 ->
    find_next_button w = (w1, Returned (Some next_btn)).
Proof.
  intros b w w1 [rest Hf]. run_monad. rewrite Hf. reflexivity.
Qed.

Lemma turn_page_fails :
  forall next_btn w1 w2 reviews,
    turn_fails next_btn w1 w2 ->
    turn_page next_btn reviews w1 = (w2, Returned Break).
Proof.
  intros b w1 w2 reviews Hfail.
  destruct Hfail as [e Hs He|wa v e Hs Hc He|wa wb v Hs Hc Hw
                     |wa wb v root e Hs Hc Hw Hx He];
    run_monad; rewrite Hs; try rewrite Hc; try rewrite Hw; try rewrite Hx;
    try rewrite He; reflexivity.
Qed.

Lemma turn_page_reads :
  forall next_btn w1 w2 page reviews,
    turn_reads next_btn w1 page w2 ->
    turn_page next_btn reviews w1 = (w2, Returned (NextPage (reviews ++ page))).
Proof.
  intros b w1 w2 page reviews (wa & wb & v & root & Hs & Hc & Hw & Hx).
  run_monad. rewrite Hs, Hc, Hw, Hx. reflexivity.
Qed.

(** C3. Every run of the pagination loop that reads some pages and then
    finds the next control absent, or fails mid-pagination (click or
    scroll intercepted, stale reference, reviews root not back in time),
    terminates: given more rounds of fuel than pages read, the loop
    returns the reviews it started with followed by every page read
    before the stop. Nothing collected earlier is discarded. *)
Theorem pagination_stop_keeps_reviews :
  forall w pages w',
    run_ends w pages w' ->
    forall reviews fuel,
      (List.length pages < fuel)%nat ->
      pagination_loop fuel reviews w
      = (w', Returned (reviews ++ List.concat pages)).
Proof.
  intros w pages w' Hrun.
  induction Hrun as [w w1 Habs|w w1 w2 b Hnext Hfail
                     |w w1 w2 w3 b page pages Hnext Hread Hrun IH];
    intros reviews fuel Hfuel;
    (destruct fuel as [|fuel]; [cbn in Hfuel; lia|]);
    cbn [pagination_loop]; unfold bind at 1.
  - rewrite (find_next_button_absent Habs). cbn [List.concat].
    rewrite app_nil_r. reflexivity.
  - rewrite (find_next_button_present Hnext). unfold bind.
    rewrite (turn_page_fails reviews Hfail). cbn [List.concat].
    rewrite app_nil_r. reflexivity.
  - rewrite (find_next_button_present Hnext). unfold bind at 1.
    rewrite (turn_page_reads reviews Hread).
    rewrite IH by (cbn in Hfuel; lia).
    cbn [List.concat]. rewrite app_assoc. reflexivity.
Qed.

End Pagination.

Lemma pagination_stop_keeps_reviews_witness :
  pagination_loop 2 [review_of 5 "Rahim" "Good product"] two_page_site
  = (tl two_page_site,
     Returned [review_of 5 "Rahim" "Good product";
               review_of 2 "Mitu" "Too small"]).
Proof.
  apply (@pagination_stop_keeps_reviews
           Scripted.Site _ two_page_site
           [[review_of 2 "Mitu" "Too small"]] (tl two_page_site)).
  - eapply one_more_page with (next_btn := Dom.text_node "Next").
    + exists []. reflexivity.
    + exists two_page_site, (tl two_page_site), JsNone,
        (Dom.reviews_root [Dom.review_item 2 "Mitu" "Too small"]).
      repeat split; reflexivity.
    + eapply ends_failure with (next_btn := Dom.text_node "Next").
      * exists []. reflexivity.
      * eapply click_refused with (e := ElementClickInterceptedException);
          reflexivity.
  - cbn. lia.
Defined.

(** ** Navigation *)

Section Navigation.

Context {W : Type} `{World W}.

(** One attempt of [safe_get] without a probe: the load, then [True]. *)
Lemma safe_get_attempts_without_probe :
  forall url ready_css tries wait_timeout attempt remaining w,
    probe_absent ready_css ->
    safe_get_attempts url ready_css tries wait_timeout attempt (S remaining) w
    = match driver_get url w with
      | (w1, Ok _) => (w1, Returned true)
      | (w1, Raise TimeoutException) =>
          (fst (driver_execute_script "window.stop();" [] w1), Returned true)
      | (w1, Raise e) => (w1, Raised e)
      end.
Proof.
  intros url ready_css tries wait_timeout attempt remaining w Habsent.
  cbn [safe_get_attempts].
  unfold bind, try_except, command, window_stop, suppress_Exception,
    execute_script, command.
  destruct (driver_get url w) as [w1 [[]|e]].
  - destruct Habsent as [->| ->]; reflexivity.
  - destruct e; cbn [is_Timeout Exn_eqb]; try reflexivity.
    destruct (driver_execute_script "window.stop();" [] w1) as [w2 [v|e]];
      destruct Habsent as [->| ->]; reflexivity.
Qed.

(** C5, as the code has it. With no readiness probe and at least one
    attempt allowed, [safe_get] makes a single load attempt and returns
    [True] when the load does not throw, at once and without any content
    check, and also when the load throws a timeout, after a best-effort
    [window.stop()]; any other exception of the load leaves [safe_get].
    With no attempt allowed it returns [False] without loading. *)
Theorem safe_get_without_probe :
  forall url ready_css tries wait_timeout w,
    probe_absent ready_css ->
    (tries <= 0 ->
     safe_get url ready_css tries wait_timeout w = (w, Returned false))
    /\ (1 <= tries ->
        (forall w1,
            driver_get url w = (w1, Ok tt) ->
            safe_get url ready_css tries wait_timeout w = (w1, Returned true))
        /\ (forall w1,
               driver_get url w = (w1, Raise TimeoutException) ->
               safe_get url ready_css tries wait_timeout w
               = (fst (driver_execute_script "window.stop();" [] w1),
                  Returned true))
        /\ (forall w1 e,
               driver_get url w = (w1, Raise e) ->
               e <> TimeoutException ->
               safe_get url ready_css tries wait_timeout w = (w1, Raised e))).
Proof.
  intros url ready_css tries wait_timeout w Habsent. unfold safe_get. split.
  - intros Hle. replace (Z.to_nat (tries + 1 - 1)) with 0%nat by lia.
    reflexivity.
  - intros Hge.
    destruct (Z.to_nat (tries + 1 - 1)) as [|remaining] eqn:Hn; [lia|].
    rewrite safe_get_attempts_without_probe by assumption.
    repeat split.
    + intros w1 ->. reflexivity.
    + intros w1 ->. reflexivity.
    + intros w1 e -> Hne. destruct e; try reflexivity. congruence.
Qed.

End Navigation.

Lemma safe_get_without_probe_witness :
  probe_absent None
  /\ driver_get "https://www.daraz.com.bd/" stalled_site
     = (stalled_site, Raise TimeoutException)
  /\ safe_get "https://www.daraz.com.bd/" None 3 12 stalled_site
     = (stalled_site, Returned true).
Proof.
  split; [left; reflexivity|]. split; [reflexivity|].
  exact (proj1 (proj2 (proj2 (@safe_get_without_probe
                                Scripted.Site _ "https://www.daraz.com.bd/"
                                None 3 12 stalled_site
                                (or_introl eq_refl))
                             ltac:(lia)))
               stalled_site eq_refl).
Defined.

(** C5, as stated, fails: [safe_get] without a probe does not return
    [True] exactly when the load does not throw. On a site whose load
    times out it returns [True] all the same. *)
Lemma safe_get_true_not_only_when_load_succeeds :
  ~ (forall (url : string) (tries timeout : Z) (w : Scripted.Site),
        1 <= tries ->
        (exists w', safe_get url None tries timeout w = (w', Returned true))
        <-> (exists w1, driver_get url w = (w1, Ok tt))).
Proof.
  intros Hclaim.
  destruct (proj1 (Hclaim "https://www.daraz.com.bd/" 3 12 stalled_site
                          ltac:(lia))) as [w1 Hload].
  - exists stalled_site. reflexivity.
  - discriminate Hload.
Qed.

(** ** The rating gate *)

Lemma digits_to_Z_nonneg : forall s, 0 <= PyStr.digits_to_Z s.
Proof.
  intros s. unfold PyStr.digits_to_Z.
  assert (Hacc : forall l acc,
             0 <= acc ->
             0 <= fold_left
                    (fun acc c => 10 * acc + Z.of_nat (nat_of_ascii c - 48))
                    l acc).
  { induction l as [|c l IH]; intros acc Hacc; cbn [fold_left];
      [assumption|]. apply IH. lia. }
  apply Hacc. lia.
Qed.

Lemma _int_from_text_nonneg :
  forall text n, _int_from_text text = Some n -> 0 <= n.
Proof.
  intros text n. unfold _int_from_text.
  destruct (search_digit_run text); [|discriminate].
  intros [= <-]. apply digits_to_Z_nonneg.
Qed.

Section RatingGate.

Context {W : Type} `{World W}.

Ltac run_gate :=
  cbv beta zeta delta [product_has_reviews try_except bind wait_css find_element
                  find_elements command ret raise summary_link_css
                  small_badge_css] in *.

(** C7, as the code has it. With the review-summary link present,
    [product_has_reviews] returns [(False, None)] when its text holds
    the marker [No Ratings], and [(True, n)] otherwise, [n] being what
    [_int_from_text] parses from the text. When the wait for the link
    times out it reads the small badge: absent, the answer is
    [(False, None)]; present, it is [(n > 0, n)] for the integer [n] of
    the badge, so a badge that reads zero gives [(False, 0)]. Whenever the
    boolean is [False] the count is absent or zero. *)
Theorem product_has_reviews_cases :
  forall w,
    (forall w1 link,
        wait_until_present summary_link_css 10 w = (w1, Ok link) ->
        product_has_reviews w
        = (w1, Returned
                 (if PyStr.contains "No Ratings" (_text_or_empty link)
                  then (false, None)
                  else (true, _int_from_text (_text_or_empty link)))))
    /\ (forall w1 w2,
           wait_until_present summary_link_css 10 w
           = (w1, Raise TimeoutException) ->
           driver_find_elements small_badge_css w1 = (w2, Ok []) ->
           product_has_reviews w = (w2, Returned (false, None)))
    /\ (forall w1 w2 small rest,
           wait_until_present summary_link_css 10 w
           = (w1, Raise TimeoutException) ->
           driver_find_elements small_badge_css w1 = (w2, Ok (small :: rest)) ->
           product_has_reviews w
           = (w2, Returned
                    (match _int_from_text (_text_or_empty small) with
                     | Some n => 0 <? n
                     | None => false
                     end,
                     _int_from_text (_text_or_empty small))))
    /\ (forall w' total,
           product_has_reviews w = (w', Returned (false, total)) ->
           total = None \/ total = Some 0).
Proof.
  intros w. repeat split.
  - intros w1 link Hw. run_gate. rewrite Hw.
    destruct (PyStr.contains "No Ratings" (_text_or_empty link)); reflexivity.
  - intros w1 w2 Hw Hf. run_gate. rewrite Hw. cbn [is_Timeout Exn_eqb].
    rewrite Hf. reflexivity.
  - intros w1 w2 small rest Hw Hf. run_gate. rewrite Hw.
    cbn [is_Timeout Exn_eqb]. rewrite Hf. reflexivity.
  - intros w' total. run_gate.
    destruct (wait_until_present "a.pdp-review-summary__link" 10 w)
      as [w1 [link|e]].
    + destruct (PyStr.contains "No Ratings" (_text_or_empty link));
        intros Heq; [injection Heq as _ <-; now left|discriminate Heq].
    + destruct e; cbn [is_Timeout Exn_eqb]; try discriminate.
      destruct (driver_find_elements "span.qzqFw" w1) as [w2 [found|e]].
      * destruct found as [|small rest]; cbn [is_NoSuchElement Exn_eqb].
        -- intros [= _ <-]. now left.
        -- destruct (_int_from_text (_text_or_empty small)) as [n|] eqn:Hn.
           ++ intros [= _ Hpos <-]. right.
              apply _int_from_text_nonneg in Hn.
              apply Z.ltb_ge in Hpos. f_equal. lia.
           ++ intros [= _ <-]. now left.
      * destruct e; cbn [is_NoSuchElement Exn_eqb]; try discriminate.
        intros [= _ <-]. now left.
Qed.

End RatingGate.

Lemma product_has_reviews_cases_witness :
  wait_until_present summary_link_css 10 zero_badge_site
  = (zero_badge_site, Raise TimeoutException)
  /\ product_has_reviews zero_badge_site
     = (zero_badge_site, Returned (false, Some 0)).
Proof.
  split; [reflexivity|].
  exact (proj1 (proj2 (proj2 (@product_has_reviews_cases
                                Scripted.Site _ zero_badge_site)))
               zero_badge_site zero_badge_site (Dom.text_node "(0)") []
               eq_refl eq_refl).
Defined.

(** C7, as stated, fails in its last clause: a false boolean does not
    always come with an absent count. A badge that reads zero gives
    [(False, 0)]. *)
Lemma false_gate_with_a_count :
  ~ (forall (w w' : Scripted.Site) (total : option Z),
        product_has_reviews w = (w', Returned (false, total)) ->
        total = None).
Proof.
  intros Hclaim.
  specialize (Hclaim zero_badge_site zero_badge_site (Some 0) eq_refl).
  discriminate Hclaim.
Qed.

(** ** Breadcrumb categories *)

(** The comprehension of [extract_product_level_details] keeps the text
    of every matched breadcrumb node that has one: none is skipped by
    position. *)
Lemma category_texts_all :
  forall crumbs,
    category_texts crumbs
    = Ok (List.filter (fun t => negb (PyStr.is_empty t))
                      (map _text_or_empty crumbs)).
Proof.
  induction crumbs as [|c crumbs IH]; cbn [category_texts map List.filter].
  - reflexivity.
  - destruct (PyStr.is_empty (_text_or_empty c)) eqn:Hempty; cbn [negb].
    + exact IH.
    + unfold _text_or_empty in *. destruct (el_text c) as [t|e];
        [|discriminate Hempty].
      cbn [rbind]. rewrite IH. reflexivity.
Qed.


(** ** What a computation issues on a recording world *)

Section Issues.

Context {W : Type} `{World W}.

Variable P : Command -> Prop.

#[local] Abbreviation R := (W * list Command)%type.

Lemma issues_ret : forall A (a : A), issues P (ret (S := R) a).
Proof.
  intros A a s. exists []. cbn. rewrite app_nil_r. split; constructor.
Qed.

Lemma issues_raise : forall A e, issues P (raise (S := R) (A := A) e).
Proof.
  intros A e s. exists []. cbn. rewrite app_nil_r. split; constructor.
Qed.

Lemma issues_of_result :
  forall A (r : result A), issues P (of_result (S := R) r).
Proof.
  intros A r s. exists []. destruct r; cbn; rewrite app_nil_r;
    split; constructor.
Qed.

Lemma issues_bind :
  forall A B (m : M R A) (k : A -> M R B),
    issues P m -> (forall a, issues P (k a)) -> issues P (bind m k).
Proof.
  intros A B m k Hm Hk s. unfold bind.
  destruct (Hm s) as [more [Hlog Hall]].
  destruct (m s) as [s1 [a|e|]]; cbn [fst] in Hlog.
  - destruct (Hk a s1) as [more' [Hlog' Hall']].
    exists (more ++ more'). rewrite Hlog', Hlog, app_assoc.
    split; [reflexivity|]. apply Forall_app. split; assumption.
  - exists more. split; assumption.
  - exists more. split; assumption.
Qed.

Lemma issues_try_except :
  forall A (m : M R A) handles (handler : M R A),
    issues P m -> issues P handler -> issues P (try_except m handles handler).
Proof.
  intros A m handles handler Hm Hh s. unfold try_except.
  destruct (Hm s) as [more [Hlog Hall]].
  destruct (m s) as [s1 [a|e|]]; cbn [fst] in Hlog;
    try (exists more; split; assumption).
  destruct (handles e); [|exists more; split; assumption].
  destruct (Hh s1) as [more' [Hlog' Hall']].
  exists (more ++ more'). rewrite Hlog', Hlog, app_assoc.
  split; [reflexivity|]. apply Forall_app. split; assumption.
Qed.

Lemma issues_suppress :
  forall A (m : M R A), issues P m -> issues P (suppress_Exception m).
Proof.
  intros A m Hm s. unfold suppress_Exception.
  destruct (Hm s) as [more [Hlog Hall]].
  destruct (m s) as [s1 [a|e|]]; exists more; split; assumption.
Qed.

Lemma issues_recorded :
  forall A (c : Command) (f : W -> W * result A),
    P c -> issues P (command (recorded c f)).
Proof.
  intros A c f Hc s. exists [c]. unfold command, recorded.
  destruct (f (fst s)) as [w' [a|e]]; cbn; split; auto.
Qed.

Lemma issues_wait_css :
  forall css timeout,
    P (CmdWait css timeout) -> issues P (wait_css css timeout).
Proof. intros css timeout Hc. apply issues_recorded. exact Hc. Qed.

Lemma issues_find_elements :
  forall css, P (CmdFindElements css) -> issues P (find_elements css).
Proof. intros css Hc. apply issues_recorded. exact Hc. Qed.

Lemma issues_find_element :
  forall css, P (CmdFindElements css) -> issues P (find_element css).
Proof.
  intros css Hc. unfold find_element. apply issues_bind.
  - apply issues_find_elements. exact Hc.
  - intros [|first rest]; [apply issues_raise|apply issues_ret].
Qed.

Lemma issues_execute_script :
  forall script args,
    P (CmdExecuteScript script) -> issues P (execute_script script args).
Proof. intros script args Hc. apply issues_recorded. exact Hc. Qed.

Lemma issues_click :
  forall el, P CmdClick -> issues P (command (element_click el)).
Proof. intros el Hc. apply (@issues_recorded unit). exact Hc. Qed.

Lemma issues_get :
  forall url, P (CmdGet url) -> issues P (command (driver_get url)).
Proof. intros url Hc. apply (@issues_recorded unit). exact Hc. Qed.

End Issues.

(** ** The rating gate in the orchestrator *)

Section GateInOrchestrator.

Context {W : Type} `{World W}.

#[local] Abbreviation R := (W * list Command)%type.

Lemma issues_window_stop : issues (W := W) not_traverser_wait window_stop.
Proof.
  apply issues_suppress, issues_execute_script. discriminate.
Qed.

Lemma issues_safe_get_attempts :
  forall url css tries wait_timeout remaining attempt,
    not_traverser_wait (CmdWait css wait_timeout) ->
    issues (W := W) not_traverser_wait
           (safe_get_attempts url (Some css) tries wait_timeout attempt
                              remaining).
Proof.
  intros url css tries wait_timeout remaining.
  induction remaining as [|remaining IH]; intros attempt Hcss;
    cbn [safe_get_attempts].
  - apply issues_ret.
  - apply issues_bind.
    + apply issues_try_except; [apply issues_get; discriminate
                               |apply issues_window_stop].
    + intros _. destruct (PyStr.is_empty css); [apply issues_ret|].
      apply issues_bind.
      * apply issues_try_except.
        -- apply issues_bind; [apply issues_wait_css; exact Hcss|].
           intros _. apply issues_ret.
        -- apply issues_bind; [apply issues_window_stop|].
           intros _. destruct (attempt =? tries); apply issues_ret.
      * intros [b|]; [apply issues_ret|apply IH; exact Hcss].
Qed.

Lemma issues_click_first_popup :
  forall candidates,
    issues (W := W) not_traverser_wait (click_first_popup candidates).
Proof.
  induction candidates as [|el rest IH]; cbn [click_first_popup].
  - apply issues_ret.
  - destruct (Urllib.mem (Urllib.lower (_text_or_empty el)) popup_labels);
      [|exact IH].
    intros s.
    destruct (@issues_execute_script W _ not_traverser_wait
                "arguments[0].click();" [el] ltac:(discriminate) s)
      as [more [Hlog Hall]].
    destruct (execute_script "arguments[0].click();" [el] s) as [s1 [v|e|]];
      cbn [fst] in Hlog; try (exists more; split; assumption).
    destruct (IH s1) as [more' [Hlog' Hall']].
    exists (more ++ more'). rewrite Hlog', Hlog, app_assoc.
    split; [reflexivity|]. apply Forall_app. split; assumption.
Qed.

Lemma issues_maybe_close_popups :
  issues (W := W) not_traverser_wait maybe_close_popups.
Proof.
  unfold maybe_close_popups. apply issues_try_except; [|apply issues_ret].
  apply issues_bind; [apply issues_find_elements; discriminate|].
  intros candidates. apply issues_click_first_popup.
Qed.

Lemma issues_product_has_reviews :
  issues (W := W) not_traverser_wait product_has_reviews.
Proof.
  unfold product_has_reviews. apply issues_try_except.
  - apply issues_bind; [apply issues_wait_css; discriminate|].
    intros link. cbv zeta.
    destruct (PyStr.contains "No Ratings" (_text_or_empty link));
      apply issues_ret.
  - apply issues_try_except; [|apply issues_ret].
    apply issues_bind; [apply issues_find_element; discriminate|].
    intros small. apply issues_ret.
Qed.

Lemma issues_pagination_loop :
  forall fuel reviews,
    issues (W := W) (fun _ => True) (pagination_loop fuel reviews).
Proof.
  induction fuel as [|fuel IH]; intros reviews; cbn [pagination_loop].
  - intros s. exists []. cbn. rewrite app_nil_r. split; constructor.
  - apply issues_bind.
    + unfold find_next_button. apply issues_try_except; [|apply issues_ret].
      apply issues_bind; [apply issues_find_element; exact I|].
      intros btn. apply issues_ret.
    + intros [next_btn|]; [|apply issues_ret].
      apply issues_bind.
      * unfold turn_page. apply issues_try_except; [|apply issues_ret].
        apply issues_bind; [apply issues_execute_script; exact I|].
        intros _. apply issues_bind; [apply issues_click; exact I|].
        intros _. apply issues_bind.
        -- apply issues_try_except; [|apply issues_ret].
           apply issues_bind; [apply issues_wait_css; exact I|].
           intros r. apply issues_ret.
        -- intros [root|]; [|apply issues_ret].
           apply issues_bind; [apply issues_of_result|].
           intros page. apply issues_ret.
      * intros [|reviews']; [apply issues_ret|apply IH].
Qed.

(** Every call of the review traverser starts by waiting for the
    reviews root, which a recording world shows. *)
Lemma iterate_all_reviews_records_wait :
  forall fuel (s : R),
  exists more,
    snd (fst (iterate_all_reviews fuel s)) = snd s ++ traverser_wait :: more.
Proof.
  intros fuel s. unfold iterate_all_reviews, bind at 1, try_except.
  unfold bind at 1, wait_css, command, wait_until_present.
  cbn [recording_world].
  unfold recorded.
  destruct (wait_until_present Css.reviews_root 10 (fst s)) as [w1 [root|e]].
  - cbn [ret snd fst].
    assert (Hrest : issues (W := W) (fun _ => True)
                      (first_page <- of_result (extract_page_items root) ;;
                       pagination_loop fuel ([] ++ first_page))).
    { apply issues_bind; [apply issues_of_result|].
      intros page. apply issues_pagination_loop. }
    destruct (Hrest (w1, snd s ++ [CmdWait Css.reviews_root 10]))
      as [more [Hlog _]].
    exists more. rewrite Hlog. cbn [snd]. rewrite <- app_assoc. reflexivity.
  - exists []. destruct e; reflexivity.
Qed.

End GateInOrchestrator.

Section NoRatings.

Context {W : Type} `{World W}.

(** C2. When [product_has_reviews] answers [False] for a product,
    [process_card] ends there: it prints the skip line and returns,
    the files are as they were (the product contributes no row), and the
    world is left exactly as the gate left it. Run on a recording world,
    none of the commands issued for the product is the wait for the
    reviews root, which every call of [iterate_all_reviews] issues
    first: the traverser was not invoked. *)
Theorem no_ratings_no_traversal :
  forall fuel out_csv n_cards idx card
         (st : Machine (W := W * list Command)) w1 w2 w3 total,
    PyStr.is_empty (product_url card) = false ->
    safe_get (product_url card) (Some product_title_css) 3 15 (world st)
    = (w1, Returned true) ->
    maybe_close_popups w1 = (w2, Returned tt) ->
    product_has_reviews w2 = (w3, Returned (false, total)) ->
    exists st',
      process_card fuel out_csv n_cards idx card st = (st', Returned tt)
      /\ files st' = files st
      /\ world st' = w3
      /\ (exists line, stdout st' = stdout st ++ [line; no_ratings_line])
      /\ (exists issued,
             snd (world st') = snd (world st) ++ issued
             /\ ~ In traverser_wait issued)
      /\ (forall fuel' s,
             exists more,
               snd (fst (iterate_all_reviews fuel' s))
               = snd s ++ traverser_wait :: more).
Proof.
  intros fuel out_csv n_cards idx card st w1 w2 w3 total Hurl Hget Hpop Hgate.
  eexists. split; [|split; [|split; [|split; [|split]]]].
  - unfold process_card. rewrite Hurl.
    unfold bind at 1, print at 1. unfold bind at 1, on_world at 1.
    cbn [world stdout files]. unfold product_title_css in Hget.
    rewrite Hget. cbn [negb].
    unfold bind at 1, on_world at 1. cbn [world stdout files].
    rewrite Hpop.
    unfold bind at 1, on_world at 1. cbn [world stdout files].
    rewrite Hgate. cbn [negb]. unfold print. cbn [world stdout files].
    reflexivity.
  - reflexivity.
  - reflexivity.
  - cbn [stdout]. eexists. rewrite <- app_assoc. reflexivity.
  - cbn [world].
    destruct (@issues_safe_get_attempts
                W _ (product_url card) product_title_css 3 15
                (Z.to_nat (3 + 1 - 1)) 1 ltac:(discriminate) (world st))
      as [m1 [Hl1 Ha1]].
    pose proof Hget as Hget'. unfold safe_get in Hget'.
    rewrite Hget' in Hl1. cbn [fst] in Hl1.
    destruct (@issues_maybe_close_popups W _ w1) as [m2 [Hl2 Ha2]].
    rewrite Hpop in Hl2. cbn [fst] in Hl2.
    destruct (@issues_product_has_reviews W _ w2) as [m3 [Hl3 Ha3]].
    rewrite Hgate in Hl3. cbn [fst] in Hl3.
    exists (m1 ++ m2 ++ m3). split.
    + rewrite Hl3, Hl2, Hl1, <- !app_assoc. reflexivity.
    + intros Hin.
      assert (Hall : Forall not_traverser_wait (m1 ++ m2 ++ m3))
        by (repeat (apply Forall_app; split); assumption).
      rewrite Forall_forall in Hall. exact (Hall _ Hin eq_refl).
  - intros fuel' s. apply iterate_all_reviews_records_wait.
Qed.

End NoRatings.

Lemma no_ratings_no_traversal_witness :
  let st := mkMachine (no_ratings_site, @nil Command) [] no_files in
  exists st',
    process_card 5 "daraz_reviews.csv" 1 1 acme_card st = (st', Returned tt)
    /\ files st' = no_files
    /\ ~ In traverser_wait (snd (world st')).
Proof.
  intros st.
  destruct (@no_ratings_no_traversal
              Scripted.Site _ 5%nat "daraz_reviews.csv" 1 1 acme_card st
              (no_ratings_site,
                [CmdGet (product_url acme_card);
                 CmdWait product_title_css 15])
              (no_ratings_site,
                [CmdGet (product_url acme_card);
                 CmdWait product_title_css 15;
                 CmdFindElements "button, a"])
              (no_ratings_site,
                [CmdGet (product_url acme_card);
                 CmdWait product_title_css 15;
                 CmdFindElements "button, a";
                 CmdWait summary_link_css 10])
              None)
    as [st' (Hrun & Hfiles & Hworld & _ & [issued [Hlog Hnot]] & _)];
    [reflexivity|vm_compute; reflexivity|vm_compute; reflexivity
    |vm_compute; reflexivity|].
  exists st'. split; [exact Hrun|]. split; [exact Hfiles|].
  rewrite Hlog. exact Hnot.
Defined.

(** ** The sink *)

Lemma write_rows_written_as :
  forall header rows records written,
    written_as header rows records ->
    write_rows header rows written = (written ++ records, Ok tt).
Proof.
  intros header rows records written Hall. revert written.
  induction Hall as [|row record rows records Hrow Hall IH]; intros written;
    cbn [write_rows].
  - rewrite app_nil_r. reflexivity.
  - rewrite Hrow, IH, <- app_assoc. reflexivity.
Qed.

(** Opening in mode [w] leaves the header alone in the file. *)
Lemma write_header_only :
  forall path header fs,
    write_reviews_to_csv path [] header false fs
    = (write_file path [map CellStr header] fs, Returned tt).
Proof. reflexivity. Qed.

(** Opening in mode [a] adds the records of the rows after what the
    file holds, and no header. *)
Lemma append_rows :
  forall path header rows records fs content,
    fs path = Some content ->
    written_as header rows records ->
    write_reviews_to_csv path rows header true fs
    = (write_file path (content ++ records) fs, Returned tt).
Proof.
  intros path header rows records fs content Hfile Hall.
  unfold write_reviews_to_csv. rewrite Hfile. cbn [negb].
  rewrite (write_rows_written_as content Hall). reflexivity.
Qed.

Lemma write_file_same :
  forall path records fs, write_file path records fs path = Some records.
Proof. intros. unfold write_file. now rewrite String.eqb_refl. Qed.



Section SinkRun.

Context {W : Type} `{World W}.

Variable bracketed_host_ok : string -> bool.
Variable nfkc_rejects : string -> bool.

#[local] Abbreviation St := (Machine (W := W)).


Lemma keeps_weaken :
  forall I A (m : M St A) (Q Q' : A -> Prop),
    keeps I m Q -> (forall a, Q a -> Q' a) -> keeps I m Q'.
Proof.
  intros I A m Q Q' Hm Himp st HI. destruct (Hm st HI) as [HI' HQ].
  split; [exact HI'|]. intros a Ha. apply Himp, HQ, Ha.
Qed.













End SinkRun.


(** ** Product links *)

Section ProductLinks.

Variable bracketed_host_ok : string -> bool.
Variable nfkc_rejects : string -> bool.

#[local] Abbreviation join := (urljoin bracketed_host_ok nfkc_rejects).

Lemma is_empty_false : forall s, PyStr.is_empty s = false <-> s <> "".
Proof. intros [|c s]; cbn; split; congruence. Qed.

Lemma is_empty_true : forall s, PyStr.is_empty s = true <-> s = "".
Proof. intros [|c s]; cbn; split; congruence. Qed.




Lemma urlparse_base :
  Urllib.urlparse bracketed_host_ok nfkc_rejects BASE_URL ""
  = Ok (Urllib.mkParse "https" "www.daraz.com.bd" "/" "" "" "").
Proof. vm_compute. reflexivity. Qed.



End ProductLinks.

Section ListingCards.

Context {W : Type} `{World W}.

Variable bracketed_host_ok : string -> bool.
Variable nfkc_rejects : string -> bool.

#[local] Abbreviation card_of := (extract_card bracketed_host_ok nfkc_rejects).

(** What a successful [extract_card] did with the link. *)
Lemma extract_card_url :
  forall card summary,
    card_of card = Ok summary ->
    exists anchor,
      el_find_element card card_anchor_css = Ok anchor
      /\ urljoin bracketed_host_ok nfkc_rejects BASE_URL
                 (normalize_url (_get_attr anchor "href"))
         = Ok (product_url summary).
Proof.
  intros card summary. unfold extract_card, card_anchor_css.
  destruct (el_find_element card "div._95X4G a[href]") as [anchor|e];
    cbn [rbind]; [|discriminate].
  destruct (urljoin bracketed_host_ok nfkc_rejects BASE_URL
                    (normalize_url (_get_attr anchor "href")))
    as [url|e] eqn:Hjoin;
    cbn [rbind]; [|discriminate].
  destruct (el_find_element card card_image_css); cbn [rbind]; [|discriminate].
  destruct (el_find_element card "div.RfADt a"); cbn [rbind]; [|discriminate].
  destruct (el_find_element card "div.aBrP0 span.ooOxS"); cbn [rbind];
    [|discriminate].
  destruct (except_NoSuchElement _ None); cbn [rbind]; [|discriminate].
  destruct (except_NoSuchElement _ ""); cbn [rbind]; [|discriminate].
  intros [= <-]. exists anchor. split; [reflexivity|exact Hjoin].
Qed.

Lemma extract_cards_origin :
  forall cards acc out c,
    extract_cards bracketed_host_ok nfkc_rejects cards acc = Ok out ->
    In c out ->
    In c acc \/ exists card, In card cards /\ card_of card = Ok c.
Proof.
  induction cards as [|card cards IH]; intros acc out c Hrun Hin;
    cbn [extract_cards] in Hrun.
  - injection Hrun as <-. now left.
  - destruct (card_of card) as [s|e] eqn:Hcard.
    + destruct (IH _ _ _ Hrun Hin) as [Hacc|[card' [Hin' Hc]]].
      * apply in_app_or in Hacc. destruct Hacc as [Hacc|[<-|[]]].
        -- now left.
        -- right. exists card. split; [now left|assumption].
      * right. exists card'. split; [now right|assumption].
    + destruct e; try discriminate;
        (destruct (IH _ _ _ Hrun Hin) as [Hacc|[card' [Hin' Hc]]];
         [now left|right; exists card'; split; [now right|assumption]]).
Qed.


End ListingCards.


(** ** Joining absolute URLs *)

Section StringFacts.

Import Urllib.








Lemma substring_all : forall s, substring 0 (String.length s) s = s.
Proof. induction s as [|c s IH]; cbn; [reflexivity|now rewrite IH]. Qed.







Lemma string_app_assoc :
  forall a b c : string, ((a ++ b) ++ c = a ++ (b ++ c))%string.
Proof.
  intros a b c. induction a as [|x a IH]; cbn; [reflexivity|now rewrite IH].
Qed.





End StringFacts.

Section UrlRoundTrip.
Import Urllib.
Variable bracketed_host_ok : string -> bool.
Variable nfkc_rejects : string -> bool.


Lemma prefix_empty : forall s, String.prefix "" s = true.
Proof. intros [|c s]; reflexivity. Qed.












Lemma explicit_scheme_not_relative :
  forall u s, explicit_scheme u = Some s -> PyStr.startswith u "//" = false.
Proof.
  intros u s Hs. destruct (PyStr.startswith u "//") eqn:Hu; [|reflexivity].
  exfalso. unfold PyStr.startswith in Hu.
  destruct u as [|a [|b r]]; cbn [String.prefix] in Hu; try discriminate.
  - destruct (ascii_dec "/" a); discriminate.
  - destruct (ascii_dec "/" a) as [<-|]; [|discriminate].
    destruct (ascii_dec "/" b) as [<-|]; [|discriminate].
    unfold explicit_scheme in Hs.
    change (lstrip_c0 (String "/" (String "/" r)))
      with (String "/" (String "/" r)) in Hs.
    change (remove_unsafe (String "/" (String "/" r)))
      with (String "/" (String "/" (remove_unsafe r))) in Hs.
    unfold split_scheme in Hs.
    destruct (split_once ":" (String "/" (String "/" (remove_unsafe r))))
      as [[[|x xs] after]|]; discriminate Hs.
Qed.






End UrlRoundTrip.



(** * Further properties *)

(** ** Numbers in text *)

Section NumbersInText.

Import Urllib.







End NumbersInText.



(** ** Prices *)

Section Prices.

Import Urllib.

Lemma filter_filter :
  forall (p q : ascii -> bool) s,
    (forall c, p c = true -> q c = true) ->
    PyStr.filter p (PyStr.filter q s) = PyStr.filter p s.
Proof.
  intros p q s Hpq. unfold PyStr.filter.
  rewrite list_ascii_of_string_of_list_ascii.
  induction (list_ascii_of_string s) as [|c l IH]; cbn [List.filter];
    [reflexivity|].
  destruct (q c) eqn:Hq; cbn [List.filter].
  - destruct (p c); cbn [string_of_list_ascii]; now rewrite IH.
  - destruct (p c) eqn:Hp; [|exact IH].
    rewrite (Hpq _ Hp) in Hq. discriminate Hq.
Qed.

Lemma filter_empty_iff :
  forall p s,
    PyStr.is_empty (PyStr.filter p s) = negb (existsb_string p s).
Proof.
  intros p s. unfold PyStr.filter.
  induction s as [|c s IH];
    cbn [list_ascii_of_string List.filter existsb_string]; [reflexivity|].
  destruct (p c); [reflexivity|]. exact IH.
Qed.

(** X3. [_price_to_number] keeps the digits and dots of the text, in
    order, and is absent exactly when the text holds no digit or more
    than one dot. *)
Theorem price_absent_or_digits_and_dot :
  forall text,
    let cleaned :=
      PyStr.filter (fun c => PyStr.isdigit c || Ascii.eqb c "."%char) text in
    (_price_to_number text = None
     <-> has_digit text = false \/ (2 <= count_char "." text)%nat)
    /\ (forall f, _price_to_number text = Some f -> float_literal f = cleaned).
Proof.
  intros text cleaned.
  assert (Hdots : PyStr.filter (fun c => Ascii.eqb c "."%char) cleaned
                  = PyStr.filter (fun c => Ascii.eqb c "."%char) text).
  { subst cleaned. apply filter_filter. intros c ->. apply orb_true_r. }
  assert (Hdigits : PyStr.is_empty (PyStr.filter PyStr.isdigit cleaned)
                    = negb (has_digit text)).
  { subst cleaned. rewrite filter_filter by (intros c ->; reflexivity).
    apply filter_empty_iff. }
  unfold _price_to_number, py_float. fold cleaned.
  rewrite Hdots, Hdigits. fold (count_char "." text).
  assert (Hempty : PyStr.is_empty cleaned = true -> has_digit text = false).
  { intros He. apply is_empty_true in He. rewrite He in Hdigits.
    cbn in Hdigits. now destruct (has_digit text). }
  split.
  - destruct (PyStr.is_empty cleaned) eqn:He.
    + split; [intros _; left; exact (Hempty eq_refl)|reflexivity].
    + destruct (Nat.leb_spec (count_char "." text) 1) as [Hc|Hc];
        destruct (has_digit text); cbn [negb andb]; split; intros Hx;
        try reflexivity; try discriminate Hx;
        try (destruct Hx as [Hx|Hx]; [discriminate Hx|lia]);
        solve [left; reflexivity | right; lia].
  - intros f. destruct (PyStr.is_empty cleaned); [discriminate|].
    destruct ((count_char "." text <=? 1)%nat && negb (negb (has_digit text)));
      [|discriminate].
    intros [= <-]. reflexivity.
Qed.

End Prices.

(** ** Links and styles *)

(** X4. What [normalize_url] returns is never protocol-relative, and is
    empty only for an empty link. *)
Theorem normalize_url_never_protocol_relative :
  forall href,
    PyStr.startswith (normalize_url href) "//" = false
    /\ (normalize_url href = "" <-> href = "").
Proof.
  intros href. destruct href as [|c href]; [split; [reflexivity|tauto]|].
  assert (Hval : normalize_url (String c href)
                 = if PyStr.startswith (String c href) "//"
                   then ("https:" ++ String c href)%string
                   else String c href) by reflexivity.
  rewrite Hval.
  destruct (PyStr.startswith (String c href) "//") eqn:Hs.
  - split; [|split; discriminate].
    unfold PyStr.startswith. cbn [append String.prefix].
    destruct (ascii_dec "/" "h") as [Heq|_]; [discriminate Heq|reflexivity].
  - split; [exact Hs|tauto].
Qed.

Section StylePattern.

Import Urllib.

Lemma prefix_split :
  forall p s, String.prefix p s = true -> exists rest, s = (p ++ rest)%string.
Proof.
  induction p as [|a p IH]; intros s Hp.
  - exists s. reflexivity.
  - destruct s as [|b s]; cbn [String.prefix] in Hp; [discriminate|].
    destruct (ascii_dec a b) as [<-|]; [|discriminate].
    destruct (IH _ Hp) as [rest ->]. exists rest. reflexivity.
Qed.

Lemma substring_after_prefix :
  forall p rest,
    substring (String.length p) (String.length (p ++ rest) - String.length p)
              (p ++ rest)
    = rest.
Proof.
  induction p as [|a p IH]; intros rest.
  - cbn [String.length append substring]. rewrite Nat.sub_0_r.
    apply substring_all.
  - cbn [String.length append substring Nat.sub]. apply IH.
Qed.

(** What the lazy group matched: a non-empty run without line feed,
    followed at once by [close]. *)
Lemma lazy_until_sound :
  forall close s g,
    lazy_until close s = Some g ->
    g <> "" /\ single_line g = true
    /\ exists post, s = (g ++ close ++ post)%string.
Proof.
  intros close. unfold single_line.
  induction s as [|c s IH]; intros g Hg; cbn [lazy_until] in Hg;
    [discriminate|].
  destruct (Ascii.eqb c newline) eqn:Hc; [discriminate|].
  destruct (String.prefix close s) eqn:Hp.
  - injection Hg as <-. split; [discriminate|]. split.
    + cbn [forallb_string]. now rewrite Hc.
    + destruct (prefix_split _ _ Hp) as [post ->]. exists post. reflexivity.
  - destruct (lazy_until close s) as [g'|] eqn:Hrec; [|discriminate].
    injection Hg as <-.
    destruct (IH _ eq_refl) as (_ & Hline & post & ->).
    split; [discriminate|]. split.
    + cbn [forallb_string]. now rewrite Hc, Hline.
    + exists post. reflexivity.
Qed.

Lemma match_after_url_paren_sound :
  forall s g,
    match_after_url_paren s = Some g ->
    g <> "" /\ single_line g = true
    /\ exists q post,
        optional_quote q /\ s = (q ++ g ++ q ++ ")" ++ post)%string.
Proof.
  intros s g Hg.
  assert (Hplain : lazy_until ")" s = Some g ->
                   g <> "" /\ single_line g = true
                   /\ exists q post,
                       optional_quote q
                       /\ s = (q ++ g ++ q ++ ")" ++ post)%string).
  { intros Hl. destruct (lazy_until_sound _ _ Hl) as (Hne & Hline & post & ->).
    repeat split; try assumption. exists "", post. split; [now left|].
    reflexivity. }
  unfold match_after_url_paren in Hg. destruct s as [|c s]; [discriminate|].
  destruct (Ascii.eqb c double_quote || Ascii.eqb c "'"%char) eqn:Hq;
    [|exact (Hplain Hg)].
  destruct (lazy_until (String c ")") s) as [g'|] eqn:Hquoted;
    [|exact (Hplain Hg)].
  injection Hg as <-.
  destruct (lazy_until_sound _ _ Hquoted) as (Hne & Hline & post & ->).
  repeat split; try assumption. exists (String c ""), post. split.
  - apply orb_true_iff in Hq. destruct Hq as [Hq|Hq];
      apply Ascii.eqb_eq in Hq; subst c; [right; now left|right; now right].
  - cbn [append]. reflexivity.
Qed.

Lemma search_url_pattern_sound :
  forall style url,
    search_url_pattern style = Some url ->
    url <> "" /\ single_line url = true
    /\ exists before q after,
        optional_quote q
        /\ style = (before ++ "url(" ++ q ++ url ++ q ++ ")" ++ after)%string.
Proof.
  intros style url.
  induction style as [|c style IH]; intros Hs.
  - cbn in Hs. discriminate Hs.
  - cbn [search_url_pattern] in Hs.
    destruct (String.prefix "url(" (String c style)) eqn:Hp.
    + destruct (prefix_split _ _ Hp) as [rest Hrest]. rewrite Hrest in Hs.
      change 4%nat with (String.length "url(") in Hs.
      rewrite substring_after_prefix in Hs.
      destruct (match_after_url_paren rest) as [g|] eqn:Hm.
      * injection Hs as <-.
        destruct (match_after_url_paren_sound _ Hm)
          as (Hne & Hline & q & post & Hq & ->).
        repeat split; try assumption. exists "", q, post.
        split; [exact Hq|]. rewrite Hrest. reflexivity.
      * destruct (IH Hs) as (Hne & Hline & before & q & after & Hq & ->).
        repeat split; try assumption.
        exists (String c before), q, after. split; [exact Hq|reflexivity].
    + destruct (IH Hs) as (Hne & Hline & before & q & after & Hq & ->).
      repeat split; try assumption.
      exists (String c before), q, after. split; [exact Hq|reflexivity].
Qed.

(** X5. A URL that [_extract_background_image_url] returns is written
    in the style, right after [url(] and an optional quote and right
    before the same quote and the closing parenthesis; it is not empty
    and holds no line feed. From an empty style nothing is returned. *)
Theorem background_image_url_is_in_style :
  _extract_background_image_url "" = None
  /\ forall style url,
      _extract_background_image_url style = Some url ->
      url <> "" /\ single_line url = true
      /\ exists before q after,
          optional_quote q
          /\ style = (before ++ "url(" ++ q ++ url ++ q ++ ")" ++ after)%string.
Proof.
  split; [reflexivity|].
  intros style url. unfold _extract_background_image_url.
  destruct (PyStr.is_empty style); [discriminate|].
  apply search_url_pattern_sound.
Qed.

End StylePattern.

Lemma background_image_url_is_in_style_witness :
  let style := "background-image: url('https://a.b/c.jpg');" in
  _extract_background_image_url style = Some "https://a.b/c.jpg"
  /\ exists before q after,
      optional_quote q
      /\ style = (before ++ "url(" ++ q ++ "https://a.b/c.jpg" ++ q ++ ")"
                         ++ after)%string.
Proof.
  intros style.
  assert (Hrun : _extract_background_image_url style
                 = Some "https://a.b/c.jpg") by reflexivity.
  split; [exact Hrun|].
  exact (proj2 (proj2 (proj2 background_image_url_is_in_style style _ Hrun))).
Defined.

Section StylePatternForms.

Import Urllib.

Lemma prefix_app : forall p rest, String.prefix p (p ++ rest) = true.
Proof.
  induction p as [|a p IH]; intros rest; cbn [append String.prefix].
  - apply prefix_empty.
  - destruct (ascii_dec a a) as [_|Hne]; [apply IH|congruence].
Qed.

(** The lazy group stops at the first place where the closing text
    follows: with the first character of the closing text absent from
    [u], that is the end of [u]. *)
Lemma lazy_until_whole :
  forall k tail u rest,
    u <> "" ->
    single_line u = true ->
    has_char k u = false ->
    lazy_until (String k tail) (u ++ String k tail ++ rest) = Some u.
Proof.
  intros k tail. unfold single_line, has_char.
  induction u as [|c u IH]; intros rest Hne Hline Hk; [congruence|].
  cbn [forallb_string] in Hline. apply andb_true_iff in Hline.
  destruct Hline as [Hc Hline]. apply negb_true_iff in Hc.
  cbn [existsb_string] in Hk. apply orb_false_iff in Hk.
  destruct Hk as [_ Hk].
  change (String c u ++ String k tail ++ rest)%string
    with (String c (u ++ String k tail ++ rest)).
  cbn [lazy_until]. rewrite Hc.
  destruct u as [|x u].
  - cbn [append]. change (String k (tail ++ rest))
      with (String k tail ++ rest)%string. now rewrite prefix_app.
  - assert (Hx : String.prefix (String k tail)
                               (String x u ++ String k tail ++ rest)
                 = false).
    { cbn [append String.prefix]. cbn [existsb_string] in Hk.
      apply orb_false_iff in Hk. destruct Hk as [Hkx _].
      destruct (ascii_dec k x) as [->|]; [|reflexivity].
      rewrite Ascii.eqb_refl in Hkx. discriminate Hkx. }
    rewrite Hx, IH; [reflexivity|discriminate|exact Hline|exact Hk].
Qed.

Lemma search_skip_char :
  forall c s,
    String.prefix "url(" (String c s) = false ->
    search_url_pattern (String c s) = search_url_pattern s.
Proof. intros c s Hp. cbn [search_url_pattern]. now rewrite Hp. Qed.

Lemma search_at_url_paren :
  forall rest g,
    match_after_url_paren rest = Some g ->
    search_url_pattern ("url(" ++ rest) = Some g.
Proof.
  intros rest g Hg.
  change (search_url_pattern ("url(" ++ rest))
    with (match
             (if String.prefix "url(" ("url(" ++ rest)
              then match_after_url_paren
                     (substring (String.length "url(")
                                (String.length ("url(" ++ rest)
                                 - String.length "url(")
                                ("url(" ++ rest))
              else None)
           with
           | Some g' => Some g'
           | None => search_url_pattern ("rl(" ++ rest)
           end).
  rewrite prefix_app, substring_after_prefix, Hg. reflexivity.
Qed.

Lemma search_background_style :
  forall inside rest g,
    match_after_url_paren (inside ++ ")" ++ rest) = Some g ->
    _extract_background_image_url (background_style inside rest) = Some g.
Proof.
  intros inside rest g Hg. unfold _extract_background_image_url.
  change (PyStr.is_empty (background_style inside rest)) with false.
  cbv iota. unfold background_style.
  change ("background-image: url(" ++ inside ++ ")" ++ rest)%string
    with ("background-image: " ++ ("url(" ++ inside ++ ")" ++ rest))%string.
  cbn [append].
  repeat rewrite search_skip_char by reflexivity.
  exact (search_at_url_paren _ Hg).
Qed.

(** X6. From the style [background-image: url(...)] the URL between the
    parentheses is returned whole, written bare or between double or
    single quotes, provided it is not empty, holds no line feed, and
    holds no closing parenthesis (bare) or none of its quote (quoted). *)
Theorem background_image_url_of_style :
  forall u rest,
    u <> "" ->
    single_line u = true ->
    (starts_unquoted u = true ->
     has_char ")" u = false ->
     _extract_background_image_url (background_style u rest) = Some u)
    /\ (forall q,
           q = double_quote \/ q = "'"%char ->
           has_char q u = false ->
           _extract_background_image_url
             (background_style (String q u ++ String q "") rest)
           = Some u).
Proof.
  intros u rest Hne Hline. split.
  - intros Hstart Hparen. apply search_background_style.
    unfold match_after_url_paren.
    destruct u as [|c u]; [congruence|]. cbn [append].
    cbn [starts_unquoted] in Hstart. apply negb_true_iff in Hstart.
    rewrite Hstart.
    change (String c (u ++ String ")" rest))
      with (String c u ++ String ")" "" ++ rest)%string.
    apply lazy_until_whole; assumption.
  - intros q Hq Hnone. apply search_background_style.
    unfold match_after_url_paren. cbn [append].
    assert (Hquote : Ascii.eqb q double_quote || Ascii.eqb q "'"%char = true).
    { destruct Hq as [-> | ->]; reflexivity. }
    rewrite Hquote.
    rewrite string_app_assoc. cbn [append].
    change (String q (String ")" rest))
      with (String q ")" ++ rest)%string.
    rewrite lazy_until_whole by assumption. reflexivity.
Qed.

End StylePatternForms.

Lemma background_image_url_of_style_witness :
  _extract_background_image_url
    "background-image: url(https://img.example/r1.jpg); width: 60px"
  = Some "https://img.example/r1.jpg".
Proof.
  refine (proj1 (@background_image_url_of_style
                   "https://img.example/r1.jpg" "; width: 60px" _ eq_refl)
                eq_refl eq_refl).
  discriminate.
Defined.

(** ** Items of a review page *)

Section ReviewItems.

(** X7. In the loop over the items of a review page, an item that meets
    a stale reference is dropped and the page reads as if it were not
    there; an item that fails with any other exception, after items that
    read or were stale, makes the whole page fail with that exception. *)
Theorem stale_item_dropped_other_failure_raised :
  forall before it after acc,
    (extract_item it = Raise StaleElementReferenceException ->
     extract_items (before ++ it :: after) acc
     = extract_items (before ++ after) acc)
    /\ (forall e,
           extract_item it = Raise e ->
           e <> StaleElementReferenceException ->
           Forall reads_or_stale before ->
           extract_items (before ++ it :: after) acc = Raise e).
Proof.
  intros before it after. induction before as [|b before IH]; intros acc.
  - split.
    + intros Hstale. cbn [app extract_items]. rewrite Hstale. reflexivity.
    + intros e He Hne _. cbn [app extract_items]. rewrite He.
      destruct e; try reflexivity. congruence.
  - split.
    + intros Hstale. cbn [app extract_items].
      destruct (extract_item b) as [r|e].
      * apply (proj1 (IH _) Hstale).
      * destruct e; try reflexivity. apply (proj1 (IH _) Hstale).
    + intros e He Hne Hbefore. cbn [app extract_items].
      inversion Hbefore as [|b' before' Hb Hrest]; subst.
      destruct Hb as [[r Hr]|Hs].
      * rewrite Hr. apply (proj2 (IH _) e He Hne Hrest).
      * rewrite Hs. apply (proj2 (IH _) e He Hne Hrest).
Qed.

End ReviewItems.

Lemma stale_item_dropped_other_failure_raised_witness :
  extract_items [Dom.review_item 5 "Rahim" "Good product"; stale_item;
                 Dom.review_item 2 "Mitu" "Too small"] []
  = extract_items [Dom.review_item 5 "Rahim" "Good product";
                   Dom.review_item 2 "Mitu" "Too small"] []
  /\ extract_items [Dom.review_item 5 "Rahim" "Good product"; stale_item;
                    failing_item WebDriverException;
                    Dom.review_item 2 "Mitu" "Too small"] []
     = Raise WebDriverException.
Proof.
  split.
  - apply (proj1 (@stale_item_dropped_other_failure_raised
                    [Dom.review_item 5 "Rahim" "Good product"] stale_item
                    [Dom.review_item 2 "Mitu" "Too small"] [])).
    vm_compute. reflexivity.
  - apply (proj2 (@stale_item_dropped_other_failure_raised
                    [Dom.review_item 5 "Rahim" "Good product"; stale_item]
                    (failing_item WebDriverException)
                    [Dom.review_item 2 "Mitu" "Too small"] [])
                 WebDriverException).
    + vm_compute. reflexivity.
    + discriminate.
    + apply Forall_cons; [|apply Forall_cons; [|apply Forall_nil]].
      * left. eexists. vm_compute. reflexivity.
      * right. vm_compute. reflexivity.
Defined.

(** ** Pictures of a review *)

Section ReviewPictures.

Lemma extract_background_image_url_sound :
  forall style url,
    _extract_background_image_url style = Some url -> url_of_style style url.
Proof.
  intros style url. unfold _extract_background_image_url.
  destruct (PyStr.is_empty style); [discriminate|].
  apply search_url_pattern_sound.
Qed.

Lemma collect_review_images_from :
  forall (all imgs : list Element) (acc : list string),
    let step := fun review_imgs img_div =>
                  match _extract_background_image_url
                          (_get_attr img_div "style") with
                  | Some url => if PyStr.is_empty url then review_imgs
                                else (review_imgs ++ [url])%list
                  | None => review_imgs
                  end in
    let from_a_node := fun u =>
                         exists img, In img all
                                     /\ url_of_style (_get_attr img "style") u in
    (forall img, In img imgs -> In img all) ->
    Forall from_a_node acc ->
    Forall from_a_node (fold_left step imgs acc)
    /\ (List.length (fold_left step imgs acc)
        <= List.length acc + List.length imgs)%nat.
Proof.
  intros all imgs. induction imgs as [|img imgs IH];
    intros acc step from_a_node Hsub Hacc; cbn [fold_left List.length].
  - split; [assumption|lia].
  - assert (Hsub' : forall i, In i imgs -> In i all)
      by (intros i Hi; apply Hsub; now right).
    subst step. cbv beta.
    destruct (_extract_background_image_url (_get_attr img "style"))
      as [url|] eqn:Hurl.
    + destruct (PyStr.is_empty url).
      * destruct (IH acc Hsub' Hacc) as [Hall Hlen]. split; [exact Hall|lia].
      * destruct (IH (acc ++ [url]) Hsub') as [Hall Hlen].
        { apply Forall_app. split; [assumption|]. constructor; [|constructor].
          exists img. split; [apply Hsub; now left|].
          apply extract_background_image_url_sound. exact Hurl. }
        split; [exact Hall|]. rewrite length_app in Hlen. cbn in Hlen. lia.
    + destruct (IH acc Hsub' Hacc) as [Hall Hlen]. split; [exact Hall|lia].
Qed.

(** X8. The picture URLs of a review record are read from the picture
    nodes of its item: each stands in the [style] of one of them as the
    target of a [url(...)], is not empty and holds no line feed, and
    there are at most as many URLs as picture nodes. When the lookup of
    the picture nodes meets a missing element, the record has no URL. *)
Theorem review_images_come_from_picture_nodes :
  forall it r,
    extract_item it = Ok r ->
    (forall imgs,
        el_find_elements it Css.review_image = Ok imgs ->
        Forall (fun u => exists img,
                    In img imgs /\ url_of_style (_get_attr img "style") u)
               (review_images r)
        /\ (List.length (review_images r) <= List.length imgs)%nat)
    /\ (el_find_elements it Css.review_image = Raise NoSuchElementException ->
        review_images r = []).
Proof.
  intros it r Hr.
  destruct (extract_item_inv _ Hr) as (_ & _ & _ & _ & Himgs & _).
  unfold item_review_images in Himgs. split.
  - intros imgs Hfound. rewrite Hfound in Himgs.
    cbn [rbind except_NoSuchElement] in Himgs. injection Himgs as Himgs.
    rewrite <- Himgs. unfold collect_review_images.
    pose proof (@collect_review_images_from imgs imgs []) as Hinv.
    cbv zeta in Hinv. apply Hinv; [trivial|constructor].
  - intros Hmiss. rewrite Hmiss in Himgs.
    cbn [rbind except_NoSuchElement] in Himgs. congruence.
Qed.

End ReviewPictures.

Lemma review_images_come_from_picture_nodes_witness :
  let it := Dom.review_item 5 "Rahim" "Good product" in
  let r := review_of 5 "Rahim" "Good product" in
  extract_item it = Ok r
  /\ Forall (fun u => exists img,
                 In img [Dom.styled
                           "background-image: url(https://img.example/r1.jpg);"]
                 /\ url_of_style (_get_attr img "style") u)
            (review_images r).
Proof.
  intros it r.
  assert (Hr : extract_item it = Ok r) by (vm_compute; reflexivity).
  split; [exact Hr|].
  apply (proj1 (@review_images_come_from_picture_nodes it r Hr)).
  vm_compute. reflexivity.
Defined.

(** ** The review traverser as a whole *)

Section Traverser.

Context {W : Type} `{World W}.

Ltac run_traverser :=
  unfold iterate_all_reviews, try_except, bind, wait_css, command, of_result,
    ret.

(** X9. When the reviews root is there and the first page reads, a run
    of the traverser that reads further pages and then stops (no next
    control, or a failure in mid-pagination) returns the first page
    followed by every later page, in the order read, given more rounds
    than later pages. *)
Theorem traverser_returns_pages_in_order :
  forall w w1 reviews_root first_page pages w' fuel,
    wait_until_present Css.reviews_root 10 w = (w1, Ok reviews_root) ->
    extract_page_items reviews_root = Ok first_page ->
    run_ends w1 pages w' ->
    (List.length pages < fuel)%nat ->
    iterate_all_reviews fuel w
    = (w', Returned (first_page ++ List.concat pages)).
Proof.
  intros w w1 root first pages w' fuel Hwait Hfirst Hrun Hfuel.
  run_traverser. rewrite Hwait, Hfirst. cbn [app].
  revert fuel Hfuel. generalize first. clear Hwait Hfirst first.
  induction Hrun as [w1 w2 Habs|w1 w2 w3 b Hnext Hfail
                     |w1 w2 w3 w4 b page pages Hnext Hread Hrun IH];
    intros reviews fuel Hfuel;
    (destruct fuel as [|fuel]; [cbn in Hfuel; lia|]);
    cbn [pagination_loop]; unfold bind at 1.
  - rewrite (find_next_button_absent Habs). cbn [List.concat].
    rewrite app_nil_r. reflexivity.
  - rewrite (find_next_button_present Hnext). unfold bind.
    rewrite (turn_page_fails reviews Hfail). cbn [List.concat].
    rewrite app_nil_r. reflexivity.
  - rewrite (find_next_button_present Hnext). unfold bind at 1.
    rewrite (turn_page_reads reviews Hread).
    rewrite IH by (cbn in Hfuel; lia).
    cbn [List.concat]. rewrite app_assoc. reflexivity.
Qed.

(** X10. How the traverser starts. When the wait for the reviews root
    times out it returns no review; any other exception of that wait
    leaves the traverser; and so does any exception met while the first
    page is read, a stale reference included: only later pages are read
    under the handler that turns such a failure into a stop. *)
Theorem traverser_start :
  forall fuel w w1,
    (wait_until_present Css.reviews_root 10 w = (w1, Raise TimeoutException) ->
     iterate_all_reviews fuel w = (w1, Returned []))
    /\ (forall e,
           wait_until_present Css.reviews_root 10 w = (w1, Raise e) ->
           e <> TimeoutException ->
           iterate_all_reviews fuel w = (w1, Raised e))
    /\ (forall reviews_root e,
           wait_until_present Css.reviews_root 10 w = (w1, Ok reviews_root) ->
           extract_page_items reviews_root = Raise e ->
           iterate_all_reviews fuel w = (w1, Raised e)).
Proof.
  intros fuel w w1. repeat split.
  - intros Hwait. run_traverser. rewrite Hwait. reflexivity.
  - intros e Hwait Hne. run_traverser. rewrite Hwait.
    destruct e; try reflexivity. congruence.
  - intros root e Hwait Hpage. run_traverser. rewrite Hwait, Hpage.
    reflexivity.
Qed.

End Traverser.

Lemma traverser_returns_pages_in_order_witness :
  iterate_all_reviews 2 two_page_site
  = (tl two_page_site,
     Returned [review_of 5 "Rahim" "Good product";
               review_of 2 "Mitu" "Too small"]).
Proof.
  apply (@traverser_returns_pages_in_order
           Scripted.Site _ two_page_site two_page_site
           (Dom.reviews_root [Dom.review_item 5 "Rahim" "Good product"])
           [review_of 5 "Rahim" "Good product"]
           [[review_of 2 "Mitu" "Too small"]] (tl two_page_site) 2%nat).
  - reflexivity.
  - vm_compute. reflexivity.
  - eapply one_more_page with (next_btn := Dom.text_node "Next").
    + exists []. reflexivity.
    + exists two_page_site, (tl two_page_site), JsNone,
        (Dom.reviews_root [Dom.review_item 2 "Mitu" "Too small"]).
      repeat split; reflexivity.
    + eapply ends_failure with (next_btn := Dom.text_node "Next").
      * exists []. reflexivity.
      * eapply click_refused with (e := ElementClickInterceptedException);
          reflexivity.
  - cbn. lia.
Defined.

Lemma traverser_start_witness :
  iterate_all_reviews 3 (failing_wait_site TimeoutException)
  = (failing_wait_site TimeoutException, Returned [])
  /\ iterate_all_reviews 3 (failing_wait_site WebDriverException)
     = (failing_wait_site WebDriverException, Raised WebDriverException)
  /\ iterate_all_reviews 3 stale_root_site
     = (stale_root_site, Raised StaleElementReferenceException).
Proof.
  split; [|split].
  - apply (proj1 (@traverser_start Scripted.Site _ 3%nat
                    (failing_wait_site TimeoutException)
                    (failing_wait_site TimeoutException))).
    reflexivity.
  - apply (proj1 (proj2 (@traverser_start Scripted.Site _ 3%nat
                           (failing_wait_site WebDriverException)
                           (failing_wait_site WebDriverException)))).
    + reflexivity.
    + discriminate.
  - apply (proj2 (proj2 (@traverser_start Scripted.Site _ 3%nat
                           stale_root_site stale_root_site))
             stale_item).
    + reflexivity.
    + vm_compute. reflexivity.
Defined.

(** ** Page loads *)

Section PageLoads.

Context {W : Type} `{World W}.

(** X11. No timeout leaves [safe_get]: the page-load timeout and the
    timeout of the wait for the probe are both handled, so the call
    returns a boolean or raises an exception that is not a timeout. *)
Theorem safe_get_never_raises_timeout :
  forall url ready_css tries wait_timeout w,
    ends_without_timeout (snd (safe_get url ready_css tries wait_timeout w)).
Proof.
  intros url ready_css tries wait_timeout w. unfold safe_get.
  generalize (Z.to_nat (tries + 1 - 1)) as remaining.
  generalize 1 as attempt. intros attempt remaining. revert attempt w.
  induction remaining as [|remaining IH]; intros attempt w;
    cbn [safe_get_attempts]; [exact I|].
  match goal with
  | |- context [bind ?m ?k] => set (load := m); set (rest := k)
  end.
  assert (Hrest : forall u w1, ends_without_timeout (snd (rest u w1))).
  { intros u w1. subst rest. cbv beta.
    destruct ready_css as [css|]; [|exact I].
    destruct (PyStr.is_empty css); [exact I|].
    unfold bind, try_except, wait_css, window_stop, suppress_Exception,
      execute_script, command, ret.
    destruct (wait_until_present css wait_timeout w1) as [w2 [el|e]];
      [exact I|].
    destruct e; cbn [is_Timeout Exn_eqb snd]; try discriminate.
    destruct (driver_execute_script "window.stop();" [] w2) as [w3 [v|e]];
      (destruct (attempt =? tries); [exact I|apply IH]). }
  unfold bind. subst load.
  unfold try_except, window_stop, suppress_Exception, execute_script, command.
  destruct (driver_get url w) as [w1 [[]|e]]; [apply Hrest|].
  destruct e; cbn [is_Timeout Exn_eqb snd]; try discriminate.
  destruct (driver_execute_script "window.stop();" [] w1) as [w2 [v|e]];
    apply Hrest.
Qed.

#[local] Abbreviation R := (W * list Command)%type.

Lemma run_recorded :
  forall A (c : Command) (f : W -> W * result A) (w : W) record,
    command (recorded c f) (w, record)
    = ((fst (f w), record ++ [c]),
       match snd (f w) with
       | Ok a => Returned a
       | Raise e => Raised e
       end).
Proof.
  intros A c f w record. unfold command, recorded. cbn [fst snd].
  destruct (f w) as [w' [a|e]]; reflexivity.
Qed.

Lemma get_recorded :
  forall url (w : W) record,
    command (driver_get url) ((w, record) : R)
    = ((fst (driver_get url w), record ++ [CmdGet url]),
       match snd (driver_get url w) with
       | Ok a => Returned a
       | Raise e => Raised e
       end).
Proof. intros url w record. apply (@run_recorded unit). Qed.

Lemma wait_recorded :
  forall css timeout (w : W) record,
    wait_css css timeout ((w, record) : R)
    = ((fst (wait_until_present css timeout w),
        record ++ [CmdWait css timeout]),
       match snd (wait_until_present css timeout w) with
       | Ok a => Returned a
       | Raise e => Raised e
       end).
Proof. intros css timeout w record. apply run_recorded. Qed.

Lemma script_recorded :
  forall script args (w : W) record,
    execute_script script args ((w, record) : R)
    = ((fst (driver_execute_script script args w),
        record ++ [CmdExecuteScript script]),
       match snd (driver_execute_script script args w) with
       | Ok a => Returned a
       | Raise e => Raised e
       end).
Proof. intros script args w record. apply run_recorded. Qed.

Lemma find_recorded :
  forall css (w : W) record,
    find_elements css ((w, record) : R)
    = ((fst (driver_find_elements css w), record ++ [CmdFindElements css]),
       match snd (driver_find_elements css w) with
       | Ok a => Returned a
       | Raise e => Raised e
       end).
Proof. intros css w record. apply run_recorded. Qed.

Lemma window_stop_recorded :
  forall (w : W) record,
    window_stop ((w, record) : R)
    = ((fst (driver_execute_script "window.stop();" [] w),
        record ++ [CmdExecuteScript "window.stop();"]),
       Returned tt).
Proof.
  intros w record. unfold window_stop, suppress_Exception.
  rewrite script_recorded.
  destruct (snd (driver_execute_script "window.stop();" [] w)); reflexivity.
Qed.

Lemma loads_app :
  forall a b, loads (a ++ b) = (loads a + loads b)%nat.
Proof.
  intros a b. unfold loads. rewrite filter_app, length_app. reflexivity.
Qed.

Lemma safe_get_attempts_loads :
  forall url ready_css tries wait_timeout remaining attempt (w : W) record
         (s' : R) o,
    ((0 < remaining)%nat -> attempt + Z.of_nat remaining = tries + 1) ->
    safe_get_attempts url ready_css tries wait_timeout attempt remaining
                      (w, record) = (s', o) ->
    exists issued,
      snd s' = record ++ issued
      /\ (loads issued <= remaining)%nat
      /\ (o = Returned false -> loads issued = remaining).
Proof.
  intros url ready_css tries wait_timeout remaining.
  induction remaining as [|remaining IH];
    intros attempt w record s' o Hattempt Hrun;
    cbn [safe_get_attempts] in Hrun.
  - injection Hrun as <- <-. exists []. cbn. rewrite app_nil_r.
    repeat split; lia.
  - match type of Hrun with
    | context [bind ?m ?k] => set (load := m) in Hrun; set (rest := k) in Hrun
    end.
    assert (Hrest :
             forall u (w1 : W) record1 (s1 : R) o1,
               rest u (w1, record1) = (s1, o1) ->
               exists issued,
                 snd s1 = record1 ++ issued
                 /\ (loads issued <= remaining)%nat
                 /\ (o1 = Returned false -> loads issued = remaining)).
    { intros u w1 record1 s1 o1 Hr. subst rest. cbv beta in Hr.
      assert (Htrue : ret (S := R) true (w1, record1) = (s1, o1) ->
                      exists issued,
                        snd s1 = record1 ++ issued
                        /\ (loads issued <= remaining)%nat
                        /\ (o1 = Returned false -> loads issued = remaining)).
      { intros Ht. injection Ht as <- <-. exists []. cbn.
        rewrite app_nil_r. repeat split; [lia|discriminate]. }
      destruct ready_css as [css|]; [|exact (Htrue Hr)].
      destruct (PyStr.is_empty css); [exact (Htrue Hr)|].
      unfold bind at 1, try_except at 1 in Hr. unfold bind at 1 in Hr.
      rewrite wait_recorded in Hr.
      destruct (wait_until_present css wait_timeout w1) as [w2 [el|e]];
        cbn [fst snd ret] in Hr.
      - injection Hr as <- <-. exists [CmdWait css wait_timeout]. cbn.
        repeat split; [lia|discriminate].
      - destruct (is_Timeout e).
        + unfold bind at 1 in Hr. rewrite window_stop_recorded in Hr.
          destruct (attempt =? tries) eqn:Hlast; cbn [ret] in Hr.
          * injection Hr as <- <-.
            exists [CmdWait css wait_timeout;
                    CmdExecuteScript "window.stop();"].
            cbn [snd]. rewrite <- app_assoc. apply Z.eqb_eq in Hlast.
            cbn. repeat split; lia.
          * apply Z.eqb_neq in Hlast.
            assert (Hnext : (0 < remaining)%nat ->
                            attempt + 1 + Z.of_nat remaining = tries + 1)
              by lia.
            destruct (IH _ _ _ _ _ Hnext Hr)
              as (issued & Hlog & Hle & Hfalse).
            exists ([CmdWait css wait_timeout;
                     CmdExecuteScript "window.stop();"] ++ issued).
            rewrite Hlog, <- !app_assoc. rewrite loads_app.
            repeat split; [exact Hle|exact Hfalse].
        + injection Hr as <- <-. exists [CmdWait css wait_timeout]. cbn.
          repeat split; [lia|discriminate]. }
    unfold bind at 1 in Hrun. subst load. unfold try_except in Hrun.
    rewrite get_recorded in Hrun.
    destruct (driver_get url w) as [w1 [[]|e]]; cbn [fst snd] in Hrun.
    + destruct (Hrest _ _ _ _ _ Hrun) as (issued & Hlog & Hle & Hfalse).
      exists ([CmdGet url] ++ issued).
      rewrite Hlog, <- app_assoc, loads_app.
      change (loads [CmdGet url]) with 1%nat.
      repeat split; [lia|]. intros Hf. specialize (Hfalse Hf). lia.
    + destruct (is_Timeout e).
      * rewrite window_stop_recorded in Hrun.
        destruct (Hrest _ _ _ _ _ Hrun) as (issued & Hlog & Hle & Hfalse).
        exists ([CmdGet url; CmdExecuteScript "window.stop();"] ++ issued).
        rewrite Hlog, <- !app_assoc, loads_app.
        change (loads [CmdGet url; CmdExecuteScript "window.stop();"])
          with 1%nat.
        repeat split; [lia|]. intros Hf. specialize (Hfalse Hf). lia.
      * injection Hrun as <- <-. exists [CmdGet url]. cbn.
        repeat split; [lia|discriminate].
Qed.

(** X12. [safe_get] loads the page at most [tries] times, and it returns
    [False] only after having loaded it exactly [tries] times (no time at
    all when [tries] is not positive): as the record of the commands it
    issues shows. *)
Theorem safe_get_loads_at_most_tries :
  forall url ready_css tries wait_timeout (w : W) record,
  exists issued,
    snd (fst (safe_get url ready_css tries wait_timeout (w, record)))
    = record ++ issued
    /\ (loads issued <= Z.to_nat tries)%nat
    /\ (snd (safe_get url ready_css tries wait_timeout (w, record))
        = Returned false ->
        loads issued = Z.to_nat tries).
Proof.
  intros url ready_css tries wait_timeout w record. unfold safe_get.
  replace (Z.to_nat (tries + 1 - 1)) with (Z.to_nat tries) by lia.
  destruct (safe_get_attempts url ready_css tries wait_timeout 1
                              (Z.to_nat tries) (w, record))
    as [s' o] eqn:Hrun.
  cbn [fst snd].
  apply (@safe_get_attempts_loads url ready_css tries wait_timeout
           (Z.to_nat tries) 1 w record s' o); [|exact Hrun].
  lia.
Qed.

End PageLoads.

(** ** Pop-ups and scrolling *)

Section Popups.

Context {W : Type} `{World W}.

#[local] Abbreviation R := (W * list Command)%type.

Lemma click_first_popup_returns :
  forall candidates (w : W),
  exists w', click_first_popup candidates w = (w', Returned tt).
Proof.
  induction candidates as [|el rest IH]; intros w; cbn [click_first_popup].
  - exists w. reflexivity.
  - destruct (Urllib.mem (Urllib.lower (_text_or_empty el)) popup_labels);
      [|apply IH].
    unfold execute_script, command.
    destruct (driver_execute_script "arguments[0].click();" [el] w)
      as [w1 [v|e]]; [exists w1; reflexivity|apply IH].
Qed.

(** X13. [maybe_close_popups] is non-fatal: whatever the lookup of the
    candidates and the clicks do, it returns, and raises nothing. *)
Theorem maybe_close_popups_never_raises :
  forall w : W, exists w', maybe_close_popups w = (w', Returned tt).
Proof.
  intros w. unfold maybe_close_popups, try_except, bind, find_elements,
              command.
  destruct (driver_find_elements "button, a" w) as [w1 [candidates|e]].
  - destruct (click_first_popup_returns (firstn 50 candidates) w1)
      as [w2 Hclick].
    exists w2. rewrite Hclick. reflexivity.
  - exists w1. reflexivity.
Qed.

Lemma click_first_popup_clicks :
  forall candidates (w : W) record (s' : R) o,
    click_first_popup candidates (w, record) = (s', o) ->
    exists k,
      snd s' = record ++ repeat (CmdExecuteScript click_script) k
      /\ (k <= List.length (List.filter has_popup_label candidates))%nat.
Proof.
  induction candidates as [|el rest IH]; intros w record s' o Hrun;
    cbn [click_first_popup] in Hrun.
  - injection Hrun as <- <-. exists 0%nat. cbn. rewrite app_nil_r.
    split; [reflexivity|lia].
  - cbn [List.filter]. unfold has_popup_label at 1.
    destruct (Urllib.mem (Urllib.lower (_text_or_empty el)) popup_labels).
    + rewrite script_recorded in Hrun.
      destruct (driver_execute_script "arguments[0].click();" [el] w)
        as [w1 [v|e]]; cbn [fst snd] in Hrun.
      * injection Hrun as <- <-. exists 1%nat. cbn. split; [reflexivity|lia].
      * destruct (IH _ _ _ _ Hrun) as (k & Hlog & Hk).
        exists (S k). rewrite Hlog, <- app_assoc. cbn. split; [reflexivity|lia].
    + destruct (IH _ _ _ _ Hrun) as (k & Hlog & Hk).
      exists k. split; [exact Hlog|exact Hk].
Qed.

(** X14. What [maybe_close_popups] does to the page: one lookup of the
    buttons and links, then clicks only, at most one for each of the
    first fifty candidates that carries a consent label, so never more
    than fifty; without such a candidate it clicks nothing. *)
Theorem maybe_close_popups_clicks_consent_buttons_only :
  forall (w : W) record,
  exists k,
    snd (fst (maybe_close_popups (w, record)))
    = record ++ CmdFindElements "button, a"
               :: repeat (CmdExecuteScript click_script) k
    /\ (k <= 50)%nat
    /\ (forall candidates,
           snd (driver_find_elements "button, a" w) = Ok candidates ->
           (k <= List.length
                   (List.filter has_popup_label (firstn 50 candidates)))%nat).
Proof.
  intros w record. unfold maybe_close_popups, try_except, bind.
  rewrite find_recorded.
  destruct (driver_find_elements "button, a" w) as [w1 [candidates|e]];
    cbn [fst snd].
  - destruct (click_first_popup (firstn 50 candidates)
                (w1, record ++ [CmdFindElements "button, a"]))
      as [s' o] eqn:Hrun.
    destruct (click_first_popup_clicks _ _ _ Hrun) as (k & Hlog & Hk).
    exists k.
    assert (Hfifty : (List.length
                        (List.filter has_popup_label (firstn 50 candidates))
                      <= 50)%nat).
    { etransitivity; [apply filter_length_le|apply firstn_le_length]. }
    split; [|split].
    + destruct o; cbn [any_Exception ret fst]; rewrite Hlog, <- app_assoc;
        reflexivity.
    + lia.
    + intros found [= <-]. exact Hk.
  - exists 0%nat. cbn. split; [reflexivity|]. split; [lia|]. discriminate.
Qed.

Lemma JsValue_eqb_refl : forall v, JsValue_eqb v v = true.
Proof. intros [|n]; cbn; [reflexivity|apply Z.eqb_refl]. Qed.

Lemma scroll_steps_scripts :
  forall steps last_height (w : W) record (s' : R) o,
    scroll_steps steps last_height (w, record) = (s', o) ->
    exists issued,
      snd s' = record ++ issued
      /\ Forall is_script issued
      /\ (List.length issued <= 2 * steps)%nat.
Proof.
  induction steps as [|steps IH]; intros last_height w record s' o Hrun;
    cbn [scroll_steps] in Hrun.
  - injection Hrun as <- <-. exists []. cbn. rewrite app_nil_r.
    split; [reflexivity|]. split; [constructor|lia].
  - unfold bind at 1 in Hrun. rewrite script_recorded in Hrun.
    assert (Hs : forall script, is_script (CmdExecuteScript script))
      by (intros script; exists script; reflexivity).
    destruct (driver_execute_script
                "window.scrollTo(0, document.body.scrollHeight);" [] w)
      as [w1 [v|e]]; cbn [fst snd] in Hrun.
    + unfold bind at 1, scroll_height in Hrun. rewrite script_recorded in Hrun.
      destruct (driver_execute_script "return document.body.scrollHeight"
                                      [] w1)
        as [w2 [h|e]]; cbn [fst snd] in Hrun.
      * destruct (JsValue_eqb h last_height).
        -- injection Hrun as <- <-. eexists [_; _]. cbn [snd].
           rewrite <- app_assoc. split; [reflexivity|].
           split; [repeat constructor; apply Hs|cbn; lia].
        -- destruct (IH _ _ _ _ _ Hrun) as (issued & Hlog & Hall & Hlen).
           eexists (_ :: _ :: issued). rewrite Hlog, <- !app_assoc.
           split; [reflexivity|].
           split; [repeat constructor; try apply Hs; exact Hall|cbn; lia].
      * injection Hrun as <- <-. eexists [_; _]. cbn [snd].
        rewrite <- app_assoc. split; [reflexivity|].
        split; [repeat constructor; apply Hs|cbn; lia].
    + injection Hrun as <- <-. eexists [_]. cbn [snd].
      split; [reflexivity|].
      split; [repeat constructor; apply Hs|cbn; lia].
Qed.

(** X15. [scroll_to_bottom] runs scripts only, at least one (the first
    reading of the page height) and at most one plus two for each of the
    [max_steps] steps; and it stops after the first step when the height
    read after it equals the height read before. *)
Theorem scroll_to_bottom_is_bounded :
  forall max_steps (w : W),
    (forall record,
      exists issued,
        snd (fst (scroll_to_bottom max_steps (w, record))) = record ++ issued
        /\ Forall is_script issued
        /\ (1 <= List.length issued <= 1 + 2 * Z.to_nat max_steps)%nat)
    /\ (forall w1 w2 w3 height v,
           1 <= max_steps ->
           driver_execute_script height_script [] w = (w1, Ok height) ->
           driver_execute_script scroll_script [] w1 = (w2, Ok v) ->
           driver_execute_script height_script [] w2 = (w3, Ok height) ->
           scroll_to_bottom max_steps w = (w3, Returned tt)).
Proof.
  intros max_steps w. split.
  - intros record. unfold scroll_to_bottom, bind, scroll_height.
    rewrite script_recorded.
    assert (Hs : is_script (CmdExecuteScript
                              "return document.body.scrollHeight"))
      by (eexists; reflexivity).
    destruct (driver_execute_script "return document.body.scrollHeight" [] w)
      as [w1 [h|e]]; cbn [fst snd].
    + destruct (scroll_steps (Z.to_nat max_steps) h
                             (w1, record ++ [CmdExecuteScript
                                               "return document.body.scrollHeight"]))
        as [s' o] eqn:Hrun.
      destruct (scroll_steps_scripts _ _ _ _ Hrun)
        as (issued & Hlog & Hall & Hlen).
      eexists (_ :: issued). cbn [fst]. rewrite Hlog, <- app_assoc.
      split; [reflexivity|]. split; [constructor; assumption|cbn; lia].
    + eexists [_]. split; [reflexivity|].
      split; [constructor; [exact Hs|constructor]|cbn; lia].
  - intros w1 w2 w3 height v Hsteps Hfirst Hscroll Hsecond.
    unfold scroll_to_bottom, bind at 1, scroll_height, execute_script, command.
    fold height_script. rewrite Hfirst.
    destruct (Z.to_nat max_steps) as [|steps] eqn:Hn; [lia|].
    cbn [scroll_steps]. unfold bind, scroll_height, execute_script, command.
    fold scroll_script height_script. rewrite Hscroll, Hsecond.
    rewrite JsValue_eqb_refl. reflexivity.
Qed.

End Popups.

Lemma scroll_to_bottom_is_bounded_witness :
  scroll_to_bottom 3 never_ready_site = (never_ready_site, Returned tt).
Proof.
  apply (proj2 (@scroll_to_bottom_is_bounded Scripted.Site _ 3 never_ready_site)
               never_ready_site never_ready_site never_ready_site JsNone JsNone).
  - lia.
  - reflexivity.
  - reflexivity.
  - reflexivity.
Defined.

(** ** Links of the listing cards *)

Section AbsoluteLinks.

Context {W : Type} `{World W}.

Variable bracketed_host_ok : string -> bool.
Variable nfkc_rejects : string -> bool.

#[local] Abbreviation card_of := (extract_card bracketed_host_ok nfkc_rejects).

Lemma urlsplit_scheme_cases :
  forall u default sr,
    Urllib.urlsplit bracketed_host_ok nfkc_rejects u default = Ok sr ->
    explicit_scheme u = Some (Urllib.s_scheme sr)
    \/ Urllib.s_scheme sr
       = Urllib.remove_unsafe (Urllib.rstrip_c0 (Urllib.lstrip_c0 default)).
Proof.
  intros u default sr. unfold Urllib.urlsplit, explicit_scheme.
  destruct (Urllib.split_scheme (Urllib.remove_unsafe (Urllib.lstrip_c0 u)))
    as [[s rest]|]; cbn [option_map fst]; cbv zeta iota beta; intros Hsr;
    [left|right];
    repeat match type of Hsr with
           | context [rbind ?x _] =>
               destruct x; cbn [rbind] in Hsr; try discriminate Hsr
           | context [match ?x with _ => _ end] =>
               destruct x; cbn [rbind] in Hsr; try discriminate Hsr
           end;
    injection Hsr as <-; reflexivity.
Qed.

Lemma urlparse_scheme_cases :
  forall u default pr,
    Urllib.urlparse bracketed_host_ok nfkc_rejects u default = Ok pr ->
    explicit_scheme u = Some (Urllib.scheme pr)
    \/ Urllib.scheme pr
       = Urllib.remove_unsafe (Urllib.rstrip_c0 (Urllib.lstrip_c0 default)).
Proof.
  intros u default pr. unfold Urllib.urlparse.
  destruct (Urllib.urlsplit bracketed_host_ok nfkc_rejects u default)
    as [sr|e] eqn:Hsr; cbn [rbind]; [|discriminate].
  match goal with
  | |- context [let (_, _) := ?x in _] => destruct x
  end.
  intros [= <-]. cbn [Urllib.scheme].
  exact (urlsplit_scheme_cases _ _ Hsr).
Qed.

Lemma explicit_scheme_https_prefix :
  forall rest, explicit_scheme ("https:" ++ rest) = Some "https".
Proof. intros rest. reflexivity. Qed.

Lemma urlunsplit_scheme_prefix :
  forall sr,
    Urllib.s_scheme sr <> "" ->
    exists rest,
      Urllib.urlunsplit sr = (Urllib.s_scheme sr ++ ":" ++ rest)%string.
Proof.
  intros sr Hs. unfold Urllib.urlunsplit.
  apply is_empty_false in Hs. rewrite Hs. cbn [negb].
  repeat match goal with
         | |- context [if ?c then _ else _] => destruct c
         end;
    eexists; rewrite ?string_app_assoc; reflexivity.
Qed.

Lemma urlunparse_https :
  forall pr,
    Urllib.scheme pr = "https" ->
    exists s, explicit_scheme (Urllib.urlunparse pr) = Some s.
Proof.
  intros pr Hs. unfold Urllib.urlunparse.
  match goal with
  | |- context [Urllib.urlunsplit ?sr] =>
      destruct (@urlunsplit_scheme_prefix sr) as [rest ->]
  end.
  - cbn [Urllib.s_scheme]. rewrite Hs. discriminate.
  - cbn [Urllib.s_scheme]. rewrite Hs. exists "https".
    apply explicit_scheme_https_prefix.
Qed.

(** What [urljoin] against the site base returns has a scheme written
    in it. *)
Lemma urljoin_base_absolute :
  forall url v,
    urljoin bracketed_host_ok nfkc_rejects BASE_URL url = Ok v ->
    exists s, explicit_scheme v = Some s.
Proof.
  intros url v. unfold urljoin, Urllib.urljoin.
  change (PyStr.is_empty BASE_URL) with false. cbv iota.
  destruct (PyStr.is_empty url) eqn:Hu.
  - intros [= <-]. exists "https". vm_compute. reflexivity.
  - rewrite urlparse_base. cbn [rbind].
    cbn [Urllib.scheme Urllib.netloc Urllib.path Urllib.params Urllib.query
         Urllib.fragment].
    destruct (Urllib.urlparse bracketed_host_ok nfkc_rejects url "https")
      as [pu|e] eqn:Hpu; cbn [rbind]; [|discriminate].
    destruct (String.eqb (Urllib.scheme pu) "https") eqn:Hs; cbn [negb orb].
    + apply String.eqb_eq in Hs. rewrite Hs.
      change (negb (Urllib.mem "https" Urllib.uses_relative)) with false.
      cbv iota.
      repeat match goal with
             | |- context [if ?c then _ else _] => destruct c
             end;
        intros [= <-]; apply urlunparse_https; solve [exact Hs|reflexivity].
    + intros [= <-].
      destruct (urlparse_scheme_cases _ _ Hpu) as [Hexp|Hdef].
      * eexists. exact Hexp.
      * apply String.eqb_neq in Hs. exfalso. apply Hs. rewrite Hdef.
        vm_compute. reflexivity.
Qed.

(** Every summary of a listing comes from one of its cards. *)
Lemma extract_listing_cards_origin :
  forall (w w' : W) cards c,
    extract_listing_cards bracketed_host_ok nfkc_rejects w
    = (w', Returned cards) ->
    In c cards ->
    exists card, card_of card = Ok c.
Proof.
  intros w w' cards c Hrun Hin.
  unfold extract_listing_cards, bind at 1, try_except in Hrun.
  destruct (bind (wait_css LISTING_CONTAINER_CSS 15)
                 (fun c0 => ret (Some c0)) w) as [w1 [[container|]|e|]];
    try discriminate.
  - unfold bind at 1 in Hrun.
    destruct (scroll_to_bottom 3 w1) as [w2 [[]|e|]]; try discriminate.
    unfold bind at 1 in Hrun.
    destruct (find_elements LISTING_CARD_CSS w2) as [w3 [els|e|]];
      try discriminate.
    unfold of_result in Hrun.
    destruct (extract_cards bracketed_host_ok nfkc_rejects els [])
      as [out|e] eqn:Hcards; [|discriminate].
    injection Hrun as _ <-.
    destruct (extract_cards_origin _ _ _ _ _ Hcards Hin)
      as [[]|[card [_ Hc]]].
    exists card. exact Hc.
  - injection Hrun as _ <-. destruct Hin.
  - destruct (is_Timeout e); [|discriminate].
    injection Hrun as _ <-. destruct Hin.
Qed.

(** X16. Every product link that the listing extractor returns is
    absolute: it has a scheme written in it, so it is not
    protocol-relative and the browser can load it as it is. *)
Theorem listing_links_are_absolute :
  (forall card summary,
      card_of card = Ok summary ->
      exists s, explicit_scheme (product_url summary) = Some s)
  /\ (forall (w w' : W) cards c,
         extract_listing_cards bracketed_host_ok nfkc_rejects w
         = (w', Returned cards) ->
         In c cards ->
         (exists s, explicit_scheme (product_url c) = Some s)
         /\ PyStr.startswith (product_url c) "//" = false).
Proof.
  assert (Hone : forall card summary,
             card_of card = Ok summary ->
             exists s, explicit_scheme (product_url summary) = Some s).
  { intros card summary Hcard.
    destruct (extract_card_url _ _ _ Hcard) as [anchor [_ Hjoin]].
    eapply urljoin_base_absolute. exact Hjoin. }
  split; [exact Hone|].
  intros w w' cards c Hrun Hin.
  destruct (@extract_listing_cards_origin w w' cards c Hrun Hin)
    as [card Hcard].
  destruct (Hone _ _ Hcard) as [s Hs].
  split; [exists s; exact Hs|].
  eapply explicit_scheme_not_relative. exact Hs.
Qed.

(** X17. The loop over the cards of a listing returns when every card
    reads, lacks a node or is stale, and then it returns the summaries
    of the cards that read, in page order, after the summaries it
    started with; with any other failure of a card it returns nothing. *)
Theorem listing_keeps_readable_cards_in_order :
  forall cards acc out,
    extract_cards bracketed_host_ok nfkc_rejects cards acc = Ok out
    <-> (Forall (fun card => reads_or_is_skipped (card_of card)) cards
         /\ out = acc ++ flat_map (fun card => summary_if_read (card_of card))
                                  cards).
Proof.
  induction cards as [|card cards IH]; intros acc out;
    cbn [extract_cards flat_map].
  - rewrite app_nil_r. split.
    + intros [= <-]. split; [constructor|reflexivity].
    + intros [_ ->]. reflexivity.
  - destruct (card_of card) as [summary|e] eqn:Hcard.
    + rewrite IH. cbn [summary_if_read]. rewrite <- app_assoc. split.
      * intros [Hall ->]. split; [|reflexivity].
        constructor; [rewrite Hcard; exact I|exact Hall].
      * intros [Hall ->]. split; [|reflexivity].
        inversion Hall; assumption.
    + cbn [summary_if_read app].
      destruct e;
        try (rewrite IH; split;
             [intros [Hall ->]; split; [|reflexivity];
              constructor; [rewrite Hcard; exact I|exact Hall]
             |intros [Hall ->]; split; [|reflexivity];
              inversion Hall; assumption]);
        (split; [discriminate|]);
        intros [Hall _]; inversion Hall as [|? ? Hbad]; subst;
        rewrite Hcard in Hbad; destruct Hbad.
Qed.

(** X18. When the container of the listing does not show up in time,
    the listing extractor returns no card and has done nothing but
    wait: no scrolling, no lookup of the cards. *)
Theorem listing_without_container_is_empty :
  forall (w w1 : W) record,
    wait_until_present LISTING_CONTAINER_CSS 15 w
    = (w1, Raise TimeoutException) ->
    extract_listing_cards bracketed_host_ok nfkc_rejects (w, record)
    = ((w1, record ++ [CmdWait LISTING_CONTAINER_CSS 15]), Returned []).
Proof.
  intros w w1 record Hwait.
  unfold extract_listing_cards, bind at 1, try_except, bind at 1.
  rewrite wait_recorded, Hwait. reflexivity.
Qed.

End AbsoluteLinks.

Lemma listing_links_are_absolute_witness :
  let card := listing_card (Some "//www.daraz.com.bd/products/acme-i1.html") in
  exists summary,
    extract_card any_bracketed_host no_nfkc_rejection card = Ok summary
    /\ explicit_scheme (product_url summary) = Some "https".
Proof.
  intros card.
  assert (Hrun : exists summary,
             extract_card any_bracketed_host no_nfkc_rejection card
             = Ok summary
             /\ product_url summary
                = "https://www.daraz.com.bd/products/acme-i1.html").
  { eexists. split; vm_compute; reflexivity. }
  destruct Hrun as (summary & Hrun & Hurl). exists summary.
  split; [exact Hrun|].
  destruct (proj1 (@listing_links_are_absolute
                     Scripted.Site _ any_bracketed_host no_nfkc_rejection)
                  card summary Hrun) as [s Hs].
  rewrite Hs. rewrite Hurl in Hs. vm_compute in Hs. exact (eq_sym Hs).
Defined.

Lemma listing_without_container_is_empty_witness :
  extract_listing_cards any_bracketed_host no_nfkc_rejection
                        (never_ready_site, [])
  = ((never_ready_site, [CmdWait LISTING_CONTAINER_CSS 15]), Returned []).
Proof.
  apply (@listing_without_container_is_empty
           Scripted.Site _ any_bracketed_host no_nfkc_rejection
           never_ready_site never_ready_site []).
  reflexivity.
Defined.

(** ** The rating breakdown and the other collections of a product page *)

Section RatingSummary.

Lemma dict_set_fresh :
  forall V key (v : V) d,
    ~ In key (map fst d) -> dict_set key v d = d ++ [(key, v)].
Proof.
  intros V key v d. induction d as [|[k x] d IH]; intros Hfresh;
    cbn [dict_set app].
  - reflexivity.
  - cbn [map fst In] in Hfresh.
    destruct (String.eqb k key) eqn:Hk.
    + apply String.eqb_eq in Hk. tauto.
    + rewrite IH by tauto. reflexivity.
Qed.

Lemma rating_rows_shape :
  forall stars rows acc,
    NoDup (map fst acc ++ map star_key stars) ->
    Forall count_is_natural acc ->
    exists k,
      (k <= List.length stars)%nat /\ (k <= List.length rows)%nat
      /\ map fst (rating_rows stars rows acc)
         = map fst acc ++ firstn k (map star_key stars)
      /\ Forall count_is_natural (rating_rows stars rows acc)
      /\ (Forall row_answers rows ->
          k = Nat.min (List.length stars) (List.length rows)).
Proof.
  assert (Hnone : forall stars rows acc,
             (stars = [] \/ rows = []) ->
             Forall count_is_natural acc ->
             rating_rows stars rows acc = acc ->
             exists k,
               (k <= List.length stars)%nat /\ (k <= List.length rows)%nat
               /\ map fst (rating_rows stars rows acc)
                  = map fst acc ++ firstn k (map star_key stars)
               /\ Forall count_is_natural (rating_rows stars rows acc)
               /\ (Forall row_answers rows ->
                   k = Nat.min (List.length stars) (List.length rows))).
  { intros stars rows acc Hempty Hacc ->. exists 0%nat.
    cbn [firstn]. rewrite app_nil_r.
    repeat split; try lia; try assumption.
    intros _. destruct Hempty as [-> | ->]; cbn; lia. }
  induction stars as [|star stars IH]; intros rows acc Hkeys Hacc.
  - apply Hnone; [now left|assumption|destruct rows; reflexivity].
  - destruct rows as [|li rows];
      [apply Hnone; [now right|assumption|reflexivity]|].
    cbn [map] in Hkeys.
    assert (Hfresh : ~ In (star_key star) (map fst acc)).
    { intros Hin. apply NoDup_remove_2 in Hkeys. apply Hkeys.
      apply in_or_app. now left. }
    assert (Hstep : forall cnt,
               0 <= cnt ->
               exists k,
                 (k <= List.length stars)%nat /\ (k <= List.length rows)%nat
                 /\ map fst (rating_rows stars rows
                                         (dict_set (star_key star) cnt acc))
                    = map fst acc
                        ++ star_key star :: firstn k (map star_key stars)
                 /\ Forall count_is_natural
                           (rating_rows stars rows
                                        (dict_set (star_key star) cnt acc))
                 /\ (Forall row_answers rows ->
                     k = Nat.min (List.length stars) (List.length rows))).
    { intros cnt Hcnt. rewrite dict_set_fresh by exact Hfresh.
      destruct (IH rows (acc ++ [(star_key star, cnt)]))
        as (k & Hk1 & Hk2 & Hmap & Hall & Hmin).
      - rewrite map_app. cbn [map fst]. rewrite <- app_assoc. exact Hkeys.
      - apply Forall_app. split; [assumption|].
        constructor; [exact Hcnt|constructor].
      - exists k. rewrite Hmap, map_app. cbn [map fst].
        rewrite <- app_assoc. repeat split; assumption. }
    cbn [rating_rows]. fold (star_key star).
    destruct (el_find_element li "span.percent") as [cnt_el|e] eqn:Hli.
    + destruct (Hstep (match _int_from_text (_text_or_empty cnt_el) with
                       | Some n => n
                       | None => 0
                       end)) as (k & Hk1 & Hk2 & Hmap & Hall & Hmin).
      { destruct (_int_from_text (_text_or_empty cnt_el)) as [n|] eqn:Hn;
          [exact (_int_from_text_nonneg _ Hn)|lia]. }
      exists (S k). cbn [List.length firstn map].
      repeat split; try lia; try assumption.
      intros Hrows. inversion Hrows; subst. rewrite Hmin by assumption.
      reflexivity.
    + destruct e;
        try (solve [exists 0%nat; cbn [firstn]; rewrite app_nil_r;
                    repeat split; try (cbn; lia); try assumption;
                    intros Hrows; inversion Hrows as [|? ? Hbad]; subst;
                    unfold row_answers in Hbad; rewrite Hli in Hbad;
                    destruct Hbad]).
      destruct (Hstep 0) as (k & Hk1 & Hk2 & Hmap & Hall & Hmin); [lia|].
      exists (S k). cbn [List.length firstn map].
      repeat split; try lia; try assumption.
      intros Hrows. inversion Hrows; subst. rewrite Hmin by assumption.
      reflexivity.
Qed.

(** X19. The rating breakdown read from a product page has at most five
    entries, keyed [5_star], [4_star], ... in that order without a gap,
    each with a count that is not negative; and it has one entry for
    each of the first five rows when every such row answers the lookup
    of its count (a row without a count gets 0). *)
Theorem rating_summary_shape :
  forall rows,
  exists k,
    (k <= 5)%nat /\ (k <= List.length rows)%nat
    /\ map fst (rating_rows [5; 4; 3; 2; 1] (firstn 5 rows) [])
       = firstn k star_keys
    /\ Forall count_is_natural
              (rating_rows [5; 4; 3; 2; 1] (firstn 5 rows) [])
    /\ (Forall row_answers (firstn 5 rows) ->
        k = Nat.min 5 (List.length rows)).
Proof.
  intros rows.
  destruct (@rating_rows_shape [5; 4; 3; 2; 1] (firstn 5 rows) [])
    as (k & Hk1 & Hk2 & Hmap & Hall & Hmin).
  - change (map fst [] ++ map star_key [5; 4; 3; 2; 1]) with star_keys.
    unfold star_keys.
    repeat (constructor; [cbn [In]; intuition discriminate|]).
    constructor.
  - constructor.
  - exists k. rewrite length_firstn in Hk2, Hmin. cbn [List.length] in *.
    repeat split; try lia; try assumption.
    intros Hrows. rewrite Hmin by assumption. lia.
Qed.

End RatingSummary.

Section ProductDetails.

Context {W : Type} `{World W}.

Lemma bind_returned :
  forall A B (m : M W A) (k : A -> M W B) w w' b,
    bind m k w = (w', Returned b) ->
    exists a w1, m w = (w1, Returned a) /\ k a w1 = (w', Returned b).
Proof.
  intros A B m k w w' b. unfold bind.
  destruct (m w) as [w1 [a|e|]]; try discriminate.
  intros Hk. exists a, w1. split; [reflexivity|exact Hk].
Qed.

(** A lookup of nodes read under [except Exception]: what comes back is
    the default, or what the body made of the nodes found. *)
Lemma guarded_lookup_returned :
  forall A css (body : list Element -> M W A) default w w' a,
    try_except (found <- find_elements css ;; body found)
               any_Exception (ret default) w
    = (w', Returned a) ->
    a = default
    \/ exists found w0, body found w0 = (w', Returned a).
Proof.
  intros A css body default w w' a. unfold try_except, bind.
  destruct (find_elements css w) as [w0 [found|e|]].
  - destruct (body found w0) as [w1 [x|e|]] eqn:Hbody.
    + intros [= <- <-]. right. exists found, w0. exact Hbody.
    + cbn [any_Exception ret]. intros [= _ <-]. now left.
    + discriminate.
  - cbn [any_Exception ret]. intros [= _ <-]. now left.
  - discriminate.
Qed.

Lemma thumbnail_sources_nonempty :
  forall thumbs, Forall (fun u => u <> "") (thumbnail_sources thumbs).
Proof.
  intros thumbs. unfold thumbnail_sources.
  assert (Hfrom : forall acc,
             Forall (fun u => u <> "") acc ->
             Forall (fun u => u <> "")
                    (fold_left
                       (fun urls t =>
                          let src := _get_attr t "src" in
                          if PyStr.is_empty src then urls
                          else (urls ++ [src])%list)
                       thumbs acc)).
  { induction thumbs as [|t thumbs IH]; intros acc Hacc; cbn [fold_left];
      [exact Hacc|].
    apply IH. cbv zeta.
    destruct (PyStr.is_empty (_get_attr t "src")) eqn:Hsrc; [exact Hacc|].
    apply Forall_app. split; [exact Hacc|].
    constructor; [apply is_empty_false; exact Hsrc|constructor]. }
  apply Hfrom. constructor.
Qed.

Lemma category_texts_nonempty :
  forall crumbs texts,
    category_texts crumbs = Ok texts -> Forall (fun c => c <> "") texts.
Proof.
  intros crumbs texts. rewrite category_texts_all. intros [= <-].
  apply Forall_forall. intros t Ht. apply filter_In in Ht.
  destruct Ht as [_ Ht]. apply is_empty_false.
  destruct (PyStr.is_empty t); [discriminate Ht|reflexivity].
Qed.

(** X20. Whatever the product page looks like, the details that
    [extract_product_level_details] returns hold no empty category and
    no empty image URL, and a rating breakdown of at most five entries
    keyed [5_star], [4_star], ... in that order, with counts that are
    not negative. *)
Theorem product_details_collections_are_clean :
  forall (w w' : W) pd,
    extract_product_level_details w = (w', Returned pd) ->
    Forall (fun c => c <> "") (product_categories pd)
    /\ Forall (fun u => u <> "") (product_image_urls pd)
    /\ (exists k, (k <= 5)%nat
                  /\ map fst (rating_summary_map pd) = firstn k star_keys)
    /\ Forall count_is_natural (rating_summary_map pd).
Proof.
  intros w w' pd Hrun. unfold extract_product_level_details in Hrun.
  apply bind_returned in Hrun. destruct Hrun as (name & w1 & _ & Hrun).
  apply bind_returned in Hrun. destruct Hrun as (seller & w2 & _ & Hrun).
  apply bind_returned in Hrun. destruct Hrun as (psr & w3 & _ & Hrun).
  apply bind_returned in Hrun.
  destruct Hrun as (categories & w4 & Hcategories & Hrun).
  apply bind_returned in Hrun.
  destruct Hrun as (images & w5 & Himages & Hrun).
  apply bind_returned in Hrun. destruct Hrun as (overall & w6 & _ & Hrun).
  apply bind_returned in Hrun.
  destruct Hrun as (summary & w7 & Hsummary & Hrun).
  injection Hrun as _ <-.
  cbn [product_categories product_image_urls rating_summary_map].
  split; [|split].
  - apply guarded_lookup_returned in Hcategories.
    destruct Hcategories as [->|(crumbs & w0 & Hbody)]; [constructor|].
    unfold of_result in Hbody.
    destruct (category_texts crumbs) as [texts|e] eqn:Htexts;
      [|discriminate].
    injection Hbody as _ <-. exact (category_texts_nonempty _ Htexts).
  - apply guarded_lookup_returned in Himages.
    destruct Himages as [->|(thumbs & w0 & Hbody)]; [constructor|].
    injection Hbody as _ <-. apply thumbnail_sources_nonempty.
  - apply guarded_lookup_returned in Hsummary.
    destruct Hsummary as [->|(rows & w0 & Hbody)].
    + split; [exists 0%nat; split; [lia|reflexivity]|constructor].
    + injection Hbody as _ <-.
      destruct (@rating_rows_shape [5; 4; 3; 2; 1] (firstn 5 rows) [])
        as (k & Hk1 & _ & Hmap & Hall & _).
      * change (map fst [] ++ map star_key [5; 4; 3; 2; 1]) with star_keys.
        unfold star_keys.
        repeat (constructor; [cbn [In]; intuition discriminate|]).
        constructor.
      * constructor.
      * split; [|exact Hall]. exists k. split; [exact Hk1|exact Hmap].
Qed.

End ProductDetails.

Lemma product_details_collections_are_clean_witness :
  exists pd,
    extract_product_level_details breadcrumb_site
    = (breadcrumb_site, Returned pd)
    /\ Forall (fun c => c <> "") (product_categories pd)
    /\ Forall (fun u => u <> "") (product_image_urls pd).
Proof.
  assert (Hrun : exists pd,
             extract_product_level_details breadcrumb_site
             = (breadcrumb_site, Returned pd)).
  { eexists. vm_compute. reflexivity. }
  destruct Hrun as [pd Hrun]. exists pd. split; [exact Hrun|].
  destruct (@product_details_collections_are_clean
              Scripted.Site _ breadcrumb_site breadcrumb_site pd Hrun)
    as (Hcategories & Himages & _).
  split; assumption.
Defined.

(** ** What the sink leaves in the files *)

Section SinkContents.

(** X21. What [write_reviews_to_csv] leaves behind when every row fits
    the header. In mode [w] the file holds the header and then the rows,
    whatever it held before; in mode [a] it holds what it held before
    (nothing, if it was not there) and then the rows, with no header
    added. No other file changes. *)
Theorem sink_overwrites_or_appends :
  forall path rows header records fs,
    written_as header rows records ->
    (exists fs',
        write_reviews_to_csv path rows header false fs = (fs', Returned tt)
        /\ fs' path = Some (map CellStr header :: records)
        /\ forall other, other <> path -> fs' other = fs other)
    /\ (exists fs',
           write_reviews_to_csv path rows header true fs = (fs', Returned tt)
           /\ fs' path = Some (content_of fs path ++ records)
           /\ forall other, other <> path -> fs' other = fs other).
Proof.
  intros path rows header records fs Hall.
  assert (Hother : forall written other,
             other <> path -> write_file path written fs other = fs other).
  { intros written other Hne. unfold write_file.
    apply String.eqb_neq in Hne. rewrite Hne. reflexivity. }
  split; eexists; unfold write_reviews_to_csv; cbn [negb];
    rewrite (write_rows_written_as _ Hall); cbn [of_result];
    (split; [reflexivity|]);
    (split; [rewrite write_file_same; reflexivity|apply Hother]).
Qed.

Lemma write_rows_stops :
  forall header before row after records written e,
    written_as header before records ->
    _dict_to_list header row = Raise e ->
    write_rows header (before ++ row :: after) written
    = (written ++ records, Raise e).
Proof.
  intros header before row after records written e Hall Hrow.
  revert written.
  induction Hall as [|r record rs records Hr Hall IH]; intros written;
    cbn [app write_rows].
  - rewrite Hrow, app_nil_r. reflexivity.
  - rewrite Hr, IH, <- app_assoc. reflexivity.
Qed.

Lemma dict_to_list_unknown_key :
  forall header row key value,
    In (key, value) row ->
    ~ In key header ->
    _dict_to_list header row = Raise ValueError.
Proof.
  intros header row key value Hin Hout. unfold _dict_to_list.
  destruct (forallb (fun kv => Urllib.mem (fst kv) header) row) eqn:Hall;
    [|reflexivity].
  exfalso. apply Hout. rewrite forallb_forall in Hall.
  specialize (Hall _ Hin). cbn [fst] in Hall. unfold Urllib.mem in Hall.
  apply existsb_exists in Hall. destruct Hall as (k & Hk & Heq).
  apply String.eqb_eq in Heq. subst. exact Hk.
Qed.

(** X22. A row with a column that the header does not have makes
    [write_reviews_to_csv] raise [ValueError]; the rows before it are
    in the file by then, the rows after it are not. *)
Theorem sink_stops_at_unknown_column :
  forall path before row after header records key value append fs,
    written_as header before records ->
    In (key, value) row ->
    ~ In key header ->
    exists fs',
      write_reviews_to_csv path (before ++ row :: after) header append fs
      = (fs', Raised ValueError)
      /\ fs' path
         = Some ((if append then content_of fs path
                  else [map CellStr header]) ++ records).
Proof.
  intros path before row after header records key value append fs
         Hall Hin Hout.
  pose proof (dict_to_list_unknown_key _ _ _ _ Hin Hout) as Hrow.
  eexists. unfold write_reviews_to_csv.
  rewrite (@write_rows_stops header before row after records _ ValueError
             Hall Hrow). cbn [of_result].
  split; [reflexivity|]. rewrite write_file_same.
  destruct append; reflexivity.
Qed.

(** X23. Every row that [scrape_range] assembles has the columns of the
    header, each once and in the order of the header, so the sink
    writes it whole: one cell per column, none left to the default and
    none refused. *)
Theorem assembled_row_has_the_header_columns :
  forall url card pd total rv timestamp,
    let row := assemble_row url card pd total rv timestamp in
    map fst row = headers
    /\ _dict_to_list headers row = Ok (map snd row).
Proof.
  intros url card pd total rv timestamp row. split; reflexivity.
Qed.

End SinkContents.

Lemma sink_overwrites_or_appends_witness :
  let fs := write_file "out.csv" [header_record] no_files in
  (exists fs',
      write_reviews_to_csv "out.csv" product_a_rows headers false fs
      = (fs', Returned tt)
      /\ fs' "out.csv" = Some (header_record :: records_of product_a_rows))
  /\ (exists fs',
         write_reviews_to_csv "out.csv" product_a_rows headers true fs
         = (fs', Returned tt)
         /\ fs' "out.csv" = Some ([header_record] ++ records_of product_a_rows)).
Proof.
  intros fs.
  assert (Hall : written_as headers product_a_rows (records_of product_a_rows)).
  { repeat constructor. }
  destruct (@sink_overwrites_or_appends "out.csv" product_a_rows headers
              (records_of product_a_rows) fs Hall)
    as [(fw & Hw & Hfw & _) (fa & Ha & Hfa & _)].
  split; [exists fw|exists fa]; (split; [assumption|]); assumption.
Defined.

Lemma sink_stops_at_unknown_column_witness :
  exists fs',
    write_reviews_to_csv "out.csv" (product_a_rows ++ stray_row :: product_b_rows)
                         headers true no_files
    = (fs', Raised ValueError)
    /\ fs' "out.csv" = Some ([] ++ records_of product_a_rows).
Proof.
  apply (@sink_stops_at_unknown_column
           "out.csv" product_a_rows stray_row product_b_rows headers
           (records_of product_a_rows) "Stars" (CellInt 5) true no_files).
  - repeat constructor.
  - right. left. reflexivity.
  - cbn [In headers]. intuition discriminate.
Defined.

(** ** Whole runs of the orchestrator *)

Section WholeRuns.

Context {W : Type} `{World W}.

Variable bracketed_host_ok : string -> bool.
Variable nfkc_rejects : string -> bool.

#[local] Abbreviation R := (W * list Command)%type.
#[local] Abbreviation St := (Machine (W := R)).

Lemma set_timeout_recorded :
  forall seconds (w : W) record,
    command (driver_set_page_load_timeout seconds) ((w, record) : R)
    = ((fst (driver_set_page_load_timeout seconds w),
        record ++ [CmdSetPageLoadTimeout seconds]),
       match snd (driver_set_page_load_timeout seconds w) with
       | Ok a => Returned a
       | Raise e => Raised e
       end).
Proof. intros seconds w record. apply (@run_recorded W unit). Qed.

Lemma quit_recorded :
  forall (w : W) record,
    suppress_Exception (command driver_quit) ((w, record) : R)
    = ((fst (driver_quit w), record ++ [CmdQuit]), Returned tt).
Proof.
  intros w record. unfold suppress_Exception.
  change (command driver_quit ((w, record) : R))
    with (command (recorded CmdQuit driver_quit) (w, record)).
  rewrite (@run_recorded W unit).
  destruct (snd (driver_quit w)); reflexivity.
Qed.


Lemma py_range_empty : forall a b, b <= a -> py_range a b = [].
Proof.
  intros a b Hle. unfold py_range.
  replace (Z.to_nat (b - a)) with 0%nat by lia. reflexivity.
Qed.

(** X25. Over an empty range of pages ([end_page] below [start_page])
    [scrape_range] loads nothing and prints nothing: it sets the
    page-load timeout, leaves a file that holds the header alone, and
    quits the browser. *)
Theorem scrape_range_of_no_page :
  forall fuel start_page end_page out_csv (st : St) w1,
    end_page < start_page ->
    driver_set_page_load_timeout 90 (fst (world st)) = (w1, Ok tt) ->
    exists st',
      scrape_range bracketed_host_ok nfkc_rejects fuel start_page end_page
                   out_csv st = (st', Returned tt)
      /\ snd (world st')
         = snd (world st) ++ [CmdSetPageLoadTimeout 90; CmdQuit]
      /\ stdout st' = stdout st
      /\ files st' out_csv = Some [header_record]
      /\ forall other, other <> out_csv -> files st' other = files st other.
Proof.
  intros fuel start_page end_page out_csv [[w record] out fs] w1 Hrange Hset.
  cbn [world fst snd files stdout] in *. eexists.
  unfold scrape_range, bind at 1, on_world at 1. cbn [world stdout files].
  rewrite set_timeout_recorded, Hset. cbn [fst snd].
  unfold bind at 1, on_files. cbn [world stdout files].
  rewrite write_header_only, py_range_empty by lia.
  cbn [process_pages]. unfold try_finally, ret, on_world.
  cbn [world stdout files]. rewrite quit_recorded.
  split; [reflexivity|]. cbn [world stdout files snd].
  rewrite <- app_assoc. split; [reflexivity|]. split; [reflexivity|].
  split; [apply write_file_same|].
  intros other Hne. unfold write_file. apply String.eqb_neq in Hne.
  rewrite Hne. reflexivity.
Qed.

End WholeRuns.


Lemma scrape_range_of_no_page_witness :
  exists st',
    scrape_range any_bracketed_host no_nfkc_rejection 2 5 4 "out.csv"
                 (fresh_machine never_ready_site)
    = (st', Returned tt)
    /\ snd (world st') = [CmdSetPageLoadTimeout 90; CmdQuit]
    /\ files st' "out.csv" = Some [header_record].
Proof.
  destruct (@scrape_range_of_no_page
              Scripted.Site _ any_bracketed_host no_nfkc_rejection
              2%nat 5 4 "out.csv" (fresh_machine never_ready_site)
              never_ready_site)
    as (st' & Hrun & Hrecord & _ & Hfile & _).
  - lia.
  - reflexivity.
  - exists st'. split; [exact Hrun|]. split; [exact Hrecord|exact Hfile].
Defined.

(** ** One product, from its page to the file *)

Section OneProduct.

Context {W : Type} `{World W}.

Variable bracketed_host_ok : string -> bool.
Variable nfkc_rejects : string -> bool.

Lemma assemble_rows_run :
  forall url card pd total reviews rows_to_write (w : W),
  exists w' timestamps,
    assemble_rows url card pd total reviews rows_to_write w
    = (w', Returned
             (rows_to_write
                ++ map (fun stamped =>
                          assemble_row url card pd total (fst stamped)
                                       (snd stamped))
                       (combine reviews timestamps)))
    /\ List.length timestamps = List.length reviews.
Proof.
  intros url card pd total reviews.
  induction reviews as [|rv reviews IH]; intros acc w; cbn [assemble_rows].
  - exists w, []. cbn. rewrite app_nil_r. split; reflexivity.
  - unfold bind, _now_iso. destruct (now_isoformat w) as [w1 t].
    destruct (IH (acc ++ [assemble_row url card pd total rv t]) w1)
      as (w' & timestamps & Hrun & Hlen).
    exists w', (t :: timestamps). rewrite Hrun, <- app_assoc.
    cbn [combine map fst snd List.length app]. split; [reflexivity|lia].
Qed.

Lemma assembled_rows_written :
  forall url card pd total stamped,
    written_as headers
      (map (fun s : Review * string =>
              assemble_row url card pd total (fst s) (snd s)) stamped)
      (map (fun s : Review * string =>
              map snd (assemble_row url card pd total (fst s) (snd s)))
           stamped).
Proof.
  intros url card pd total stamped.
  induction stamped as [|s stamped IH]; cbn [map]; constructor;
    [reflexivity|exact IH].
Qed.

(** X26. One product that passes every gate: when its page loads, it
    shows a rating count, its details are read and the traverser
    returns some reviews, [scrape_range] appends to the output file one
    row for each review, in the order of the reviews, after what the
    file held, and reports their number. *)
Theorem product_appends_one_row_per_review :
  forall fuel out_csv n_cards idx card (st : Machine (W := W))
         w1 w2 w3 w4 w5 total_rating pd reviews content,
    product_url card <> "" ->
    safe_get (product_url card) (Some "h1.pdp-mod-product-badge-title") 3 15
             (world st) = (w1, Returned true) ->
    maybe_close_popups w1 = (w2, Returned tt) ->
    product_has_reviews w2 = (w3, Returned (true, total_rating)) ->
    extract_product_level_details w3 = (w4, Returned pd) ->
    iterate_all_reviews fuel w4 = (w5, Returned reviews) ->
    reviews <> [] ->
    files st out_csv = Some content ->
    exists st' timestamps,
      process_card fuel out_csv n_cards idx card st = (st', Returned tt)
      /\ List.length timestamps = List.length reviews
      /\ files st' out_csv
         = Some (content
                   ++ review_records card pd total_rating reviews timestamps)
      /\ last (stdout st') ""
         = ("      Wrote " ++ PyStr.of_Z (len reviews) ++ " review rows.")%string.
Proof.
  intros fuel out_csv n_cards idx card [w out fs]
         w1 w2 w3 w4 w5 total pd reviews content
         Hurl Hload Hpopups Hgate Hdetails Hreviews Hsome Hfile.
  cbn [world stdout files] in *.
  destruct (@assemble_rows_run (product_url card) card pd total reviews [] w5)
    as (w6 & timestamps & Hrows & Hlen).
  exists (mkMachine w6
            (out ++ [("    [" ++ PyStr.of_Z idx ++ "/" ++ PyStr.of_Z n_cards
                        ++ "] " ++ product_url card)%string;
                     ("      Wrote " ++ PyStr.of_Z (len reviews)
                        ++ " review rows.")%string])
            (write_file out_csv
               (content ++ review_records card pd total reviews timestamps)
               fs)),
    timestamps.
  split; [|split; [exact Hlen|split]].
  - unfold process_card. cbv zeta. unfold bind at 1, print at 1.
    cbn [world stdout files].
    apply is_empty_false in Hurl. rewrite Hurl.
    unfold bind at 1, on_world at 1. cbn [world stdout files].
    rewrite Hload. cbn [negb].
    unfold bind at 1, on_world at 1. cbn [world stdout files].
    rewrite Hpopups.
    unfold bind at 1, on_world at 1. cbn [world stdout files].
    rewrite Hgate. cbn [negb].
    unfold bind at 1, on_world at 1. cbn [world stdout files].
    rewrite Hdetails.
    unfold bind at 1, on_world at 1. cbn [world stdout files].
    rewrite Hreviews.
    destruct reviews as [|rv reviews]; [congruence|].
    unfold bind at 1, on_world at 1. cbn [world stdout files].
    rewrite Hrows. cbn [app].
    unfold bind at 1, on_files at 1. cbn [world stdout files].
    rewrite (@append_rows out_csv headers _ _ fs content Hfile
               (assembled_rows_written (product_url card) card pd total
                  (combine (rv :: reviews) timestamps))).
    unfold print. cbn [world stdout files].
    rewrite <- app_assoc. cbn [app].
    unfold len. rewrite length_map, length_combine, Hlen, Nat.min_id.
    reflexivity.
  - cbn [files]. apply write_file_same.
  - cbn [stdout].
    match goal with
    | |- last (?l ++ [?a; ?b]) _ = _ =>
        replace (l ++ [a; b]) with ((l ++ [a]) ++ [b])
          by (rewrite <- app_assoc; reflexivity)
    end.
    apply last_last.
Qed.

End OneProduct.

Lemma product_appends_one_row_per_review_witness :
  let card := acme_card in
  let st := mkMachine product_site [] (write_file "out.csv" [header_record]
                                                  no_files) in
  exists st' timestamps,
    process_card 2 "out.csv" 1 1 card st = (st', Returned tt)
    /\ List.length timestamps = 1%nat
    /\ files st' "out.csv"
       = Some ([header_record]
                 ++ review_records card
                      (mkDetail "Acme Phone X" "" "" [] [] "" [])
                      (Some 1) [review_of 5 "Rahim" "Good product"]
                      timestamps).
Proof.
  intros card st.
  destruct (@product_appends_one_row_per_review
              Scripted.Site _ 2%nat "out.csv" 1 1 card st
              product_site product_site product_site product_site product_site
              (Some 1) (mkDetail "Acme Phone X" "" "" [] [] "" [])
              [review_of 5 "Rahim" "Good product"] [header_record])
    as (st' & timestamps & Hrun & Hlen & Hfile & _).
  - discriminate.
  - vm_compute. reflexivity.
  - vm_compute. reflexivity.
  - vm_compute. reflexivity.
  - vm_compute. reflexivity.
  - vm_compute. reflexivity.
  - discriminate.
  - reflexivity.
  - exists st', timestamps.
    split; [exact Hrun|]. split; [exact Hlen|exact Hfile].
Defined.

(** ** Counts read from the pages *)

Section Counts.

Context {W : Type} `{World W}.

Variable bracketed_host_ok : string -> bool.
Variable nfkc_rejects : string -> bool.

(** X27. Every count that the scraper reads from a page is a natural
    number: the likes of a review record, the number sold of a listing
    summary and the number of ratings that the review gate returns are
    never negative. *)
Theorem counts_are_never_negative :
  (forall it r, extract_item it = Ok r -> 0 <= review_like r)
  /\ (forall card summary n,
         extract_card bracketed_host_ok nfkc_rejects card = Ok summary ->
         total_sold summary = Some n ->
         0 <= n)
  /\ (forall (w w' : W) has_reviews n,
         product_has_reviews w = (w', Returned (has_reviews, Some n)) ->
         0 <= n).
Proof.
  split; [|split].
  - intros it r Hr.
    destruct (extract_item_inv _ Hr) as (_ & _ & _ & _ & _ & Hlikes).
    revert Hlikes. generalize (review_like r). intros likes.
    unfold item_likes.
    destruct (el_find_element it Css.left_content) as [left_content|e];
      cbn [rbind except_NoSuchElement].
    + destruct (el_find_elements left_content Css.span)
        as [[|sp spans]|e]; cbn [rbind except_NoSuchElement].
      * intros [= <-]. lia.
      * destruct (_int_from_text
                    (_text_or_empty (last (sp :: spans) left_content)))
          as [n|] eqn:Hn; cbn [except_NoSuchElement]; intros [= <-];
          [exact (_int_from_text_nonneg _ Hn)|lia].
      * destruct e; intros [= <-]; lia.
    + destruct e; intros [= <-]; lia.
  - intros card summary n. unfold extract_card.
    destruct (el_find_element card "div._95X4G a[href]") as [anchor|e];
      cbn [rbind]; [|discriminate].
    destruct (urljoin bracketed_host_ok nfkc_rejects BASE_URL
                      (normalize_url (_get_attr anchor "href")))
      as [url|e]; cbn [rbind]; [|discriminate].
    destruct (el_find_element card card_image_css); cbn [rbind];
      [|discriminate].
    destruct (el_find_element card "div.RfADt a"); cbn [rbind];
      [|discriminate].
    destruct (el_find_element card "div.aBrP0 span.ooOxS"); cbn [rbind];
      [|discriminate].
    destruct (el_find_element card "span._1cEkb span") as [sold_el|e];
      cbn [rbind except_NoSuchElement].
    + destruct (except_NoSuchElement _ ""); cbn [rbind]; [|discriminate].
      intros [= <-]. cbn [total_sold]. apply _int_from_text_nonneg.
    + destruct e; cbn [rbind]; try discriminate.
      destruct (except_NoSuchElement _ ""); cbn [rbind]; [|discriminate].
      intros [= <-]. cbn [total_sold]. discriminate.
  - intros w w' has_reviews n.
    cbv beta zeta delta [product_has_reviews try_except bind wait_css
                         find_element find_elements command ret raise].
    destruct (wait_until_present "a.pdp-review-summary__link" 10 w)
      as [w1 [link|e]].
    + cbv zeta.
      destruct (PyStr.contains "No Ratings" (_text_or_empty link));
        [discriminate|].
      intros [= _ _ Hn]. exact (_int_from_text_nonneg _ Hn).
    + destruct (is_Timeout e); [|discriminate].
      destruct (driver_find_elements "span.qzqFw" w1)
        as [w2 [[|small rest]|e2]].
      * cbn [is_NoSuchElement Exn_eqb]. discriminate.
      * intros [= _ _ Hn]. exact (_int_from_text_nonneg _ Hn).
      * destruct (is_NoSuchElement e2); discriminate.
Qed.

End Counts.

Lemma counts_are_never_negative_witness :
  extract_item (Dom.review_item 5 "Rahim" "Good product")
  = Ok (review_of 5 "Rahim" "Good product")
  /\ 0 <= review_like (review_of 5 "Rahim" "Good product").
Proof.
  assert (Hr : extract_item (Dom.review_item 5 "Rahim" "Good product")
               = Ok (review_of 5 "Rahim" "Good product"))
    by (vm_compute; reflexivity).
  split; [exact Hr|].
  exact (proj1 (@counts_are_never_negative
                  Scripted.Site _ any_bracketed_host no_nfkc_rejection)
               _ _ Hr).
Defined.
